(** * oncall-agent: log analysis pipeline

    A shallow embedding of the analysis pipeline of the repository
    (app/integrations/gcp/logging_client.py, app/services/llm_service.py,
    app/services/analysis_service.py, app/schemas/analysis.py,
    app/core/exceptions.py, app/api/routes/analysis.py) and the properties
    of its response normalisation, finding materialisation, statistics,
    filter construction and error wrapping.

    Conventions.
    - A Python [str] is a list of Unicode code points ([N]); slicing is
      [firstn]/[skipn], so "the first 1000 characters" counts code points.
    - A Python [dict] is an association list in insertion order; assigning
      an existing key keeps its position, assigning a new key appends.
    - Code that can raise returns a [result]; exceptions carry their class,
      message, code, context and cause as [OnCallAgentError] does.
    - Calls that leave the process (Cloud Logging, the model provider, the
      report writer, the clock) are fields of an environment record and are
      recorded in a trace.
    - The limits of the interpreter that the JSON decoder can reach (the
      recursion depth, the number of digits of an integer literal) are
      fields of the same record. *)

From Stdlib Require Import List NArith ZArith Bool Lia String Ascii.
From Stdlib Require Import DecimalString.
Import ListNotations.

Set Implicit Arguments.
Set Warnings "-register-all".

(* ===================================================================== *)
(** ** Python strings *)
(* ===================================================================== *)

Module Py.

Definition str := list N.

(** [lit] reads an ASCII literal as a [str]. *)
Definition lit (s : string) : str :=
  map N_of_ascii (list_ascii_of_string s).

Definition quote : N := 34%N.

Fixpoint str_eqb (a b : str) : bool :=
  match a, b with
  | [], [] => true
  | x :: a', y :: b' => N.eqb x y && str_eqb a' b'
  | _, _ => false
  end.

(** [str.isspace] for one code point (the table of CPython's
    [_PyUnicode_IsWhitespace]). *)
Definition isspace (c : N) : bool :=
  ((9 <=? c) && (c <=? 13) || (28 <=? c) && (c <=? 32)
   || (c =? 133) || (c =? 160) || (c =? 5760)
   || (8192 <=? c) && (c <=? 8202)
   || (c =? 8232) || (c =? 8233) || (c =? 8239) || (c =? 8287)
   || (c =? 12288))%N.

Fixpoint lstrip (s : str) : str :=
  match s with
  | c :: s' => if isspace c then lstrip s' else s
  | [] => []
  end.

Definition rstrip (s : str) : str := rev (lstrip (rev s)).

(** [s.strip()] *)
Definition strip (s : str) : str := lstrip (rstrip s).

(** [s.startswith(p)] *)
Fixpoint startswith (s p : str) : bool :=
  match p, s with
  | [], _ => true
  | x :: p', y :: s' => N.eqb x y && startswith s' p'
  | _ :: _, [] => false
  end.

(** [s.endswith(p)] *)
Definition endswith (s p : str) : bool := startswith (rev s) (rev p).

(** [s[n:]] and [s[:n]] for [n >= 0], and [s[:-n]] for [n > 0]. *)
Definition slice_from (n : nat) (s : str) : str := skipn n s.
Definition slice_to (n : nat) (s : str) : str := firstn n s.
Definition slice_to_neg (n : nat) (s : str) : str :=
  firstn (List.length s - n) s.

(** [p in s] for two strings: [p] occurs as a substring of [s]. *)
Fixpoint contains (s p : str) : bool :=
  startswith s p ||
  match s with
  | [] => false
  | _ :: s' => contains s' p
  end.

End Py.

Import Py.

(* ===================================================================== *)
(** ** Dictionaries in insertion order *)
(* ===================================================================== *)

Section Dict.
Variables K V : Type.
Variable eqb : K -> K -> bool.

Definition dict := list (K * V).

(** [k in d] *)
Fixpoint dict_mem (d : dict) (k : K) : bool :=
  match d with
  | [] => false
  | (k', _) :: d' => eqb k' k || dict_mem d' k
  end.

(** [d.get(k)] as an option; [d.get(k, default)] is [dict_get_default]. *)
Fixpoint dict_lookup (d : dict) (k : K) : option V :=
  match d with
  | [] => None
  | (k', v) :: d' => if eqb k' k then Some v else dict_lookup d' k
  end.

Definition dict_get_default (d : dict) (k : K) (default : V) : V :=
  match dict_lookup d k with
  | Some v => v
  | None => default
  end.

(** [d[k] = v] *)
Fixpoint dict_set (d : dict) (k : K) (v : V) : dict :=
  match d with
  | [] => [(k, v)]
  | (k', v') :: d' =>
      if eqb k' k then (k', v) :: d' else (k', v') :: dict_set d' k v
  end.

(** [dict(pairs)] *)
Definition dict_of_pairs (pairs : list (K * V)) : dict :=
  fold_left (fun d kv => dict_set d (fst kv) (snd kv)) pairs [].

Definition dict_keys (d : dict) : list K := map fst d.
Definition dict_values (d : dict) : list V := map snd d.

End Dict.

(* ===================================================================== *)
(** ** Python values *)
(* ===================================================================== *)

(** The values [json.loads] produces, which are also the values the raw
    findings are made of. A float keeps the text it was read from: no
    property below depends on floating-point arithmetic. *)
Inductive pyval : Type :=
| PNone
| PBool (b : bool)
| PInt (z : Z)
| PFloat (lexeme : str)
| PStr (s : str)
| PList (l : list pyval)
| PDict (d : list (str * pyval)).

Definition pydict := list (str * pyval).

Definition get (d : pydict) (k : str) : option pyval :=
  dict_lookup str_eqb d k.

Definition get_default (d : pydict) (k : str) (default : pyval) : pyval :=
  dict_get_default str_eqb d k default.

(* ===================================================================== *)
(** ** Exceptions (app/core/exceptions.py) *)
(* ===================================================================== *)

Inductive exn_class : Type :=
| GCPIntegrationError
| LogAnalysisError
| LLMError
| HTTPException (status_code : Z)
| TypeError
| AttributeError
| OverflowError
| ValueError
| RecursionError
| ValidationError
| OtherException (name : str).

(** [OnCallAgentError.__init__] stores [message], [code] and
    [context or {}]; [raise ... from e] stores [e] as the cause. For the
    other classes [code] is absent and [context] empty. *)
Inductive exn : Type :=
| Exn (cls : exn_class) (message : str) (code : option str)
      (context : list (str * str)) (cause : option exn).

Definition exn_cls (e : exn) : exn_class :=
  match e with Exn c _ _ _ _ => c end.
Definition exn_code (e : exn) : option str :=
  match e with Exn _ _ c _ _ => c end.
Definition exn_context (e : exn) : list (str * str) :=
  match e with Exn _ _ _ c _ => c end.
Definition exn_cause (e : exn) : option exn :=
  match e with Exn _ _ _ _ c => c end.

(** [str(e)] *)
Definition str_of_exn (e : exn) : str :=
  match e with Exn _ m _ _ _ => m end.

Definition builtin_error (c : exn_class) (m : string) : exn :=
  Exn c (lit m) None [] None.

Inductive result (A : Type) : Type :=
| Ok (a : A)
| Raise (e : exn).
Arguments Ok {A} a.
Arguments Raise {A} e.

Definition bind {A B} (r : result A) (k : A -> result B) : result B :=
  match r with
  | Ok a => k a
  | Raise e => Raise e
  end.

Notation "x <- r ;; k" := (bind r (fun x => k))
  (at level 61, r at next level, right associativity).

(** [try: body except Exception as e: raise handler(e) from e] *)
Definition try_except {A} (body : result A) (handler : exn -> exn)
  : result A :=
  match body with
  | Ok a => Ok a
  | Raise e => Raise (handler e)
  end.

(* ===================================================================== *)
(** ** json.loads *)
(* ===================================================================== *)

(** The standard library's decoder ([json.decoder], [json.scanner]) for a
    [str] argument with the default options: strict strings, the three
    constants [NaN], [Infinity], [-Infinity] accepted, duplicate keys
    resolved by [dict(pairs)]. A text that the grammar rejects raises
    [JSONDecodeError]. Two limits of the interpreter raise other
    exceptions, as soon as the scan reaches them and whatever follows in
    the text: entering an array or an object when the recursion limit is
    reached raises [RecursionError], and converting an integer literal of
    more digits than [sys.get_int_max_str_digits()] raises
    [ValueError]. *)

(** The limits of the interpreter at the call of [json.loads]. *)
Record Limits : Type := {
  (** how many arrays and objects, one inside the other, the decoder can
      enter before the recursion limit is reached *)
  recursion_depth : nat;
  (** [sys.get_int_max_str_digits()]; 0 when there is no limit *)
  int_max_str_digits : nat
}.

(** [str(n)] for a natural number. *)
Definition decimal (n : nat) : str :=
  lit (NilZero.string_of_uint (Nat.to_uint n)).

Module Json.

(** The outcome of a scan that is given fuel: a value, a text that the
    grammar rejects, an exception other than [JSONDecodeError]. *)
Inductive scan (A : Type) : Type :=
| Scanned (a : A)
| Malformed
| Raised (e : exn)
| NoFuel.
Arguments Scanned {A} a.
Arguments Malformed {A}.
Arguments Raised {A} e.
Arguments NoFuel {A}.

(** [Py_EnterRecursiveCall(" while decoding a JSON object from a unicode
    string")] at the recursion limit; [what] is [object] or [array]. *)
Definition recursion_error (what : string) : exn :=
  Exn RecursionError
    (lit "maximum recursion depth exceeded while decoding a JSON "
     ++ lit what ++ lit " from a unicode string") None [] None.

(** [int(text)] refuses a text of more than [max] digits, when [max] is
    not 0; a text of at most 640 digits is never refused. The sign does
    not count. *)
Definition exceeds (max digits : nat) : bool :=
  (0 <? max) && (max <? digits) && (640 <? digits).

Definition int_conversion_error (max digits : nat) : exn :=
  Exn ValueError
    (lit "Exceeds the limit (" ++ decimal max
     ++ lit " digits) for integer string conversion: value has "
     ++ decimal digits
     ++ lit " digits; use sys.set_int_max_str_digits() to increase the limit")
    None [] None.

(** [WHITESPACE_STR = ' \t\n\r'] *)
Definition is_ws (c : N) : bool :=
  ((c =? 32) || (c =? 9) || (c =? 10) || (c =? 13))%N.

Fixpoint skip_ws (s : str) : str :=
  match s with
  | c :: s' => if is_ws c then skip_ws s' else s
  | [] => []
  end.

Definition is_digit (c : N) : bool := ((48 <=? c) && (c <=? 57))%N.

Definition hex_value (c : N) : option N :=
  if ((48 <=? c) && (c <=? 57))%N then Some (c - 48)%N
  else if ((97 <=? c) && (c <=? 102))%N then Some (c - 87)%N
  else if ((65 <=? c) && (c <=? 70))%N then Some (c - 55)%N
  else None.

Definition hex4 (a b c d : N) : option N :=
  match hex_value a, hex_value b, hex_value c, hex_value d with
  | Some x, Some y, Some z, Some w =>
      Some (((x * 16 + y) * 16 + z) * 16 + w)%N
  | _, _, _, _ => None
  end.

(** [BACKSLASH]: the one-character escapes. *)
Definition backslash (c : N) : option N :=
  if (c =? 34)%N then Some 34%N
  else if (c =? 92)%N then Some 92%N
  else if (c =? 47)%N then Some 47%N
  else if (c =? 98)%N then Some 8%N
  else if (c =? 102)%N then Some 12%N
  else if (c =? 110)%N then Some 10%N
  else if (c =? 114)%N then Some 13%N
  else if (c =? 116)%N then Some 9%N
  else None.

Definition is_high_surrogate (c : N) : bool :=
  ((55296 <=? c) && (c <=? 56319))%N.
Definition is_low_surrogate (c : N) : bool :=
  ((56320 <=? c) && (c <=? 57343))%N.
Definition join_surrogates (hi lo : N) : N :=
  (65536 + ((hi - 55296) * 1024 + (lo - 56320)))%N.

(** [scanstring], entered after the opening quote. [acc] holds the decoded
    characters in reverse; [high] tells that the last one is a high
    surrogate written as a [\u] escape, which a directly following [\u]
    escape of a low surrogate completes to one character. Returns the
    decoded string and the text after the closing quote. *)
Fixpoint scanstring (s : str) (acc : str) (high : bool)
  : option (str * str) :=
  match s with
  | [] => None
  | c :: s' =>
      if (c =? 34)%N then Some (rev acc, s')
      else if (c =? 92)%N then
        match s' with
        | [] => None
        | e :: s'' =>
            if (e =? 117)%N then
              match s'' with
              | h1 :: h2 :: h3 :: h4 :: r =>
                  match hex4 h1 h2 h3 h4 with
                  | None => None
                  | Some uni =>
                      match acc with
                      | hi :: acc' =>
                          if high && is_low_surrogate uni
                          then scanstring r
                                 (join_surrogates hi uni :: acc') false
                          else scanstring r (uni :: acc)
                                 (is_high_surrogate uni)
                      | [] => scanstring r [uni] (is_high_surrogate uni)
                      end
                  end
              | _ => None
              end
            else
              match backslash e with
              | Some ch => scanstring s'' (ch :: acc) false
              | None => None
              end
        end
      else if (c <? 32)%N then None
      else scanstring s' (c :: acc) false
  end.

Fixpoint take_digits (s : str) : str * str :=
  match s with
  | c :: s' =>
      if is_digit c
      then let (d, r) := take_digits s' in (c :: d, r)
      else ([], s)
  | [] => ([], [])
  end.

Definition digits_value (d : str) : Z :=
  fold_left (fun acc c => (acc * 10 + Z.of_N (c - 48))%Z) d 0%Z.

(** The integer part of [NUMBER_RE]: [0] or a non-zero digit followed by
    digits. *)
Definition match_integer (s : str) : option (str * str) :=
  match s with
  | c :: s' =>
      if (c =? 48)%N then Some ([c], s')
      else if is_digit c
      then let (d, r) := take_digits s' in Some (c :: d, r)
      else None
  | [] => None
  end.

(** [(\.\d+)?] *)
Definition match_frac (s : str) : str * str :=
  match s with
  | c :: s' =>
      if (c =? 46)%N then
        match take_digits s' with
        | ([], _) => ([], s)
        | (d, r) => (c :: d, r)
        end
      else ([], s)
  | [] => ([], [])
  end.

(** [([eE][-+]?\d+)?] *)
Definition match_exp (s : str) : str * str :=
  match s with
  | c :: s' =>
      if ((c =? 101) || (c =? 69))%N then
        match s' with
        | g :: s'' =>
            if ((g =? 43) || (g =? 45))%N then
              match take_digits s'' with
              | ([], _) => ([], s)
              | (d, r) => (c :: g :: d, r)
              end
            else
              match take_digits s' with
              | ([], _) => ([], s)
              | (d, r) => (c :: d, r)
              end
        | [] => ([], s)
        end
      else ([], s)
  | [] => ([], [])
  end.

(** A number: an [int] when it has neither fraction nor exponent, else a
    [float] kept as its text. The whole number is matched first; then an
    integer is converted by [int], which can refuse it. *)
Definition match_number (max_digits : nat) (s : str) : scan (pyval * str) :=
  let (neg, s0) :=
    match s with
    | c :: s' => if (c =? 45)%N then (true, s') else (false, s)
    | [] => (false, s)
    end in
  match match_integer s0 with
  | None => Malformed
  | Some (i, r1) =>
      let (f, r2) := match_frac r1 in
      let (e, r3) := match_exp r2 in
      match f, e with
      | [], [] =>
          if exceeds max_digits (List.length i)
          then Raised (int_conversion_error max_digits (List.length i))
          else Scanned
                 (PInt (if neg then - digits_value i else digits_value i)%Z,
                  r3)
      | _, _ =>
          Scanned (PFloat ((if neg then [45%N] else []) ++ i ++ f ++ e), r3)
      end
  end.

Definition strip_prefix (p : string) (s : str) : option str :=
  if startswith s (lit p)
  then Some (skipn (List.length (lit p)) s)
  else None.

(** The constants of [scan_once], tried before a number. *)
Definition match_constant (s : str) : option (pyval * str) :=
  match strip_prefix "null" s with
  | Some r => Some (PNone, r)
  | None =>
  match strip_prefix "true" s with
  | Some r => Some (PBool true, r)
  | None =>
  match strip_prefix "false" s with
  | Some r => Some (PBool false, r)
  | None =>
  match strip_prefix "NaN" s with
  | Some r => Some (PFloat (lit "NaN"), r)
  | None =>
  match strip_prefix "Infinity" s with
  | Some r => Some (PFloat (lit "Infinity"), r)
  | None =>
  match strip_prefix "-Infinity" s with
  | Some r => Some (PFloat (lit "-Infinity"), r)
  | None => None
  end end end end end end.

Section Decoder.
Variable limits : Limits.

(** [scan_once], [JSONObject] and [JSONArray]. [depth] is the number of
    arrays and objects that can still be entered. [object_members] is
    entered after the opening quote of a key, [array_items] at the start
    of an item; [pairs] and [items] are in reverse. *)
Fixpoint scan_once (fuel depth : nat) (s : str) : scan (pyval * str) :=
  match fuel with
  | O => NoFuel
  | S fuel' =>
      match s with
      | [] => Malformed
      | c :: s' =>
          if (c =? 34)%N then
            match scanstring s' [] false with
            | Some (v, r) => Scanned (PStr v, r)
            | None => Malformed
            end
          else if (c =? 123)%N then
            match depth with
            | O => Raised (recursion_error "object")
            | S depth' =>
                match skip_ws s' with
                | c1 :: r1 =>
                    if (c1 =? 125)%N then Scanned (PDict [], r1)
                    else if (c1 =? 34)%N
                    then object_members fuel' depth' r1 []
                    else Malformed
                | [] => Malformed
                end
            end
          else if (c =? 91)%N then
            match depth with
            | O => Raised (recursion_error "array")
            | S depth' =>
                match skip_ws s' with
                | c1 :: r1 =>
                    if (c1 =? 93)%N then Scanned (PList [], r1)
                    else array_items fuel' depth' (c1 :: r1) []
                | [] => Malformed
                end
            end
          else
            match match_constant s with
            | Some vr => Scanned vr
            | None => match_number (int_max_str_digits limits) s
            end
      end
  end

with object_members (fuel depth : nat) (s : str)
  (pairs : list (str * pyval)) : scan (pyval * str) :=
  match fuel with
  | O => NoFuel
  | S fuel' =>
      match scanstring s [] false with
      | None => Malformed
      | Some (key, r) =>
          match skip_ws r with
          | c :: r1 =>
              if (c =? 58)%N then
                match scan_once fuel' depth (skip_ws r1) with
                | Scanned (value, r2) =>
                    match skip_ws r2 with
                    | c2 :: r3 =>
                        if (c2 =? 125)%N then
                          Scanned
                            (PDict (dict_of_pairs str_eqb
                                      (rev ((key, value) :: pairs))), r3)
                        else if (c2 =? 44)%N then
                          match skip_ws r3 with
                          | c3 :: r4 =>
                              if (c3 =? 34)%N
                              then object_members fuel' depth r4
                                     ((key, value) :: pairs)
                              else Malformed
                          | [] => Malformed
                          end
                        else Malformed
                    | [] => Malformed
                    end
                | Malformed => Malformed
                | Raised e => Raised e
                | NoFuel => NoFuel
                end
              else Malformed
          | [] => Malformed
          end
      end
  end

with array_items (fuel depth : nat) (s : str) (items : list pyval)
  : scan (pyval * str) :=
  match fuel with
  | O => NoFuel
  | S fuel' =>
      match scan_once fuel' depth s with
      | Scanned (value, r) =>
          match skip_ws r with
          | c :: r1 =>
              if (c =? 93)%N then Scanned (PList (rev (value :: items)), r1)
              else if (c =? 44)%N
              then array_items fuel' depth (skip_ws r1) (value :: items)
              else Malformed
          | [] => Malformed
          end
      | Malformed => Malformed
      | Raised e => Raised e
      | NoFuel => NoFuel
      end
  end.

(** [JSONDecoder.decode]: skip whitespace, scan one value, skip whitespace,
    and require the end of the text. *)
Definition decode (fuel : nat) (s : str) : scan pyval :=
  match scan_once fuel (recursion_depth limits) (skip_ws s) with
  | Scanned (v, r) =>
      match skip_ws r with
      | [] => Scanned v
      | _ :: _ => Malformed
      end
  | Malformed => Malformed
  | Raised e => Raised e
  | NoFuel => NoFuel
  end.

(** Every nested call is on a strictly shorter text, so the length of the
    text bounds the fuel needed ([decode_fuel] proves it). *)
Definition fuel_for (s : str) : nat := 2 * List.length s + 2.

(** What [json.loads] does: it returns a value, raises
    [JSONDecodeError], or raises another exception. The message and the
    position of a [JSONDecodeError] are not modelled: the program only
    logs them. *)
Inductive outcome : Type :=
| Value (v : pyval)
| DecodeError
| OtherError (e : exn).

Definition loads (s : str) : outcome :=
  match decode (fuel_for s) s with
  | Scanned v => Value v
  | Malformed => DecodeError
  | Raised e => OtherError e
  | NoFuel => DecodeError
  end.

End Decoder.

End Json.

(* ===================================================================== *)
(** ** Operations of the interpreter on values *)
(* ===================================================================== *)

Definition type_name (v : pyval) : string :=
  match v with
  | PNone => "NoneType"
  | PBool _ => "bool"
  | PInt _ => "int"
  | PFloat _ => "float"
  | PStr _ => "str"
  | PList _ => "list"
  | PDict _ => "dict"
  end.

Definition is_str (k : str) (v : pyval) : bool :=
  match v with
  | PStr s => str_eqb s k
  | _ => false
  end.

(** [key in container] for a [str] key: a key of a dict, an element of a
    list, a substring of a string; any other container raises. *)
Definition py_contains (container : pyval) (key : str) : result bool :=
  match container with
  | PDict d => Ok (dict_mem str_eqb d key)
  | PList l => Ok (existsb (is_str key) l)
  | PStr s => Ok (contains s key)
  | _ =>
      Raise (Exn TypeError
               (lit "argument of type '" ++ lit (type_name container)
                ++ lit "' is not iterable") None [] None)
  end.

(** [container[key] = value] for a [str] key. *)
Definition py_setitem (container : pyval) (key : str) (value : pyval)
  : result pyval :=
  match container with
  | PDict d => Ok (PDict (dict_set str_eqb d key value))
  | PList _ =>
      Raise (builtin_error TypeError
               "list indices must be integers or slices, not str")
  | _ =>
      Raise (Exn TypeError
               (lit "'" ++ lit (type_name container)
                ++ lit "' object does not support item assignment")
               None [] None)
  end.

(** [obj.get(key, default)]: only a dict has the method. *)
Definition py_get (obj : pyval) (key : str) (default : pyval)
  : result pyval :=
  match obj with
  | PDict d => Ok (get_default d key default)
  | _ =>
      Raise (Exn AttributeError
               (lit "'" ++ lit (type_name obj)
                ++ lit "' object has no attribute 'get'") None [] None)
  end.

(** [for x in obj]: the elements of a list, the characters of a string,
    the keys of a dict; anything else is not iterable. *)
Definition py_iter (obj : pyval) : result (list pyval) :=
  match obj with
  | PList l => Ok l
  | PStr s => Ok (map (fun c => PStr [c]) s)
  | PDict d => Ok (map (fun kv => PStr (fst kv)) d)
  | _ =>
      Raise (Exn TypeError
               (lit "'" ++ lit (type_name obj)
                ++ lit "' object is not iterable") None [] None)
  end.

(* ===================================================================== *)
(** ** Validation by pydantic *)
(* ===================================================================== *)

(** The field validators of pydantic (version 2, as [pydantic_settings]
    in app/core/config.py requires) in their default, lax mode, on the
    values above. How pydantic turns a float or a numeric text into an
    [int] belongs to that library; the two conversions are parameters. *)
Module Pydantic.

Record Lax : Type := {
  int_of_float : str -> option Z;
  int_of_text : str -> option Z
}.

(** A [str] field accepts a [str] only. *)
Definition validate_str (v : pyval) : option str :=
  match v with
  | PStr s => Some s
  | _ => None
  end.

(** An [int] field accepts an [int] and a [bool], and what the lax
    conversions accept of a float or a text. *)
Definition validate_int (lax : Lax) (v : pyval) : option Z :=
  match v with
  | PInt z => Some z
  | PBool b => Some (if b then 1 else 0)%Z
  | PFloat x => int_of_float lax x
  | PStr s => int_of_text lax s
  | _ => None
  end.

(** A [str | None] field. *)
Definition validate_optional_str (v : pyval) : option (option str) :=
  match v with
  | PNone => Some None
  | PStr s => Some (Some s)
  | _ => None
  end.

(** A [Literal[...]] field of strings. *)
Definition validate_literal (allowed : list str) (v : pyval) : option str :=
  match v with
  | PStr s => if existsb (str_eqb s) allowed then Some s else None
  | _ => None
  end.

Fixpoint validate_all_str (l : list pyval) : option (list str) :=
  match l with
  | [] => Some []
  | v :: l' =>
      match validate_str v, validate_all_str l' with
      | Some s, Some r => Some (s :: r)
      | _, _ => None
      end
  end.

(** A [list[str]] field. *)
Definition validate_list_str (v : pyval) : option (list str) :=
  match v with
  | PList l => validate_all_str l
  | _ => None
  end.

(** The lax conversions restricted to the plain forms: a float is never
    taken for an int, a text only when it is a run of ASCII digits. *)
Definition plain : Lax := {|
  int_of_float := fun _ => None;
  int_of_text := fun s =>
    match s with
    | [] => None
    | _ :: _ =>
        if forallb Json.is_digit s then Some (Json.digits_value s) else None
    end
|}.

Definition validation_error (model : string) : exn :=
  Exn ValidationError (lit "validation error for " ++ lit model) None []
    None.

End Pydantic.

(* ===================================================================== *)
(** ** app/schemas/analysis.py *)
(* ===================================================================== *)

Module Schemas.
Import Pydantic.

Inductive OutputFormat : Type := markdown | json.

Record LogAnalysisRequest : Type := {
  hours_back : Z;
  filter_query : option str;
  max_logs : option Z;
  focus_on_errors : bool;
  output_format : OutputFormat
}.

Record LogStatistics : Type := {
  total_logs : Z;
  by_severity : list (str * Z);
  time_range_hours : Z;
  most_common_errors : list str
}.

Record AnalysisFinding : Type := {
  severity : str;
  title : str;
  description : str;
  affected_logs_count : Z;
  suggested_fix : str;
  code_example : option str
}.

Record LogAnalysisResponse : Type := {
  analysis_id : str;
  timestamp : Z;
  statistics : LogStatistics;
  findings : list AnalysisFinding;
  summary : str;
  document_path : option str;
  recommendations : list str
}.

(** [Literal["critical", "high", "medium", "low", "info"]] *)
Definition severity_values : list str :=
  [lit "critical"; lit "high"; lit "medium"; lit "low"; lit "info"].

(** [AnalysisFinding(severity=..., title=..., ...)]: every field is
    validated, and one failure rejects the object. *)
Definition new_AnalysisFinding (lax : Lax)
  (severity title description affected_logs_count suggested_fix
     code_example : pyval) : result AnalysisFinding :=
  match validate_literal severity_values severity,
        validate_str title,
        validate_str description,
        validate_int lax affected_logs_count,
        validate_str suggested_fix,
        validate_optional_str code_example with
  | Some sev, Some t, Some d, Some n, Some fx, Some ce =>
      Ok {| severity := sev; title := t; description := d;
            affected_logs_count := n; suggested_fix := fx;
            code_example := ce |}
  | _, _, _, _, _, _ => Raise (validation_error "AnalysisFinding")
  end.

(** The keys of [dict[str, int]] must be strings: [None] is rejected. *)
Fixpoint validate_by_severity (d : list (option str * Z))
  : option (list (str * Z)) :=
  match d with
  | [] => Some []
  | (Some k, n) :: d' =>
      match validate_by_severity d' with
      | Some r => Some ((k, n) :: r)
      | None => None
      end
  | (None, _) :: _ => None
  end.

Definition new_LogStatistics (total_logs : Z)
  (by_severity : list (option str * Z)) (time_range_hours : Z)
  (most_common_errors : pyval) : result LogStatistics :=
  match validate_by_severity by_severity,
        validate_list_str most_common_errors with
  | Some sev, Some errs =>
      Ok {| total_logs := total_logs; by_severity := sev;
            time_range_hours := time_range_hours;
            most_common_errors := errs |}
  | _, _ => Raise (validation_error "LogStatistics")
  end.

Definition new_LogAnalysisResponse (analysis_id : str) (timestamp : Z)
  (statistics : LogStatistics) (findings : list AnalysisFinding)
  (summary : pyval) (document_path : option str) (recommendations : pyval)
  : result LogAnalysisResponse :=
  match validate_str summary, validate_list_str recommendations with
  | Some s, Some recs =>
      Ok {| analysis_id := analysis_id; timestamp := timestamp;
            statistics := statistics; findings := findings;
            summary := s; document_path := document_path;
            recommendations := recs |}
  | _, _ => Raise (validation_error "LogAnalysisResponse")
  end.

End Schemas.

(* ===================================================================== *)
(** ** Log entries, the environment and its trace *)
(* ===================================================================== *)

(** One entry as the Cloud Logging client yields it: [timestamp] already
    in ISO format, [severity], [log_name] and [insert_id] possibly [None],
    [resource] possibly [None], [payload] a text, a dict or neither. *)
Record raw_resource : Type := {
  resource_type : option str;
  resource_labels : pydict
}.

Record raw_entry : Type := {
  entry_timestamp : option str;
  entry_severity : option str;
  entry_log_name : option str;
  entry_resource : option raw_resource;
  entry_payload : pyval;
  entry_labels : option pydict;
  entry_insert_id : option str
}.

(** The values that [fetch_logs] writes into an entry (lines 128-137):
    [None], a string or a dict. The entries of the pipeline all come from
    [fetch_logs]; a list of entries made of other values is outside the
    model. *)
Inductive logval : Type :=
| LNone
| LStr (s : str)
| LDict (d : pydict).

Definition log_entry := list (str * logval).

Definition of_option_str (o : option str) : logval :=
  match o with
  | Some s => LStr s
  | None => LNone
  end.

(** The [stats] dictionary of [_calculate_statistics]: the keys of
    [by_severity] are the severities met, a string or [None]. *)
Module Stats.
Record stats_dict : Type := {
  total_count : Z;
  by_severity : list (option str * Z);
  time_range_hours : Z
}.
End Stats.
Definition stats_dict : Type := Stats.stats_dict.

Record Settings : Type := {
  gcp_project_id : option str;
  gcp_credentials_json : option str;
  gcp_log_filter : str;
  gcp_log_limit : Z;
  openai_api_key : option str;
  anthropic_api_key : option str;
  llm_provider : str;
  analysis_output_dir : str;
  max_log_entries_to_analyze : Z
}.

(** What the process reaches outside itself, and the limits of the
    interpreter it runs in. *)
Record Env : Type := {
  (** the recursion depth left and the digit limit where
      [_parse_llm_response] calls [json.loads] *)
  py_limits : Limits;
  (** [str(uuid.uuid4())] and [datetime.utcnow()] of this request *)
  uuid4 : str;
  utcnow : Z;
  (** [(datetime.utcnow() - timedelta(hours=h)).strftime(...)] *)
  start_time_text : Z -> result str;
  (** loading the credentials and [logging.Client(...)] *)
  new_logging_client : str -> option str -> result unit;
  (** [client.list_entries(filter_=..., page_size=...)], iterated *)
  list_entries : str -> Z -> result (list raw_entry);
  (** [ChatAnthropic(...)] or [ChatOpenAI(...)] *)
  new_chat_model : str -> str -> result unit;
  (** lines 81-92 of [LLMService.analyze_logs]: the prompt built from
      the logs and statistics, sent to the provider; the text of the
      answer *)
  invoke_model : list log_entry -> stats_dict -> result str;
  (** [DocumentService()], [Path(...).mkdir(parents=True, exist_ok=True)]
      and [DocumentService.generate_document] *)
  new_document_service : result unit;
  mkdir : str -> result unit;
  generate_document :
    str -> Z -> stats_dict -> list Schemas.AnalysisFinding ->
    pyval -> pyval -> Schemas.OutputFormat -> result str
}.

(** The steps that leave the process. [InvokeModel] is the step of lines
    81-92 as a whole: the prompt is built there before the provider is
    called, and a failure of either is a failure of the step. *)
Inductive event : Type :=
| ListEntries (filter : str) (page_size : Z)
| InvokeModel (logs : list log_entry) (statistics : stats_dict)
| GenerateDocument (analysis_id : str).

(** A computation that may raise and records its outside calls. *)
Definition M (A : Type) : Type := list event -> result A * list event.

Definition ret {A} (a : A) : M A := fun t => (Ok a, t).
Definition raise {A} (e : exn) : M A := fun t => (Raise e, t).
Definition lift {A} (r : result A) : M A := fun t => (r, t).
Definition call {A} (ev : event) (r : result A) : M A :=
  fun t => (r, t ++ [ev]).

Definition mbind {A B} (m : M A) (k : A -> M B) : M B :=
  fun t =>
    match m t with
    | (Ok a, t') => k a t'
    | (Raise e, t') => (Raise e, t')
    end.

Notation "x <~ m ;; k" := (mbind m (fun x => k))
  (at level 61, m at next level, right associativity).

(** [try: body except Exception as e: raise handler(e) from e] *)
Definition mtry {A} (body : M A) (handler : exn -> exn) : M A :=
  fun t =>
    match body t with
    | (Ok a, t') => (Ok a, t')
    | (Raise e, t') => (Raise (handler e), t')
    end.

(** Truth values of [if x:] and [x or y]. *)
Definition truthy_str (o : option str) : bool :=
  match o with
  | Some (_ :: _) => true
  | _ => false
  end.

Definition or_int (o : option Z) (default : Z) : Z :=
  match o with
  | Some n => if (n =? 0)%Z then default else n
  | None => default
  end.

(* ===================================================================== *)
(** ** app/integrations/gcp/logging_client.py *)
(* ===================================================================== *)

Module GCPLoggingClient.
Section Client.
Variable env : Env.
Variable settings : Settings.

(** The object: [self.client] is [None] until it is initialised. *)
Record t : Type := { client : option unit }.

Definition _initialize_client : result t :=
  try_except
    (if negb (truthy_str (gcp_project_id settings)) then
       Raise (Exn GCPIntegrationError (lit "GCP project ID not configured")
                (Some (lit "GCP_PROJECT_ID_MISSING")) [] None)
     else
       _ <- new_logging_client env
              (match gcp_project_id settings with
               | Some p => p
               | None => []
               end)
              (if truthy_str (gcp_credentials_json settings)
               then gcp_credentials_json settings else None) ;;
       Ok {| client := Some tt |})
    (fun e =>
       Exn GCPIntegrationError
         (lit "Failed to initialize GCP Logging client: " ++ str_of_exn e)
         (Some (lit "GCP_CLIENT_INIT_ERROR"))
         [(lit "error", str_of_exn e)] (Some e)).

Definition __init__ : result t := _initialize_client.

Definition _build_timestamp_filter (hours_back : Z) : result str :=
  start_time <- start_time_text env hours_back ;;
  Ok (lit "timestamp >= " ++ [quote] ++ start_time ++ [quote]).

(** Lines 102-108: the filter sent with the query. *)
Definition full_filter (timestamp_filter : str) (filter_query : option str)
  : str :=
  match filter_query with
  | Some (c :: q) => timestamp_filter ++ lit " AND " ++ (c :: q)
  | _ =>
      match gcp_log_filter settings with
      | c :: f => timestamp_filter ++ lit " AND " ++ (c :: f)
      | [] => timestamp_filter
      end
  end.

Definition _format_resource (resource : option raw_resource) : pydict :=
  match resource with
  | None => []
  | Some r =>
      [ (lit "type",
         match resource_type r with
         | Some s => PStr s
         | None => PNone
         end);
        (lit "labels", PDict (resource_labels r)) ]
  end.

(** Lines 128-137: one raw entry as a dictionary. *)
Definition to_log_entry (entry : raw_entry) : log_entry :=
  [ (lit "timestamp", of_option_str (entry_timestamp entry));
    (lit "severity", of_option_str (entry_severity entry));
    (lit "log_name", of_option_str (entry_log_name entry));
    (lit "resource", LDict (_format_resource (entry_resource entry)));
    (lit "text_payload",
     match entry_payload entry with
     | PStr s => LStr s
     | _ => LNone
     end);
    (lit "json_payload",
     match entry_payload entry with
     | PDict d => LDict d
     | _ => LNone
     end);
    (lit "labels",
     match entry_labels entry with
     | Some d => LDict d
     | None => LNone
     end);
    (lit "insert_id", of_option_str (entry_insert_id entry)) ].

Definition fetch_logs (self : t) (filter_query : option str)
  (hours_back : Z) (max_results : option Z) : M (list log_entry) :=
  match client self with
  | None =>
      raise (Exn GCPIntegrationError
               (lit "GCP Logging client not initialized")
               (Some (lit "GCP_CLIENT_NOT_INITIALIZED")) [] None)
  | Some _ =>
      mtry
        (timestamp_filter <~ lift (_build_timestamp_filter hours_back) ;;
         let query := full_filter timestamp_filter filter_query in
         let page_size := or_int max_results (gcp_log_limit settings) in
         entries <~ call (ListEntries query page_size)
                      (list_entries env query page_size) ;;
         ret (map to_log_entry entries))
        (fun e =>
           Exn GCPIntegrationError
             (lit "Failed to fetch logs: " ++ str_of_exn e)
             (Some (lit "GCP_LOG_FETCH_ERROR"))
             [(lit "error", str_of_exn e)] (Some e))
  end.

(** ['severity >= "WARNING"'] *)
Definition error_filter : str :=
  lit "severity >= " ++ [quote] ++ lit "WARNING" ++ [quote].

Definition fetch_error_logs (self : t) (hours_back : Z)
  (max_results : option Z) : M (list log_entry) :=
  fetch_logs self (Some error_filter) hours_back max_results.

End Client.
End GCPLoggingClient.

(* ===================================================================== *)
(** ** app/services/llm_service.py: response parsing *)
(* ===================================================================== *)

Module LLMService.

Definition fence_json : str := lit "```json".
Definition fence : str := lit "```".

(** Lines 221-230 of [_parse_llm_response]: trim, drop an opening
    [```json], drop an opening [```], drop a closing [```], trim. *)
Definition strip_fences (response : str) : str :=
  let response := strip response in
  let response :=
    if startswith response fence_json then slice_from 7 response
    else response in
  let response :=
    if startswith response fence then slice_from 3 response
    else response in
  let response :=
    if endswith response fence then slice_to_neg 3 response
    else response in
  strip response.

(** [if key not in result: result[key] = default] *)
Definition backfill (key : string) (default : pyval) (obj : pyval)
  : result pyval :=
  present <- py_contains obj (lit key) ;;
  if present then Ok obj else py_setitem obj (lit key) default.

(** The dictionary returned when [json.loads] raises [JSONDecodeError];
    [response] is the variable as rebound by lines 221-230. *)
Definition fallback (response : str) : pyval :=
  PDict
    [ (lit "summary",
       PStr (lit "Analysis completed but response parsing failed"));
      (lit "findings",
       PList
         [ PDict
             [ (lit "severity", PStr (lit "info"));
               (lit "title", PStr (lit "Analysis Result"));
               (lit "description", PStr (slice_to 1000 response));
               (lit "affected_logs_count", PInt 0);
               (lit "suggested_fix", PStr (lit "Manual review required")) ]
         ]);
      (lit "recommendations", PList [PStr (lit "Review logs manually")]);
      (lit "most_common_errors", PList []) ].

(** The [try] of lines 217-245 with its one handler,
    [except json.JSONDecodeError]: any other exception of [json.loads],
    like the [TypeError] of a backfill, leaves the function. *)
Definition _parse_llm_response (limits : Limits) (response : str)
  : result pyval :=
  let response := strip_fences response in
  match Json.loads limits response with
  | Json.Value result =>
      result <- backfill "summary" (PStr (lit "Analysis completed")) result ;;
      result <- backfill "findings" (PList []) result ;;
      result <- backfill "recommendations" (PList []) result ;;
      result <- backfill "most_common_errors" (PList []) result ;;
      Ok result
  | Json.DecodeError => Ok (fallback response)
  | Json.OtherError e => Raise e
  end.

Section Service.
Variable env : Env.
Variable settings : Settings.

Definition _initialize_llm : result unit :=
  try_except
    (if str_eqb (llm_provider settings) (lit "anthropic") then
       match anthropic_api_key settings with
       | Some (c :: k) => new_chat_model env (lit "anthropic") (c :: k)
       | _ =>
           Raise (Exn LLMError (lit "Anthropic API key not configured")
                    (Some (lit "ANTHROPIC_API_KEY_MISSING")) [] None)
       end
     else
       match openai_api_key settings with
       | Some (c :: k) => new_chat_model env (lit "openai") (c :: k)
       | _ =>
           Raise (Exn LLMError (lit "OpenAI API key not configured")
                    (Some (lit "OPENAI_API_KEY_MISSING")) [] None)
       end)
    (fun e =>
       Exn LLMError (lit "Failed to initialize LLM: " ++ str_of_exn e)
         (Some (lit "LLM_INIT_ERROR")) [(lit "error", str_of_exn e)]
         (Some e)).

Definition __init__ : result unit := _initialize_llm.

Definition analyze_logs (logs : list log_entry) (statistics : stats_dict)
  : M pyval :=
  mtry
    (content <~ call (InvokeModel logs statistics)
                  (invoke_model env logs statistics) ;;
     analysis_result <~
       lift (_parse_llm_response (py_limits env) content) ;;
     ret analysis_result)
    (fun e =>
       Exn LLMError
         (lit "Failed to analyze logs with LLM: " ++ str_of_exn e)
         (Some (lit "LLM_ANALYSIS_ERROR")) [(lit "error", str_of_exn e)]
         (Some e)).

End Service.
End LLMService.


(* ===================================================================== *)
(** ** app/services/analysis_service.py *)
(* ===================================================================== *)

Module AnalysisService.
Import Schemas.

Definition key_eqb (a b : option str) : bool :=
  match a, b with
  | None, None => true
  | Some x, Some y => str_eqb x y
  | _, _ => false
  end.

(** [log.get("severity", "UNKNOWN")] *)
Definition severity_of (log : log_entry) : logval :=
  dict_get_default str_eqb log (lit "severity") (LStr (lit "UNKNOWN")).

(** [d[severity] = d.get(severity, 0) + 1] *)
Definition count_one (d : list (option str * Z)) (k : option str)
  : list (option str * Z) :=
  dict_set key_eqb d k (dict_get_default key_eqb d k 0 + 1)%Z.

(** The loop of lines 173-175; of the values of an entry, a dict cannot
    be a key. *)
Fixpoint tally (logs : list log_entry) (d : list (option str * Z))
  : result (list (option str * Z)) :=
  match logs with
  | [] => Ok d
  | log :: rest =>
      match severity_of log with
      | LStr s => tally rest (count_one d (Some s))
      | LNone => tally rest (count_one d None)
      | LDict _ =>
          Raise (builtin_error TypeError "unhashable type: 'dict'")
      end
  end.

Definition _calculate_statistics (logs : list log_entry) (hours_back : Z)
  : result stats_dict :=
  d <- tally logs [] ;;
  Ok {| Stats.total_count := Z.of_nat (List.length logs);
        Stats.by_severity := d;
        Stats.time_range_hours := hours_back |}.

Section Service.
Variable env : Env.
Variable settings : Settings.
Variable lax : Pydantic.Lax.

(** The body of the [try] of lines 193-201. *)
Definition convert_finding (finding : pyval) : result AnalysisFinding :=
  severity <- py_get finding (lit "severity") (PStr (lit "info")) ;;
  title <- py_get finding (lit "title") (PStr (lit "Unknown issue")) ;;
  description <- py_get finding (lit "description") (PStr []) ;;
  affected_logs_count <-
    py_get finding (lit "affected_logs_count") (PInt 0) ;;
  suggested_fix <- py_get finding (lit "suggested_fix") (PStr []) ;;
  code_example <- py_get finding (lit "code_example") PNone ;;
  new_AnalysisFinding lax severity title description affected_logs_count
    suggested_fix code_example.

(** The loop of lines 192-207: a finding that raises is logged and
    skipped. *)
Fixpoint convert_loop (llm_findings : list pyval)
  (findings : list AnalysisFinding) : list AnalysisFinding :=
  match llm_findings with
  | [] => findings
  | finding :: rest =>
      match convert_finding finding with
      | Ok f => convert_loop rest (findings ++ [f])
      | Raise _ => convert_loop rest findings
      end
  end.

Definition _convert_findings (llm_findings : pyval)
  : result (list AnalysisFinding) :=
  items <- py_iter llm_findings ;;
  Ok (convert_loop items []).

Definition _create_empty_response (analysis_id : str) (timestamp : Z)
  (request : LogAnalysisRequest) : result LogAnalysisResponse :=
  statistics <- new_LogStatistics 0 [] (hours_back request) (PList []) ;;
  new_LogAnalysisResponse analysis_id timestamp statistics []
    (PStr (lit "No logs found in the specified time range."))
    None
    (PList [PStr (lit "Check your GCP logging configuration and filters.")]).

Record t : Type := { gcp_client : GCPLoggingClient.t }.

Definition __init__ : result t :=
  gcp <- GCPLoggingClient.__init__ env settings ;;
  _ <- LLMService.__init__ env settings ;;
  _ <- new_document_service env ;;
  _ <- mkdir env (analysis_output_dir settings) ;;
  Ok {| gcp_client := gcp |}.

Definition _fetch_logs (self : t) (request : LogAnalysisRequest)
  : M (list log_entry) :=
  if focus_on_errors request then
    GCPLoggingClient.fetch_error_logs env settings (gcp_client self)
      (hours_back request) (max_logs request)
  else
    GCPLoggingClient.fetch_logs env settings (gcp_client self)
      (filter_query request) (hours_back request) (max_logs request).

Definition analysis_error (analysis_id : str) (e : exn) : exn :=
  Exn LogAnalysisError (lit "Log analysis failed: " ++ str_of_exn e)
    (Some (lit "ANALYSIS_ERROR"))
    [(lit "analysis_id", analysis_id); (lit "error", str_of_exn e)]
    (Some e).

(** The statements under [try] (lines 55-116). *)
Definition analyze_logs_steps (self : t) (request : LogAnalysisRequest)
  (analysis_id : str) (timestamp : Z) : M LogAnalysisResponse :=
  logs <~ _fetch_logs self request ;;
  match logs with
  | [] => lift (_create_empty_response analysis_id timestamp request)
  | _ :: _ =>
      statistics <~
        lift (_calculate_statistics logs (hours_back request)) ;;
      llm_analysis <~ LLMService.analyze_logs env logs statistics ;;
      raw_findings <~
        lift (py_get llm_analysis (lit "findings") (PList [])) ;;
      findings <~ lift (_convert_findings raw_findings) ;;
      summary <~ lift (py_get llm_analysis (lit "summary") (PStr [])) ;;
      recommendations <~
        lift (py_get llm_analysis (lit "recommendations") (PList [])) ;;
      document_path <~
        call (GenerateDocument analysis_id)
          (generate_document env analysis_id timestamp statistics
             findings summary recommendations (output_format request)) ;;
      most_common <~
        lift (py_get llm_analysis (lit "most_common_errors")
                (PList [])) ;;
      log_statistics <~
        lift (new_LogStatistics (Stats.total_count statistics)
                (Stats.by_severity statistics)
                (Stats.time_range_hours statistics) most_common) ;;
      response <~
        lift (new_LogAnalysisResponse analysis_id timestamp
                log_statistics findings summary (Some document_path)
                recommendations) ;;
      ret response
  end.

Definition analyze_logs (self : t) (request : LogAnalysisRequest)
  : M LogAnalysisResponse :=
  let analysis_id := uuid4 env in
  let timestamp := utcnow env in
  mtry (analyze_logs_steps self request analysis_id timestamp)
    (analysis_error analysis_id).

(** Lines 242-256: the placeholder status of an analysis. *)
Definition get_analysis_status (analysis_id : str) : list (str * str) :=
  [ (lit "analysis_id", analysis_id);
    (lit "status", lit "completed");
    (lit "message", lit "Analysis completed") ].

End Service.
End AnalysisService.

(* ===================================================================== *)
(** ** logging_client.py: get_log_statistics *)
(* ===================================================================== *)

(** [GCPLoggingClient.get_log_statistics] (lines 209-246). Its loop
    (lines 231-233) is the loop of [_calculate_statistics], line for
    line, so it is the same [tally]. *)
Module GCPStatistics.
Section Client.
Variable env : Env.
Variable settings : Settings.

Definition get_log_statistics (self : GCPLoggingClient.t) (hours_back : Z)
  : M stats_dict :=
  mtry
    (logs <~ GCPLoggingClient.fetch_logs env settings self None hours_back
               None ;;
     by_severity <~ lift (AnalysisService.tally logs []) ;;
     ret {| Stats.total_count := Z.of_nat (List.length logs);
            Stats.by_severity := by_severity;
            Stats.time_range_hours := hours_back |})
    (fun e =>
       Exn GCPIntegrationError
         (lit "Failed to get log statistics: " ++ str_of_exn e)
         (Some (lit "GCP_STATS_ERROR")) [(lit "error", str_of_exn e)]
         (Some e)).

End Client.
End GCPStatistics.

(** [AnalysisStatusResponse] of app/schemas/analysis.py. *)
Module StatusSchema.

Record AnalysisStatusResponse : Type := {
  status : str;
  analysis_id : str;
  message : option str;
  progress_percentage : option Z
}.

(** [Literal["pending", "running", "completed", "failed"]] *)
Definition status_values : list str :=
  [lit "pending"; lit "running"; lit "completed"; lit "failed"].

Definition new_AnalysisStatusResponse (lax : Pydantic.Lax)
  (status analysis_id message progress_percentage : pyval)
  : result AnalysisStatusResponse :=
  match Pydantic.validate_literal status_values status,
        Pydantic.validate_str analysis_id,
        Pydantic.validate_optional_str message,
        match progress_percentage with
        | PNone => Some None
        | v => option_map Some (Pydantic.validate_int lax v)
        end with
  | Some st, Some id, Some m, Some pr =>
      Ok {| status := st; analysis_id := id; message := m;
            progress_percentage := pr |}
  | _, _, _, _ => Raise (Pydantic.validation_error "AnalysisStatusResponse")
  end.

End StatusSchema.

(* ===================================================================== *)
(** ** app/api/routes/analysis.py *)
(* ===================================================================== *)

Module Routes.
Section Route.
Variable env : Env.
Variable settings : Settings.
Variable lax : Pydantic.Lax.

(** The two statements under [try] in the handler: the caller of the
    orchestrator. *)
Definition run_analysis (request : Schemas.LogAnalysisRequest)
  : M Schemas.LogAnalysisResponse :=
  service <~ lift (AnalysisService.__init__ env settings) ;;
  AnalysisService.analyze_logs env settings lax service request.

Definition detail (error : string) (e : exn) : list (str * str) :=
  [ (lit "error", lit error); (lit "message", str_of_exn e) ]
  ++ match exn_code e with
     | Some c => [(lit "code", c)]
     | None => []
     end.

(** The [except] clauses, in order. *)
Definition http_error (e : exn) : exn :=
  match exn_cls e with
  | GCPIntegrationError =>
      Exn (HTTPException 502) (lit "GCP integration failed") None
        (detail "GCP integration failed" e) None
  | LLMError =>
      Exn (HTTPException 502) (lit "LLM analysis failed") None
        (detail "LLM analysis failed" e) None
  | LogAnalysisError =>
      Exn (HTTPException 500) (lit "Analysis failed") None
        (detail "Analysis failed" e) None
  | _ =>
      Exn (HTTPException 500) (lit "Internal server error") None
        [ (lit "error", lit "Internal server error");
          (lit "message", str_of_exn e) ] None
  end.

Definition analyze_logs (request : Schemas.LogAnalysisRequest)
  : M Schemas.LogAnalysisResponse :=
  mtry (run_analysis request) http_error.

(** [get_analysis_status] (lines 115-155): the service is constructed,
    its status is read and left unused, and a fixed answer is built; any
    exception becomes a 404. *)
Definition get_analysis_status (analysis_id : str)
  : result StatusSchema.AnalysisStatusResponse :=
  try_except
    (service <- AnalysisService.__init__ env settings ;;
     let status_info := AnalysisService.get_analysis_status analysis_id in
     StatusSchema.new_AnalysisStatusResponse lax
       (PStr (lit "completed")) (PStr analysis_id)
       (PStr (lit "Analysis completed")) (PInt 100))
    (fun e =>
       Exn (HTTPException 404) (lit "Analysis not found") None
         [ (lit "error", lit "Analysis not found");
           (lit "message", str_of_exn e) ] None).

(** The answer of [get_quick_stats]: [{"success": True, "data": stats}]. *)
Record QuickStats : Type := {
  success : bool;
  data : stats_dict
}.

Definition quick_stats_error (e : exn) : exn :=
  match exn_cls e with
  | GCPIntegrationError =>
      Exn (HTTPException 502) (lit "Failed to fetch statistics") None
        [ (lit "error", lit "Failed to fetch statistics");
          (lit "message", str_of_exn e) ] None
  | _ =>
      Exn (HTTPException 500) (lit "Internal server error") None
        [ (lit "error", lit "Internal server error");
          (lit "message", str_of_exn e) ] None
  end.

(** [get_quick_stats] (lines 158-215). *)
Definition get_quick_stats (hours_back : Z) : M QuickStats :=
  mtry
    (client <~ lift (GCPLoggingClient.__init__ env settings) ;;
     stats <~ GCPStatistics.get_log_statistics env settings client
                hours_back ;;
     ret {| success := true; data := stats |})
    quick_stats_error.

End Route.
End Routes.

(* ===================================================================== *)
(** ** app/main.py: the probes *)
(* ===================================================================== *)

Module Main.

(** [readiness_check]: [{"status": "ready", "checks": checks}]. *)
Record Readiness : Type := {
  status : str;
  checks : list (str * str)
}.

Definition readiness_check (settings : Settings) : Readiness :=
  let checks := [(lit "api", lit "ready")] in
  let checks :=
    dict_set str_eqb checks (lit "gcp")
      (if truthy_str (gcp_project_id settings)
       then lit "configured" else lit "not_configured") in
  let checks :=
    dict_set str_eqb checks (lit "llm")
      (if truthy_str (openai_api_key settings)
          || truthy_str (anthropic_api_key settings)
       then lit "configured" else lit "not_configured") in
  {| status := lit "ready"; checks := checks |}.

End Main.

(* ===================================================================== *)
(** ** Vocabulary of the properties *)
(* ===================================================================== *)

(** A text that neither starts nor ends with white space. *)
Definition trimmed (m : str) : Prop :=
  lstrip m = m /\ lstrip (rev m) = rev m.

Definition all_space (a : str) : Prop :=
  Forall (fun c => isspace c = true) a.

(** [text] in a fenced code block whose opening marker carries [tag]. *)
Definition fenced (tag text : str) : str :=
  LLMService.fence ++ tag ++ [10%N] ++ text ++ [10%N] ++ LLMService.fence.

(** The key a log entry is counted under. *)
Definition severity_key (log : log_entry) : option str :=
  match AnalysisService.severity_of log with
  | LStr s => Some s
  | _ => None
  end.

Definition hashable_severity (log : log_entry) : Prop :=
  match AnalysisService.severity_of log with
  | LDict _ => False
  | _ => True
  end.

(** The distinct elements of a list, each at its first occurrence. *)
Fixpoint first_occurrences (l : list (option str)) : list (option str) :=
  match l with
  | [] => []
  | x :: r =>
      x :: filter (fun y => negb (AnalysisService.key_eqb x y))
             (first_occurrences r)
  end.

Definition occurrences (k : option str) (l : list (option str)) : Z :=
  Z.of_nat (List.length (filter (AnalysisService.key_eqb k) l)).

Definition sum_values (d : list (option str * Z)) : Z :=
  fold_right Z.add 0%Z (map snd d).

(** What one raw finding contributes to the converted list. *)
Definition kept (lax : Pydantic.Lax) (finding : pyval)
  : list Schemas.AnalysisFinding :=
  match AnalysisService.convert_finding lax finding with
  | Ok f => [f]
  | Raise _ => []
  end.

(** [s] is [r] after a non-empty prefix; [r] follows a closing brace in
    [s]; [s] is a braced text followed by [r]. *)
Definition consumed (s r : str) : Prop :=
  exists pre, pre <> [] /\ s = pre ++ r.
Definition closes (s r : str) : Prop :=
  exists mid, s = mid ++ 125%N :: r.
Definition braced (s r : str) : Prop :=
  exists mid, s = 123%N :: mid ++ 125%N :: r.

Definition json_space (w : str) : Prop :=
  Forall (fun c => Json.is_ws c = true) w.

(** An exception other than [JSONDecodeError] tells that the text is
    longer than one of the limits: a [RecursionError] that it is longer
    than the depth that could be entered, a [ValueError] that it is
    longer than the greatest number of digits of an integer. *)
Definition limit_hit (limits : Limits) (depth : nat) (s : str) (e : exn)
  : Prop :=
  (exn_cls e = RecursionError /\ depth < List.length s)
  \/ (exn_cls e = ValueError
      /\ 0 < int_max_str_digits limits
      /\ int_max_str_digits limits < List.length s).

(** What holds of the outcome of a scan that had enough fuel. *)
Definition scan_post {A} (x : Json.scan A) (P : A -> Prop)
  (Q : exn -> Prop) : Prop :=
  match x with
  | Json.Scanned a => P a
  | Json.Malformed => True
  | Json.Raised e => Q e
  | Json.NoFuel => False
  end.

(** [r] is the fallback result whose single finding describes [text]:
    one finding, of severity info, with no affected log and the fixed
    fix; one fixed recommendation; no common error. *)
Definition is_fallback (lax : Pydantic.Lax) (text : str)
  (r : result pyval) : Prop :=
  exists parsed raw_findings,
    r = Ok (PDict parsed)
    /\ get parsed (lit "findings") = Some raw_findings
    /\ AnalysisService._convert_findings lax raw_findings
       = Ok [ {| Schemas.severity := lit "info";
                 Schemas.title := lit "Analysis Result";
                 Schemas.description := slice_to 1000 text;
                 Schemas.affected_logs_count := 0;
                 Schemas.suggested_fix := lit "Manual review required";
                 Schemas.code_example := None |} ]
    /\ get parsed (lit "recommendations")
       = Some (PList [PStr (lit "Review logs manually")])
    /\ get parsed (lit "most_common_errors") = Some (PList []).

(** Two raw findings: one complete, one with no [severity] key. *)
Definition finding_high : pyval :=
  PDict [ (lit "severity", PStr (lit "high"));
          (lit "title", PStr (lit "Timeouts"));
          (lit "description", PStr (lit "Requests time out"));
          (lit "suggested_fix", PStr (lit "Raise the timeout")) ].

Definition finding_without_severity : pydict :=
  [ (lit "title", PStr (lit "Disk"));
    (lit "description", PStr (lit "Disk is full"));
    (lit "suggested_fix", PStr (lit "Free space")) ].

(** Three entries of severities ERROR, error, ERROR, and an entry as the
    client yields it when the log line carries no severity. *)
Definition entry_of_severity (sev : string) : log_entry :=
  [ (lit "timestamp", LStr (lit "2024-01-15T10:30:00+00:00"));
    (lit "severity", LStr (lit sev));
    (lit "text_payload", LStr (lit "Database connection failed")) ].

Definition mixed_case_logs : list log_entry :=
  [ entry_of_severity "ERROR"; entry_of_severity "error";
    entry_of_severity "ERROR" ].

Definition entry_without_severity : raw_entry := {|
  entry_timestamp := Some (lit "2024-01-15T10:30:00+00:00");
  entry_severity := None;
  entry_log_name := Some (lit "projects/test-project/logs/app");
  entry_resource := None;
  entry_payload := PStr (lit "service started");
  entry_labels := None;
  entry_insert_id := Some (lit "test-id-1")
|}.

(** How the query filter depends on the request filter and on the
    configured default; a filter counts as supplied, or as configured,
    when it is a non-empty string, as [if filter_query:] and
    [elif self.settings.gcp_log_filter:] test it. *)
Definition effective_filter (settings : Settings)
  (filter_query : option str) (timestamp_filter query : str) : Prop :=
  (forall q, filter_query = Some q -> q <> [] ->
     query = timestamp_filter ++ lit " AND " ++ q)
  /\ (filter_query = None \/ filter_query = Some [] ->
      gcp_log_filter settings <> [] ->
      query = timestamp_filter ++ lit " AND " ++ gcp_log_filter settings)
  /\ (filter_query = None \/ filter_query = Some [] ->
      gcp_log_filter settings = [] ->
      query = timestamp_filter).

Definition is_list_entries (ev : event) : Prop :=
  match ev with
  | ListEntries _ _ => True
  | _ => False
  end.

(** A configuration with a default filter, one with no project, an
    environment in which every outside call succeeds and the log is
    empty, and a request that carries a filter. *)
Definition sample_settings : Settings := {|
  gcp_project_id := Some (lit "test-project");
  gcp_credentials_json := None;
  gcp_log_filter := lit "resource.type=gce_instance";
  gcp_log_limit := 100;
  openai_api_key := Some (lit "sk-test");
  anthropic_api_key := None;
  llm_provider := lit "openai";
  analysis_output_dir := lit "analysis_reports";
  max_log_entries_to_analyze := 50
|}.

Definition settings_without_project : Settings := {|
  gcp_project_id := None;
  gcp_credentials_json := None;
  gcp_log_filter := [];
  gcp_log_limit := 100;
  openai_api_key := Some (lit "sk-test");
  anthropic_api_key := None;
  llm_provider := lit "openai";
  analysis_output_dir := lit "analysis_reports";
  max_log_entries_to_analyze := 50
|}.

(** An interpreter with no limit on integers, and the response made of
    an opening bracket followed by 4301 digits. *)
Definition no_limits : Limits := {|
  recursion_depth := 900;
  int_max_str_digits := 0
|}.

Definition long_integer_text : str := lit "[" ++ repeat 49%N 4301.

(** The limits of an interpreter with its defaults: a recursion limit of
    1000 of which 900 levels are left, and integers of 4300 digits. *)
Definition cpython_limits : Limits := {|
  recursion_depth := 900;
  int_max_str_digits := 4300
|}.

Definition quiet_env : Env := {|
  py_limits := cpython_limits;
  uuid4 := lit "3f2b8c1e-5d4a-4e6f-9a7b-0c1d2e3f4a5b";
  utcnow := 1705314600;
  start_time_text := fun _ => Ok (lit "2024-01-14T10:30:00Z");
  new_logging_client := fun _ _ => Ok tt;
  list_entries := fun _ _ => Ok [];
  new_chat_model := fun _ _ => Ok tt;
  invoke_model := fun _ _ => Ok (lit "{}");
  new_document_service := Ok tt;
  mkdir := fun _ => Ok tt;
  generate_document :=
    fun _ _ _ _ _ _ _ => Ok (lit "analysis_reports/report.md")
|}.

Definition sample_request : Schemas.LogAnalysisRequest := {|
  Schemas.hours_back := 24;
  Schemas.filter_query := Some (lit "severity=ERROR");
  Schemas.max_logs := None;
  Schemas.focus_on_errors := false;
  Schemas.output_format := Schemas.markdown
|}.

Definition ready_client : GCPLoggingClient.t :=
  {| GCPLoggingClient.client := Some tt |}.

(** The result returned when no log entry was found. *)
Definition empty_response (env : Env)
  (request : Schemas.LogAnalysisRequest) : Schemas.LogAnalysisResponse := {|
  Schemas.analysis_id := uuid4 env;
  Schemas.timestamp := utcnow env;
  Schemas.statistics := {|
    Schemas.total_logs := 0;
    Schemas.by_severity := [];
    Schemas.time_range_hours := Schemas.hours_back request;
    Schemas.most_common_errors := []
  |};
  Schemas.findings := [];
  Schemas.summary := lit "No logs found in the specified time range.";
  Schemas.document_path := None;
  Schemas.recommendations :=
    [lit "Check your GCP logging configuration and filters."]
|}.

(** An environment whose log query fails. *)
Definition failing_query_env : Env := {|
  py_limits := py_limits quiet_env;
  uuid4 := uuid4 quiet_env;
  utcnow := utcnow quiet_env;
  start_time_text := start_time_text quiet_env;
  new_logging_client := new_logging_client quiet_env;
  list_entries :=
    fun _ _ =>
      Raise (Exn (OtherException (lit "ServiceUnavailable"))
               (lit "503 backend unavailable") None [] None);
  new_chat_model := new_chat_model quiet_env;
  invoke_model := invoke_model quiet_env;
  new_document_service := new_document_service quiet_env;
  mkdir := mkdir quiet_env;
  generate_document := generate_document quiet_env
|}.

Definition ready_service : AnalysisService.t :=
  {| AnalysisService.gcp_client := ready_client |}.

(** [dq] reads an ASCII literal in which each apostrophe stands for a
    double quote. *)
Definition dq (s : string) : str :=
  map (fun c => if (c =? 39)%N then quote else c) (lit s).

(** An entry of severity ERROR, and an environment whose log holds one
    given entry and whose model answers with one finding. *)
Definition entry_error : raw_entry := {|
  entry_timestamp := Some (lit "2024-01-15T10:30:00+00:00");
  entry_severity := Some (lit "ERROR");
  entry_log_name := Some (lit "projects/test-project/logs/app-error");
  entry_resource :=
    Some {| resource_type := Some (lit "gce_instance");
            resource_labels := [] |};
  entry_payload := PStr (lit "Database connection failed");
  entry_labels := Some [];
  entry_insert_id := Some (lit "test-id-1")
|}.

Definition answering_env (entry : raw_entry) : Env := {|
  py_limits := py_limits quiet_env;
  uuid4 := uuid4 quiet_env;
  utcnow := utcnow quiet_env;
  start_time_text := start_time_text quiet_env;
  new_logging_client := new_logging_client quiet_env;
  list_entries := fun _ _ => Ok [entry];
  new_chat_model := new_chat_model quiet_env;
  invoke_model := fun _ _ =>
    Ok (dq "{'summary': 's', 'findings': [{'severity': 'low'}]}");
  new_document_service := new_document_service quiet_env;
  mkdir := mkdir quiet_env;
  generate_document := generate_document quiet_env
|}.

(** The entry a backfill appends for [key], if [d] lacks the key, and
    the four entries of [_parse_llm_response] together. *)
Definition missing (d : pydict) (key : string) (default : pyval) : pydict :=
  if dict_mem str_eqb d (lit key) then [] else [(lit key, default)].

Definition completion (d : pydict) : pydict :=
  missing d "summary" (PStr (lit "Analysis completed"))
  ++ missing d "findings" (PList [])
  ++ missing d "recommendations" (PList [])
  ++ missing d "most_common_errors" (PList []).

Definition required_keys : list str :=
  [ lit "summary"; lit "findings"; lit "recommendations";
    lit "most_common_errors" ].

(** Null, a boolean or a number. *)
Definition is_scalar (v : pyval) : bool :=
  match v with
  | PNone | PBool _ | PInt _ | PFloat _ => true
  | _ => false
  end.

(** The keys of a normalised entry, and what every entry that
    [fetch_logs] returns satisfies. *)
Definition entry_keys : list str :=
  [ lit "timestamp"; lit "severity"; lit "log_name"; lit "resource";
    lit "text_payload"; lit "json_payload"; lit "labels"; lit "insert_id" ].

Definition normalised (log : log_entry) : Prop :=
  map fst log = entry_keys
  /\ (dict_lookup str_eqb log (lit "text_payload") = Some LNone
      \/ dict_lookup str_eqb log (lit "json_payload") = Some LNone)
  /\ (exists d, dict_lookup str_eqb log (lit "resource") = Some (LDict d))
  /\ (dict_lookup str_eqb log (lit "severity") = Some LNone
      \/ exists s, dict_lookup str_eqb log (lit "severity") = Some (LStr s)).

(** The same request with another [filter_query]. *)
Definition with_filter_query (request : Schemas.LogAnalysisRequest)
  (filter_query : option str) : Schemas.LogAnalysisRequest := {|
  Schemas.hours_back := Schemas.hours_back request;
  Schemas.filter_query := filter_query;
  Schemas.max_logs := Schemas.max_logs request;
  Schemas.focus_on_errors := Schemas.focus_on_errors request;
  Schemas.output_format := Schemas.output_format request
|}.

(** The request whose fields all have their defaults. *)
Definition default_request : Schemas.LogAnalysisRequest := {|
  Schemas.hours_back := 24;
  Schemas.filter_query := None;
  Schemas.max_logs := None;
  Schemas.focus_on_errors := true;
  Schemas.output_format := Schemas.markdown
|}.

(** The key that the configured provider needs: any provider other than
    "anthropic" is OpenAI. *)
Definition selected_api_key (settings : Settings) : option str :=
  if str_eqb (llm_provider settings) (lit "anthropic")
  then anthropic_api_key settings
  else openai_api_key settings.

Definition missing_key_code (settings : Settings) : str :=
  if str_eqb (llm_provider settings) (lit "anthropic")
  then lit "ANTHROPIC_API_KEY_MISSING"
  else lit "OPENAI_API_KEY_MISSING".

(** A configuration that selects Anthropic and holds an OpenAI key
    only. *)
Definition settings_other_key : Settings := {|
  gcp_project_id := Some (lit "test-project");
  gcp_credentials_json := None;
  gcp_log_filter := [];
  gcp_log_limit := 100;
  openai_api_key := Some (lit "sk-test");
  anthropic_api_key := None;
  llm_provider := lit "anthropic";
  analysis_output_dir := lit "analysis_reports";
  max_log_entries_to_analyze := 50
|}.

(* ===================================================================== *)
(** * Properties *)
(* ===================================================================== *)

(** ** Strings *)

Lemma str_eqb_refl (a : str) : str_eqb a a = true.
Proof.
  induction a as [|x a IH]; simpl; [reflexivity|].
  now rewrite N.eqb_refl, IH.
Qed.

Lemma str_eqb_eq (a b : str) : str_eqb a b = true <-> a = b.
Proof.
  split.
  - revert b; induction a as [|x a IH]; intros [|y b]; simpl;
      try discriminate; [reflexivity|].
    intros H. apply andb_true_iff in H as [H1 H2].
    apply N.eqb_eq in H1. apply IH in H2. now subst.
  - intros ->. apply str_eqb_refl.
Qed.

Lemma startswith_app (p s : str) : startswith (p ++ s) p = true.
Proof.
  induction p as [|x p IH]; simpl.
  - now destruct s.
  - now rewrite N.eqb_refl, IH.
Qed.

Lemma startswith_split (p s : str) :
  startswith s p = true -> s = p ++ skipn (List.length p) s.
Proof.
  revert s; induction p as [|x p IH]; intros s H; simpl in *.
  - reflexivity.
  - destruct s as [|y s]; [discriminate|].
    apply andb_true_iff in H as [H1 H2].
    apply N.eqb_eq in H1. subst y. simpl. f_equal. now apply IH.
Qed.

Lemma lstrip_length (s : str) : List.length (lstrip s) <= List.length s.
Proof.
  induction s as [|c s IH]; simpl; [lia|].
  destruct (isspace c); simpl; lia.
Qed.

Lemma lstrip_fixed_head (c : N) (s : str) :
  lstrip (c :: s) = c :: s -> isspace c = false.
Proof.
  simpl. destruct (isspace c); [|reflexivity].
  intros H. pose proof (lstrip_length s) as L. rewrite H in L.
  simpl in L. lia.
Qed.

Lemma lstrip_idem (s : str) : lstrip (lstrip s) = lstrip s.
Proof.
  induction s as [|c s IH]; simpl; [reflexivity|].
  destruct (isspace c) eqn:E; [exact IH|].
  simpl. now rewrite E.
Qed.

Lemma lstrip_all_space (a s : str) :
  all_space a -> lstrip (a ++ s) = lstrip s.
Proof.
  induction 1 as [|c a Hc _ IH]; simpl; [reflexivity|].
  now rewrite Hc.
Qed.

Lemma lstrip_keeps (m x : str) :
  lstrip m = m -> m <> [] -> lstrip (m ++ x) = m ++ x.
Proof.
  destruct m as [|c m]; [congruence|].
  intros H _. apply lstrip_fixed_head in H. simpl. now rewrite H.
Qed.

Lemma lstrip_split (s : str) :
  exists a, all_space a /\ s = a ++ lstrip s.
Proof.
  induction s as [|c s (a & Ha & E)]; simpl.
  - exists []. split; [constructor | reflexivity].
  - destruct (isspace c) eqn:Ec.
    + exists (c :: a). split; [now constructor|]. simpl. now f_equal.
    + exists []. split; [constructor | reflexivity].
Qed.

Lemma all_space_rev (a : str) : all_space a -> all_space (rev a).
Proof. apply Forall_rev. Qed.

Lemma all_space_app (a b : str) :
  all_space a -> all_space b -> all_space (a ++ b).
Proof. intros; apply Forall_app; now split. Qed.

(** [strip] returns the one trimmed text between two runs of white
    space. *)
Lemma strip_unique (a m b : str) :
  all_space a -> all_space b -> trimmed m -> strip (a ++ m ++ b) = m.
Proof.
  intros Ha Hb [Hl Hr]. unfold strip, rstrip.
  rewrite !rev_app_distr, <- app_assoc.
  rewrite (lstrip_all_space _ (all_space_rev Hb)).
  destruct m as [|c m].
  - simpl. rewrite <- (app_nil_r (rev a)).
    rewrite (lstrip_all_space _ (all_space_rev Ha)). simpl.
    reflexivity.
  - rewrite lstrip_keeps; [|exact Hr|].
    + rewrite rev_app_distr, !rev_involutive.
      now rewrite (lstrip_all_space _ Ha).
    + simpl. intros E. now apply app_eq_nil in E as [_ E].
Qed.

Lemma strip_split (s : str) :
  exists a b, all_space a /\ all_space b /\ s = a ++ strip s ++ b.
Proof.
  destruct (lstrip_split (rev s)) as (a1 & Ha1 & E1).
  destruct (lstrip_split (rstrip s)) as (a2 & Ha2 & E2).
  exists a2, (rev a1). split; [exact Ha2|]. split; [now apply all_space_rev|].
  unfold strip. rewrite app_assoc, <- E2. unfold rstrip.
  rewrite <- rev_app_distr, <- E1. now rewrite rev_involutive.
Qed.

Lemma strip_trimmed (s : str) : trimmed (strip s).
Proof.
  split; [apply lstrip_idem|].
  unfold strip, rstrip.
  set (y := lstrip (rev s)).
  assert (Hy : lstrip y = y) by apply lstrip_idem.
  destruct (lstrip_split (rev y)) as (a & Ha & E).
  assert (Ey : y = rev (lstrip (rev y)) ++ rev a).
  { rewrite <- rev_app_distr, <- E. now rewrite rev_involutive. }
  destruct (rev (lstrip (rev y))) as [|c z] eqn:Ez; [reflexivity|].
  rewrite Ey in Hy. simpl in Hy. apply lstrip_fixed_head in Hy.
  simpl. now rewrite Hy.
Qed.

Lemma strip_idem (s : str) : strip (strip s) = strip s.
Proof.
  pose proof (strip_unique (a := []) (b := []) (Forall_nil _) (Forall_nil _)
                (strip_trimmed s)) as H.
  simpl in H. now rewrite app_nil_r in H.
Qed.

Lemma strip_pad (a b s : str) :
  all_space a -> all_space b -> strip (a ++ s ++ b) = strip s.
Proof.
  intros Ha Hb.
  destruct (strip_split s) as (a' & b' & Ha' & Hb' & E).
  rewrite E at 1.
  replace (a ++ (a' ++ strip s ++ b') ++ b)
    with ((a ++ a') ++ strip s ++ (b' ++ b))
    by now rewrite <- !app_assoc.
  apply strip_unique; auto using all_space_app, strip_trimmed.
Qed.

(** ** The decoder *)

Lemma consumed_length (s r : str) :
  consumed s r -> List.length r < List.length s.
Proof.
  intros (pre & Hp & ->). rewrite length_app.
  destruct pre; [congruence | simpl; lia].
Qed.

Lemma consumed_cons (c : N) (s r : str) : consumed s r -> consumed (c :: s) r.
Proof.
  intros (pre & _ & ->). exists (c :: pre). split; [discriminate|reflexivity].
Qed.

Lemma consumed_here (c : N) (r : str) : consumed (c :: r) r.
Proof. exists [c]. split; [discriminate|reflexivity]. Qed.

Lemma consumed_app (pre s r : str) : consumed s r -> consumed (pre ++ s) r.
Proof.
  intros (q & Hq & ->). exists (pre ++ q). split.
  - intros E. apply app_eq_nil in E as [_ E]. contradiction.
  - now rewrite app_assoc.
Qed.

Lemma consumed_trans (s m r : str) :
  consumed s m -> consumed m r -> consumed s r.
Proof. intros (q & _ & ->) H. now apply consumed_app. Qed.

Lemma skip_ws_split (s : str) :
  exists w, json_space w /\ s = w ++ Json.skip_ws s.
Proof.
  induction s as [|c s (w & Hw & E)]; simpl.
  - exists []. split; [constructor | reflexivity].
  - destruct (Json.is_ws c) eqn:Ec.
    + exists (c :: w). split; [now constructor|]. simpl. now f_equal.
    + exists []. split; [constructor | reflexivity].
Qed.

Lemma skip_ws_length (s : str) :
  List.length (Json.skip_ws s) <= List.length s.
Proof.
  destruct (skip_ws_split s) as (w & _ & E). rewrite E at 2.
  rewrite length_app. lia.
Qed.

Lemma skip_ws_consumed (s s1 r : str) :
  Json.skip_ws s = s1 -> consumed s1 r -> consumed s r.
Proof.
  intros <- H. destruct (skip_ws_split s) as (w & _ & E). rewrite E.
  now apply consumed_app.
Qed.

Lemma scanstring_consumed (n : nat) :
  forall s acc high v r, List.length s <= n ->
    Json.scanstring s acc high = Some (v, r) -> consumed s r.
Proof.
  induction n as [|n IH]; intros s acc high v r Hn H.
  - destruct s; [discriminate | simpl in Hn; lia].
  - destruct s as [|c s]; [discriminate|]. simpl in Hn, H.
    destruct (c =? 34)%N.
    { injection H as _ <-. apply consumed_here. }
    destruct (c =? 92)%N.
    { destruct s as [|e s]; [discriminate|]. simpl in Hn.
      destruct (e =? 117)%N.
      - destruct s as [|h1 [|h2 [|h3 [|h4 s]]]]; try discriminate.
        simpl in Hn.
        destruct (Json.hex4 h1 h2 h3 h4) as [uni|]; [|discriminate].
        assert (Hs : List.length s <= n) by lia.
        do 6 apply consumed_cons.
        destruct acc as [|hi acc];
          [|destruct (high && Json.is_low_surrogate uni)];
          eapply IH; eauto.
      - destruct (Json.backslash e); [|discriminate].
        do 2 apply consumed_cons. eapply IH; [|exact H]. lia. }
    destruct (c <? 32)%N; [discriminate|].
    apply consumed_cons. eapply IH; [|exact H]. lia.
Qed.

Lemma scanstring_suffix (s acc : str) (high : bool) (v r : str) :
  Json.scanstring s acc high = Some (v, r) -> consumed s r.
Proof. apply (scanstring_consumed (n := List.length s)). lia. Qed.

Lemma take_digits_split (s : str) :
  s = fst (Json.take_digits s) ++ snd (Json.take_digits s).
Proof.
  induction s as [|c s IH]; simpl; [reflexivity|].
  destruct (Json.is_digit c); [|reflexivity].
  destruct (Json.take_digits s) as [d r]. simpl in *. now f_equal.
Qed.

Lemma match_integer_split (s i r : str) :
  Json.match_integer s = Some (i, r) -> i <> [] /\ s = i ++ r.
Proof.
  unfold Json.match_integer. destruct s as [|c s]; [discriminate|].
  destruct (c =? 48)%N.
  { intros H. injection H as <- <-. split; [discriminate|reflexivity]. }
  destruct (Json.is_digit c); [|discriminate].
  pose proof (take_digits_split s) as E.
  destruct (Json.take_digits s) as [d r']. simpl in E.
  intros H. injection H as <- <-. split; [discriminate|]. simpl. now f_equal.
Qed.

Lemma match_frac_split (s : str) :
  s = fst (Json.match_frac s) ++ snd (Json.match_frac s).
Proof.
  unfold Json.match_frac. destruct s as [|c s]; [reflexivity|].
  destruct (c =? 46)%N; [|reflexivity].
  pose proof (take_digits_split s) as E.
  destruct (Json.take_digits s) as [[|x d] r]; [reflexivity|].
  simpl in *. now f_equal.
Qed.

Lemma match_exp_split (s : str) :
  s = fst (Json.match_exp s) ++ snd (Json.match_exp s).
Proof.
  unfold Json.match_exp. destruct s as [|c s]; [reflexivity|].
  destruct ((c =? 101) || (c =? 69))%N; [|reflexivity].
  destruct s as [|g s]; [reflexivity|].
  destruct ((g =? 43) || (g =? 45))%N.
  - pose proof (take_digits_split s) as E.
    destruct (Json.take_digits s) as [[|x d] r]; [reflexivity|].
    simpl in *. now do 2 f_equal.
  - pose proof (take_digits_split (g :: s)) as E.
    destruct (Json.take_digits (g :: s)) as [[|x d] r]; [reflexivity|].
    simpl in *. now f_equal.
Qed.

Lemma match_number_consumed (max_digits : nat) (s : str) :
  scan_post (Json.match_number max_digits s)
    (fun vr => consumed s (snd vr) /\ forall d, fst vr <> PDict d)
    (fun e => exn_cls e = ValueError
              /\ 0 < max_digits /\ max_digits < List.length s).
Proof.
  unfold Json.match_number.
  set (sign := match s with
               | c :: s' => if (c =? 45)%N then (true, s') else (false, s)
               | [] => (false, s)
               end).
  assert (Hsign : snd sign = s \/ exists c, s = c :: snd sign).
  { subst sign. destruct s as [|c s']; [now left|].
    destruct (c =? 45)%N; [right; now exists c | now left]. }
  destruct sign as [neg s0]. simpl in Hsign.
  destruct (Json.match_integer s0) as [[i r1]|] eqn:Ei; [|exact I].
  apply match_integer_split in Ei as [Hi E1].
  pose proof (match_frac_split r1) as E2.
  destruct (Json.match_frac r1) as [f r2]. simpl in E2.
  pose proof (match_exp_split r2) as E3.
  destruct (Json.match_exp r2) as [e r3]. simpl in E3.
  assert (C0 : consumed s0 r3).
  { exists (i ++ f ++ e). split.
    - intros E. apply app_eq_nil in E as [E _]. contradiction.
    - rewrite E1, E2, E3. now rewrite <- !app_assoc. }
  assert (C : consumed s r3).
  { destruct Hsign as [<- | (c & ->)]; [exact C0|].
    now apply consumed_cons. }
  assert (L : List.length i <= List.length s).
  { assert (L0 : List.length i <= List.length s0)
      by (rewrite E1, length_app; lia).
    destruct Hsign as [<- | (c & ->)]; simpl; lia. }
  destruct f, e; simpl; try (split; [exact C | intros d; discriminate]).
  destruct (Json.exceeds max_digits (List.length i)) eqn:Ex; simpl.
  - unfold Json.exceeds in Ex.
    apply andb_true_iff in Ex as [Ex _].
    apply andb_true_iff in Ex as [E0 Em].
    apply Nat.ltb_lt in E0, Em. split; [reflexivity|]. lia.
  - split; [exact C | intros d; discriminate].
Qed.

Lemma strip_prefix_split (p : string) (s r : str) :
  Json.strip_prefix p s = Some r -> s = lit p ++ r.
Proof.
  unfold Json.strip_prefix.
  destruct (startswith s (lit p)) eqn:E; [|discriminate].
  intros H. injection H as <-. now apply startswith_split.
Qed.

Lemma match_constant_consumed (s : str) (v : pyval) (r : str) :
  Json.match_constant s = Some (v, r) ->
  consumed s r /\ forall d, v <> PDict d.
Proof.
  unfold Json.match_constant.
  repeat match goal with
  | |- context [Json.strip_prefix ?p s] =>
      let E := fresh "E" in
      destruct (Json.strip_prefix p s) eqn:E;
        [apply strip_prefix_split in E; intros H; injection H as <- <-;
         split; [exists (lit p); split; [discriminate | exact E]
                | intros d; discriminate]
        | clear E]
  end.
  discriminate.
Qed.

Lemma braced_consumed (s r : str) : braced s r -> consumed s r.
Proof.
  intros (mid & ->). exists (123%N :: mid ++ [125%N]).
  split; [discriminate|]. simpl. now rewrite <- app_assoc.
Qed.

Lemma closes_after (s m r : str) : consumed s m -> closes m r -> closes s r.
Proof.
  intros (pre & _ & ->) (mid & ->). exists (pre ++ mid).
  now rewrite <- app_assoc.
Qed.

Lemma skip_ws_closes (s r : str) :
  Json.skip_ws s = 125%N :: r -> closes s r.
Proof.
  intros E. destruct (skip_ws_split s) as (w & _ & Ew).
  exists w. now rewrite <- E.
Qed.

Lemma skip_ws_step (s r : str) (c : N) :
  Json.skip_ws s = c :: r -> consumed s r.
Proof.
  intros E. eapply skip_ws_consumed; [exact E | apply consumed_here].
Qed.

Lemma limit_hit_longer (limits : Limits) (depth : nat) (s r : str)
  (e : exn) :
  List.length r <= List.length s ->
  limit_hit limits depth r e -> limit_hit limits depth s e.
Proof.
  intros L [[H1 H2] | (H1 & H2 & H3)]; [left | right];
    repeat split; auto; lia.
Qed.

Lemma limit_hit_enter (limits : Limits) (depth : nat) (s r : str)
  (e : exn) :
  List.length r < List.length s ->
  limit_hit limits depth r e -> limit_hit limits (S depth) s e.
Proof.
  intros L [[H1 H2] | (H1 & H2 & H3)]; [left | right];
    repeat split; auto; lia.
Qed.

Lemma scan_once_eq (limits : Limits) (f depth : nat) (c : N) (s' : str) :
  Json.scan_once limits (S f) depth (c :: s') =
  if (c =? 34)%N then
    match Json.scanstring s' [] false with
    | Some (v, r) => Json.Scanned (PStr v, r)
    | None => Json.Malformed
    end
  else if (c =? 123)%N then
    match depth with
    | O => Json.Raised (Json.recursion_error "object")
    | S depth' =>
        match Json.skip_ws s' with
        | c1 :: r1 =>
            if (c1 =? 125)%N then Json.Scanned (PDict [], r1)
            else if (c1 =? 34)%N
            then Json.object_members limits f depth' r1 []
            else Json.Malformed
        | [] => Json.Malformed
        end
    end
  else if (c =? 91)%N then
    match depth with
    | O => Json.Raised (Json.recursion_error "array")
    | S depth' =>
        match Json.skip_ws s' with
        | c1 :: r1 =>
            if (c1 =? 93)%N then Json.Scanned (PList [], r1)
            else Json.array_items limits f depth' (c1 :: r1) []
        | [] => Json.Malformed
        end
    end
  else
    match Json.match_constant (c :: s') with
    | Some vr => Json.Scanned vr
    | None => Json.match_number (int_max_str_digits limits) (c :: s')
    end.
Proof. reflexivity. Qed.

Lemma object_members_eq (limits : Limits) (f depth : nat) (s : str)
  (pairs : list (str * pyval)) :
  Json.object_members limits (S f) depth s pairs =
  match Json.scanstring s [] false with
  | None => Json.Malformed
  | Some (key, r) =>
      match Json.skip_ws r with
      | c :: r1 =>
          if (c =? 58)%N then
            match Json.scan_once limits f depth (Json.skip_ws r1) with
            | Json.Scanned (value, r2) =>
                match Json.skip_ws r2 with
                | c2 :: r3 =>
                    if (c2 =? 125)%N then
                      Json.Scanned
                        (PDict (dict_of_pairs str_eqb
                                  (rev ((key, value) :: pairs))), r3)
                    else if (c2 =? 44)%N then
                      match Json.skip_ws r3 with
                      | c3 :: r4 =>
                          if (c3 =? 34)%N
                          then Json.object_members limits f depth r4
                                 ((key, value) :: pairs)
                          else Json.Malformed
                      | [] => Json.Malformed
                      end
                    else Json.Malformed
                | [] => Json.Malformed
                end
            | Json.Malformed => Json.Malformed
            | Json.Raised e => Json.Raised e
            | Json.NoFuel => Json.NoFuel
            end
          else Json.Malformed
      | [] => Json.Malformed
      end
  end.
Proof. reflexivity. Qed.

Lemma array_items_eq (limits : Limits) (f depth : nat) (s : str)
  (items : list pyval) :
  Json.array_items limits (S f) depth s items =
  match Json.scan_once limits f depth s with
  | Json.Scanned (value, r) =>
      match Json.skip_ws r with
      | c :: r1 =>
          if (c =? 93)%N
          then Json.Scanned (PList (rev (value :: items)), r1)
          else if (c =? 44)%N
          then Json.array_items limits f depth (Json.skip_ws r1)
                 (value :: items)
          else Json.Malformed
      | [] => Json.Malformed
      end
  | Json.Malformed => Json.Malformed
  | Json.Raised e => Json.Raised e
  | Json.NoFuel => Json.NoFuel
  end.
Proof. reflexivity. Qed.

(** With fuel above twice the length of the text, a scan never runs out of
    fuel; a value it returns was read from a non-empty prefix, and a
    dictionary from a prefix in braces; an exception it raises tells that
    the text is longer than a limit. *)
Lemma scan_sound (limits : Limits) (fuel : nat) :
  (forall depth s, 2 * List.length s < fuel ->
     scan_post (Json.scan_once limits fuel depth s)
       (fun vr => consumed s (snd vr) /\
                  forall d, fst vr = PDict d -> braced s (snd vr))
       (limit_hit limits depth s))
  /\ (forall depth s pairs, 2 * List.length s + 1 < fuel ->
     scan_post (Json.object_members limits fuel depth s pairs)
       (fun vr => closes s (snd vr))
       (limit_hit limits depth s))
  /\ (forall depth s items, 2 * List.length s + 1 < fuel ->
     scan_post (Json.array_items limits fuel depth s items)
       (fun vr => consumed s (snd vr) /\ forall d, fst vr <> PDict d)
       (limit_hit limits depth s)).
Proof.
  induction fuel as [|f (IHA & IHB & IHC)].
  { repeat split; intros; lia. }
  split; [|split].
  - intros depth [|c s'] Hf; [exact I|]. rewrite scan_once_eq. simpl in Hf.
    destruct (c =? 34)%N.
    { destruct (Json.scanstring s' [] false) as [[v r]|] eqn:E; [|exact I].
      simpl. split; [|discriminate].
      apply consumed_cons. eapply scanstring_suffix; eauto. }
    destruct (c =? 123)%N eqn:Ec.
    { apply N.eqb_eq in Ec. subst c.
      destruct depth as [|depth'].
      { left. split; [reflexivity | simpl; lia]. }
      destruct (skip_ws_split s') as (w & _ & Ew).
      pose proof (skip_ws_length s') as L.
      destruct (Json.skip_ws s') as [|c1 r1] eqn:E1; [exact I|].
      simpl in L.
      destruct (c1 =? 125)%N eqn:E125.
      { apply N.eqb_eq in E125. subst c1.
        assert (B : braced (123%N :: s') r1) by (exists w; now rewrite Ew).
        simpl. split; [now apply braced_consumed | intros; exact B]. }
      destruct (c1 =? 34)%N; [|exact I].
      specialize (IHB depth' r1 [] ltac:(lia)).
      destruct (Json.object_members limits f depth' r1 []) as [[v r]| |e|];
        simpl in *; [|exact I| |contradiction].
      - destruct IHB as (mid & Em).
        assert (B : braced (123%N :: s') r).
        { exists (w ++ c1 :: mid). rewrite Ew, Em.
          now rewrite <- app_assoc. }
        split; [now apply braced_consumed | intros; exact B].
      - eapply limit_hit_enter; [|exact IHB]. simpl. lia. }
    destruct (c =? 91)%N.
    { destruct depth as [|depth'].
      { left. split; [reflexivity | simpl; lia]. }
      pose proof (skip_ws_length s') as L.
      destruct (Json.skip_ws s') as [|c1 r1] eqn:E1; [exact I|].
      destruct (c1 =? 93)%N.
      { simpl. split; [|discriminate].
        apply consumed_cons. eapply skip_ws_step; eauto. }
      simpl in L. specialize (IHC depth' (c1 :: r1) [] ltac:(simpl; lia)).
      destruct (Json.array_items limits f depth' (c1 :: r1) [])
        as [[v r]| |e|]; simpl in *; [|exact I| |contradiction].
      - destruct IHC as [C ND]. split.
        + apply consumed_cons. eapply skip_ws_consumed; eauto.
        + intros d E. now apply ND in E.
      - eapply limit_hit_enter; [|exact IHC]. simpl. lia. }
    destruct (Json.match_constant (c :: s')) as [[v r]|] eqn:Ek.
    { apply match_constant_consumed in Ek as [C ND]. simpl.
      split; [exact C | intros d E; now apply ND in E]. }
    pose proof (match_number_consumed (int_max_str_digits limits) (c :: s'))
      as Hn.
    destruct (Json.match_number (int_max_str_digits limits) (c :: s'))
      as [[v r]| |e|]; simpl in *; [|exact I| |contradiction].
    + destruct Hn as [C ND]. split; [exact C | intros d E; now apply ND in E].
    + right. exact Hn.
  - intros depth s pairs Hf. rewrite object_members_eq.
    destruct (Json.scanstring s [] false) as [[key r]|] eqn:Es; [|exact I].
    apply scanstring_suffix in Es.
    destruct (Json.skip_ws r) as [|c r1] eqn:E1; [exact I|].
    apply skip_ws_step in E1.
    destruct (c =? 58)%N; [|exact I].
    pose proof (skip_ws_length r1) as L1.
    pose proof (consumed_length Es) as L2.
    pose proof (consumed_length E1) as L3.
    specialize (IHA depth (Json.skip_ws r1) ltac:(lia)).
    destruct (skip_ws_split r1) as (w1 & _ & Ew1).
    destruct (Json.scan_once limits f depth (Json.skip_ws r1))
      as [[value r2]| |e|]; simpl in *; [|exact I| |contradiction].
    2:{ eapply limit_hit_longer; [|exact IHA]. lia. }
    destruct IHA as [C2 _].
    assert (C : consumed s r2).
    { eapply consumed_trans; [exact Es|].
      eapply consumed_trans; [exact E1|].
      rewrite Ew1. now apply consumed_app. }
    destruct (Json.skip_ws r2) as [|c2 r3] eqn:E2; [exact I|].
    destruct (c2 =? 125)%N eqn:E125.
    { apply N.eqb_eq in E125. subst c2. simpl.
      eapply closes_after; [exact C|]. now apply skip_ws_closes. }
    destruct (c2 =? 44)%N; [|exact I].
    apply skip_ws_step in E2.
    destruct (Json.skip_ws r3) as [|c3 r4] eqn:E3; [exact I|].
    apply skip_ws_step in E3.
    destruct (c3 =? 34)%N; [|exact I].
    assert (C4 : consumed s r4).
    { eapply consumed_trans; [exact C|].
      eapply consumed_trans; eauto. }
    pose proof (consumed_length C4) as L4.
    pose proof (consumed_length C) as L5.
    pose proof (consumed_length E2) as L6.
    pose proof (consumed_length E3) as L7.
    specialize (IHB depth r4 ((key, value) :: pairs) ltac:(lia)).
    destruct (Json.object_members limits f depth r4 ((key, value) :: pairs))
      as [[v r']| |e|]; simpl in *; [|exact I| |contradiction].
    + eapply closes_after; eauto.
    + eapply limit_hit_longer; [|exact IHB]. lia.
  - intros depth s items Hf. rewrite array_items_eq.
    specialize (IHA depth s ltac:(lia)).
    destruct (Json.scan_once limits f depth s) as [[value r]| |e|];
      simpl in *; [|exact I|exact IHA|contradiction].
    destruct IHA as [C _].
    destruct (Json.skip_ws r) as [|c r1] eqn:E1; [exact I|].
    apply skip_ws_step in E1.
    destruct (c =? 93)%N.
    { simpl. split; [|discriminate]. eapply consumed_trans; eauto. }
    destruct (c =? 44)%N; [|exact I].
    pose proof (skip_ws_length r1) as L1.
    pose proof (consumed_length C) as L2.
    pose proof (consumed_length E1) as L3.
    specialize (IHC depth (Json.skip_ws r1) (value :: items) ltac:(lia)).
    destruct (skip_ws_split r1) as (w1 & _ & Ew1).
    destruct (Json.array_items limits f depth (Json.skip_ws r1)
                (value :: items))
      as [[v r']| |e|]; simpl in *; [|exact I| |contradiction].
    + destruct IHC as [C' ND]. split; [|exact ND].
      eapply consumed_trans; [exact C|].
      eapply consumed_trans; [exact E1|].
      rewrite Ew1. now apply consumed_app.
    + eapply limit_hit_longer; [|exact IHC]. lia.
Qed.

(** [json.loads] never stops for lack of fuel: [DecodeError] is a text
    that the grammar rejects. *)
Lemma decode_fuel (limits : Limits) (s : str) :
  Json.decode limits (Json.fuel_for s) s <> Json.NoFuel.
Proof.
  unfold Json.decode.
  destruct (scan_sound limits (Json.fuel_for s)) as (A & _ & _).
  pose proof (skip_ws_length s) as L.
  specialize (A (recursion_depth limits) (Json.skip_ws s)
                ltac:(unfold Json.fuel_for; lia)).
  destruct (Json.scan_once limits (Json.fuel_for s) (recursion_depth limits)
              (Json.skip_ws s))
    as [[v r]| |e|]; simpl in A; [|discriminate|discriminate|contradiction].
  destruct (Json.skip_ws r); discriminate.
Qed.

(** An exception of [json.loads] other than [JSONDecodeError] is a
    [RecursionError] or a [ValueError], and the text is then longer than
    the limit that was reached. *)
Lemma loads_limit (limits : Limits) (s : str) (e : exn) :
  Json.loads limits s = Json.OtherError e ->
  limit_hit limits (recursion_depth limits) s e.
Proof.
  unfold Json.loads, Json.decode.
  destruct (scan_sound limits (Json.fuel_for s)) as (A & _ & _).
  pose proof (skip_ws_length s) as L.
  specialize (A (recursion_depth limits) (Json.skip_ws s)
                ltac:(unfold Json.fuel_for; lia)).
  destruct (Json.scan_once limits (Json.fuel_for s) (recursion_depth limits)
              (Json.skip_ws s))
    as [[v r]| |e'|]; simpl in A; try discriminate.
  - destruct (Json.skip_ws r); discriminate.
  - intros H. injection H as <-. eapply limit_hit_longer; eauto.
Qed.

Lemma skip_ws_nil (s : str) : Json.skip_ws s = [] -> json_space s.
Proof.
  intros E. destruct (skip_ws_split s) as (w & Hw & Ew).
  rewrite E, app_nil_r in Ew. now subst.
Qed.

(** A text that decodes to a dictionary is a braced text between runs of
    JSON white space. *)
Lemma loads_object_shape (limits : Limits) (J : str) (d : pydict) :
  Json.loads limits J = Json.Value (PDict d) ->
  exists w1 mid w2, json_space w1 /\ json_space w2 /\
    J = w1 ++ (123%N :: mid ++ [125%N]) ++ w2.
Proof.
  unfold Json.loads, Json.decode.
  destruct (scan_sound limits (Json.fuel_for J)) as (A & _ & _).
  pose proof (skip_ws_length J) as L.
  specialize (A (recursion_depth limits) (Json.skip_ws J)
                ltac:(unfold Json.fuel_for; lia)).
  destruct (skip_ws_split J) as (w1 & Hw1 & E1).
  destruct (Json.scan_once limits (Json.fuel_for J) (recursion_depth limits)
              (Json.skip_ws J))
    as [[v r]| |e|]; simpl in A; try discriminate.
  destruct A as [_ B].
  destruct (Json.skip_ws r) eqn:Er; [|discriminate].
  intros H. injection H as ->.
  destruct (B d eq_refl) as (mid & Em).
  exists w1, mid, r. split; [exact Hw1|]. split; [now apply skip_ws_nil|].
  rewrite E1 at 1. rewrite Em. simpl. now rewrite <- app_assoc.
Qed.

Lemma json_space_all_space (w : str) : json_space w -> all_space w.
Proof.
  apply Forall_impl. intros c H. unfold Json.is_ws in H.
  repeat (apply orb_true_iff in H as [H|H]);
    apply N.eqb_eq in H; subst; reflexivity.
Qed.

(** ** Fence stripping *)

Lemma strip_trimmed_id (m : str) : trimmed m -> strip m = m.
Proof.
  intros H.
  pose proof (strip_unique (a := []) (b := []) (Forall_nil _) (Forall_nil _) H)
    as E.
  simpl in E. now rewrite app_nil_r in E.
Qed.

Lemma trimmed_ends (c d : N) (m : str) :
  isspace c = false -> isspace d = false -> trimmed (c :: m ++ [d]).
Proof.
  intros Hc Hd. split; simpl.
  - now rewrite Hc.
  - rewrite rev_app_distr. simpl. now rewrite Hd.
Qed.

Lemma strip_object (limits : Limits) (J : str) (d : pydict) :
  Json.loads limits J = Json.Value (PDict d) ->
  exists mid, strip J = 123%N :: mid ++ [125%N].
Proof.
  intros H. apply loads_object_shape in H as (w1 & mid & w2 & H1 & H2 & ->).
  exists mid. apply strip_unique; auto using json_space_all_space.
  now apply trimmed_ends.
Qed.

Lemma slice_to_neg_app (x p : str) :
  slice_to_neg (List.length p) (x ++ p) = x.
Proof.
  unfold slice_to_neg. rewrite length_app.
  replace (List.length x + List.length p - List.length p)
    with (List.length x) by lia.
  rewrite firstn_app, Nat.sub_diag, firstn_all. simpl.
  apply app_nil_r.
Qed.

Lemma endswith_app (x p : str) : endswith (x ++ p) p = true.
Proof. unfold endswith. rewrite rev_app_distr. apply startswith_app. Qed.

Lemma startswith_head (x y : N) (p s : str) :
  x <> y -> startswith (y :: s) (x :: p) = false.
Proof.
  intros H. cbn [startswith]. apply N.eqb_neq in H. now rewrite H.
Qed.

(** A trimmed text that starts and ends with a character other than a
    backquote is left alone. *)
Lemma strip_fences_unfenced (s : str) (c e : N) (m : str) :
  strip s = c :: m ++ [e] -> c <> 96%N -> e <> 96%N ->
  LLMService.strip_fences s = strip s.
Proof.
  intros E Hc He. unfold LLMService.strip_fences. rewrite E.
  assert (S1 : startswith (c :: m ++ [e]) LLMService.fence_json = false).
  { apply (startswith_head (x := 96%N)). congruence. }
  assert (S2 : startswith (c :: m ++ [e]) LLMService.fence = false).
  { apply (startswith_head (x := 96%N)). congruence. }
  assert (S3 : endswith (c :: m ++ [e]) LLMService.fence = false).
  { unfold endswith. cbn [rev]. rewrite rev_app_distr.
    apply (startswith_head (x := 96%N)). congruence. }
  cbv zeta. rewrite S1, S2, S3. rewrite <- E. apply strip_idem.
Qed.

(** A block fenced with the tag [json], or with no tag, is reduced to
    its trimmed content. *)
Lemma strip_fences_fenced_json (J : str) :
  LLMService.strip_fences (fenced (lit "json") J) = strip J.
Proof.
  set (body := [10%N] ++ J ++ [10%N]).
  assert (E : fenced (lit "json") J
              = LLMService.fence_json ++ body ++ LLMService.fence).
  { unfold fenced, body. cbn. now rewrite <- app_assoc. }
  assert (T : strip (fenced (lit "json") J) = fenced (lit "json") J).
  { apply strip_trimmed_id.
    replace (fenced (lit "json") J)
      with (96%N :: ([96; 96; 106; 115; 111; 110; 10]%N ++ J
                     ++ [10%N; 96%N; 96%N]) ++ [96%N])
      by (unfold fenced; cbn; now rewrite <- app_assoc).
    now apply trimmed_ends. }
  unfold LLMService.strip_fences. cbv zeta. rewrite T, E.
  rewrite startswith_app.
  change (slice_from 7 (LLMService.fence_json ++ body ++ LLMService.fence))
    with (body ++ LLMService.fence).
  change (startswith (body ++ LLMService.fence) LLMService.fence)
    with false.
  cbv iota. rewrite endswith_app.
  change 3 with (List.length LLMService.fence).
  rewrite slice_to_neg_app. unfold body.
  apply strip_pad; repeat constructor.
Qed.

Lemma strip_fences_fenced_plain (J : str) :
  LLMService.strip_fences (fenced [] J) = strip J.
Proof.
  set (body := [10%N] ++ J ++ [10%N]).
  assert (E : fenced [] J = LLMService.fence ++ body ++ LLMService.fence).
  { unfold fenced, body. cbn. now rewrite <- app_assoc. }
  assert (T : strip (fenced [] J) = fenced [] J).
  { apply strip_trimmed_id.
    replace (fenced [] J)
      with (96%N :: ([96; 96; 10]%N ++ J ++ [10%N; 96%N; 96%N]) ++ [96%N])
      by (unfold fenced; cbn; now rewrite <- app_assoc).
    now apply trimmed_ends. }
  unfold LLMService.strip_fences. cbv zeta. rewrite T, E.
  change (startswith (LLMService.fence ++ body ++ LLMService.fence)
            LLMService.fence_json) with false.
  cbv iota. rewrite startswith_app.
  change (slice_from 3 (LLMService.fence ++ body ++ LLMService.fence))
    with (body ++ LLMService.fence).
  rewrite endswith_app.
  change 3 with (List.length LLMService.fence).
  rewrite slice_to_neg_app. unfold body.
  apply strip_pad; repeat constructor.
Qed.

(** ** Response parsing *)

(** C1 (as amended). A response whose trimmed and fence-stripped content
    [json.loads] rejects with a [JSONDecodeError] does not raise: the
    parser returns the fallback result, with exactly one finding of
    severity info, affected count 0, the fix "Manual review required"
    and, as description, the first 1000 characters of the trimmed and
    fence-stripped text; one fixed recommendation and no common error.
    This is the case of every content that [json.loads] does not decode
    and that is no longer than the recursion depth and the digit limit of
    the interpreter. On a longer content [json.loads] can raise a
    [RecursionError] or a [ValueError] instead, which the parser does not
    catch: it raises it to its caller. *)
Theorem C1_malformed_response_falls_back
  (limits : Limits) (lax : Pydantic.Lax) (response : str) :
  (Json.loads limits (LLMService.strip_fences response) = Json.DecodeError ->
   LLMService._parse_llm_response limits response
   = Ok (LLMService.fallback (LLMService.strip_fences response))
   /\ is_fallback lax (LLMService.strip_fences response)
        (LLMService._parse_llm_response limits response))
  /\ ((forall v, Json.loads limits (LLMService.strip_fences response)
                 <> Json.Value v) ->
      List.length (LLMService.strip_fences response)
      <= recursion_depth limits ->
      int_max_str_digits limits = 0
      \/ List.length (LLMService.strip_fences response)
         <= int_max_str_digits limits ->
      Json.loads limits (LLMService.strip_fences response)
      = Json.DecodeError)
  /\ (forall e,
        Json.loads limits (LLMService.strip_fences response)
        = Json.OtherError e ->
        LLMService._parse_llm_response limits response = Raise e
        /\ (exn_cls e = RecursionError \/ exn_cls e = ValueError)).
Proof.
  split; [|split].
  - intros H.
    assert (E : LLMService._parse_llm_response limits response
                = Ok (LLMService.fallback
                        (LLMService.strip_fences response))).
    { unfold LLMService._parse_llm_response. cbv zeta. now rewrite H. }
    split; [exact E|]. rewrite E. unfold is_fallback, LLMService.fallback.
    eexists. eexists. split; [reflexivity|].
    split; [reflexivity|]. split; [reflexivity|]. split; reflexivity.
  - intros Hv Hd Hn.
    destruct (Json.loads limits (LLMService.strip_fences response))
      as [v| |e] eqn:E; [now destruct (Hv v) | reflexivity |].
    apply loads_limit in E as [[_ L] | (_ & L0 & L)]; lia.
  - intros e H. split.
    + unfold LLMService._parse_llm_response. cbv zeta. now rewrite H.
    + apply loads_limit in H as [[C _] | (C & _)]; [now left | now right].
Qed.

Lemma C1_witness :
  LLMService._parse_llm_response cpython_limits (lit "not json")
  = Ok (LLMService.fallback (LLMService.strip_fences (lit "not json")))
  /\ is_fallback Pydantic.plain (LLMService.strip_fences (lit "not json"))
       (LLMService._parse_llm_response cpython_limits (lit "not json")).
Proof.
  apply (C1_malformed_response_falls_back cpython_limits Pydantic.plain
           (lit "not json")).
  reflexivity.
Defined.

(** C1 as stated fails, in two ways. For the response [" x"] the content
    is not valid JSON, and the description of the fallback finding is
    ["x"], the trimmed text, not the first 1000 characters [" x"] of the
    raw text. The response made of an opening bracket and 4301 digits is
    not valid JSON either (no limit set, [json.loads] rejects it); with
    the default limit of 4300 digits the parser raises the [ValueError]
    of the conversion of the integer. *)
Lemma C1_counterexample :
  (Json.loads cpython_limits (LLMService.strip_fences (lit " x"))
   = Json.DecodeError
   /\ LLMService._parse_llm_response cpython_limits (lit " x")
      = Ok (LLMService.fallback (lit "x"))
   /\ ~ is_fallback Pydantic.plain (lit " x")
          (LLMService._parse_llm_response cpython_limits (lit " x")))
  /\ (Json.loads no_limits (LLMService.strip_fences long_integer_text)
      = Json.DecodeError
      /\ exists e,
           LLMService._parse_llm_response cpython_limits long_integer_text
           = Raise e
           /\ exn_cls e = ValueError).
Proof.
  split.
  - split; [reflexivity|]. split; [reflexivity|].
    intros (parsed & raw & H1 & H2 & H3 & _).
    vm_compute in H1. injection H1 as <-.
    vm_compute in H2. injection H2 as <-.
    vm_compute in H3. discriminate H3.
  - split; [vm_compute; reflexivity|].
    eexists. split; [vm_compute; reflexivity | reflexivity].
Qed.

(** C4 (as amended). For every valid JSON object text, the response that
    wraps it in a fenced code block whose opening marker carries the tag
    [json], or no tag, parses to the same result as the text unwrapped. *)
Theorem C4_fenced_json_parses_like_unwrapped (limits : Limits) (J : str)
  (d : pydict) :
  Json.loads limits J = Json.Value (PDict d) ->
  LLMService._parse_llm_response limits (fenced (lit "json") J)
  = LLMService._parse_llm_response limits J
  /\ LLMService._parse_llm_response limits (fenced [] J)
     = LLMService._parse_llm_response limits J.
Proof.
  intros H. destruct (strip_object _ _ H) as (mid & E).
  assert (U : LLMService.strip_fences J = strip J).
  { eapply strip_fences_unfenced; [exact E| |]; discriminate. }
  unfold LLMService._parse_llm_response. cbv zeta.
  now rewrite strip_fences_fenced_json, strip_fences_fenced_plain, U.
Qed.

Lemma C4_witness :
  LLMService._parse_llm_response cpython_limits
    (fenced (lit "json") (lit "{ }"))
  = LLMService._parse_llm_response cpython_limits (lit "{ }")
  /\ LLMService._parse_llm_response cpython_limits (fenced [] (lit "{ }"))
     = LLMService._parse_llm_response cpython_limits (lit "{ }").
Proof.
  apply (C4_fenced_json_parses_like_unwrapped cpython_limits (lit "{ }")
           (d := [])).
  reflexivity.
Defined.

(** C4 as stated fails: [{}] is a valid JSON object text, and wrapped in
    a block tagged [python] it parses to the fallback result, not to the
    result of parsing [{}] unwrapped. *)
Lemma C4_counterexample :
  Json.loads cpython_limits (lit "{}") = Json.Value (PDict [])
  /\ LLMService._parse_llm_response cpython_limits
       (fenced (lit "python") (lit "{}"))
     = Ok (LLMService.fallback (lit "python" ++ [10%N] ++ lit "{}"))
  /\ LLMService._parse_llm_response cpython_limits
       (fenced (lit "python") (lit "{}"))
     <> LLMService._parse_llm_response cpython_limits (lit "{}").
Proof.
  split; [reflexivity|]. split; [reflexivity|].
  intros H. vm_compute in H. discriminate H.
Qed.

(** ** Finding materialisation *)

Lemma convert_loop_spec (lax : Pydantic.Lax) (l : list pyval) :
  forall acc,
    AnalysisService.convert_loop lax l acc = acc ++ flat_map (kept lax) l.
Proof.
  induction l as [|x l IH]; intros acc; simpl.
  - now rewrite app_nil_r.
  - unfold kept at 1.
    destruct (AnalysisService.convert_finding lax x); rewrite IH.
    + now rewrite <- app_assoc.
    + reflexivity.
Qed.

Lemma get_default_absent (d : pydict) (k : str) (default : pyval) :
  get d k = None -> get_default d k default = default.
Proof.
  unfold get, get_default, dict_get_default. now intros ->.
Qed.

Lemma get_default_present (d : pydict) (k : str) (default v : pyval) :
  get d k = Some v -> get_default d k default = v.
Proof.
  unfold get, get_default, dict_get_default. now intros ->.
Qed.

(** C2 (as amended). Finding materialisation never aborts on a list: it
    returns, in the order of the raw list, the findings of the elements
    that validate. An element whose severity is present but not one of
    the five values (a wrong string, null, a number) is skipped, so a
    valid element beside such an element yields exactly one finding. An
    element with no severity key is not invalid: it is converted as if
    its severity were info. *)
Theorem C2_invalid_findings_are_skipped
  (lax : Pydantic.Lax) (llm_findings : list pyval) :
  AnalysisService._convert_findings lax (PList llm_findings)
  = Ok (flat_map (kept lax) llm_findings)
  /\ (forall d v,
        get d (lit "severity") = Some v ->
        Pydantic.validate_literal Schemas.severity_values v = None ->
        kept lax (PDict d) = [])
  /\ (forall valid invalid f,
        AnalysisService.convert_finding lax valid = Ok f ->
        kept lax invalid = [] ->
        AnalysisService._convert_findings lax (PList [valid; invalid])
        = Ok [f]
        /\ AnalysisService._convert_findings lax (PList [invalid; valid])
           = Ok [f])
  /\ (forall d,
        get d (lit "severity") = None ->
        AnalysisService.convert_finding lax (PDict d)
        = AnalysisService.convert_finding lax
            (PDict ((lit "severity", PStr (lit "info")) :: d))).
Proof.
  assert (L : forall l,
             AnalysisService._convert_findings lax (PList l)
             = Ok (flat_map (kept lax) l)).
  { intros l. unfold AnalysisService._convert_findings. simpl.
    now rewrite convert_loop_spec. }
  split; [apply L|]. split; [|split].
  - intros d v Hg Hv. unfold kept, AnalysisService.convert_finding.
    cbn [py_get bind]. rewrite get_default_present with (v := v) by exact Hg.
    unfold Schemas.new_AnalysisFinding. now rewrite Hv.
  - intros valid invalid f Hv Hi. rewrite !L. simpl.
    rewrite Hi. unfold kept. rewrite Hv. now split.
  - intros d Hg. unfold AnalysisService.convert_finding.
    cbn [py_get bind]. rewrite get_default_absent by exact Hg.
    reflexivity.
Qed.

(** C2 as stated fails: of a valid element and an element with no
    severity key, both are materialised, the second with severity
    info. *)
Lemma C2_counterexample :
  get finding_without_severity (lit "severity") = None
  /\ exists f,
       AnalysisService.convert_finding Pydantic.plain finding_high = Ok f
       /\ AnalysisService._convert_findings Pydantic.plain
            (PList [finding_high; PDict finding_without_severity])
          = Ok [ f;
                 {| Schemas.severity := lit "info";
                    Schemas.title := lit "Disk";
                    Schemas.description := lit "Disk is full";
                    Schemas.affected_logs_count := 0;
                    Schemas.suggested_fix := lit "Free space";
                    Schemas.code_example := None |} ].
Proof.
  split; [reflexivity|]. eexists. split; reflexivity.
Qed.

(** C10. For every raw finding dict that is materialised, the severity
    of the finding is one of critical, high, medium, low, info, and each
    absent field has its default: title "Unknown issue", description "",
    affected_logs_count 0, suggested_fix "", code_example None (and an
    absent severity info). *)
Theorem C10_absent_fields_get_defaults
  (lax : Pydantic.Lax) (d : pydict) (f : Schemas.AnalysisFinding) :
  AnalysisService.convert_finding lax (PDict d) = Ok f ->
  In (Schemas.severity f) Schemas.severity_values
  /\ (get d (lit "severity") = None -> Schemas.severity f = lit "info")
  /\ (get d (lit "title") = None ->
      Schemas.title f = lit "Unknown issue")
  /\ (get d (lit "description") = None -> Schemas.description f = [])
  /\ (get d (lit "affected_logs_count") = None ->
      Schemas.affected_logs_count f = 0%Z)
  /\ (get d (lit "suggested_fix") = None -> Schemas.suggested_fix f = [])
  /\ (get d (lit "code_example") = None -> Schemas.code_example f = None).
Proof.
  unfold AnalysisService.convert_finding. cbn [py_get bind].
  unfold Schemas.new_AnalysisFinding.
  destruct (Pydantic.validate_literal _ _) as [sev|] eqn:E1;
    [|discriminate].
  destruct (Pydantic.validate_str (get_default d (lit "title") _))
    as [t|] eqn:E2; [|discriminate].
  destruct (Pydantic.validate_str (get_default d (lit "description") _))
    as [ds|] eqn:E3; [|discriminate].
  destruct (Pydantic.validate_int lax _) as [n|] eqn:E4; [|discriminate].
  destruct (Pydantic.validate_str (get_default d (lit "suggested_fix") _))
    as [fx|] eqn:E5; [|discriminate].
  destruct (Pydantic.validate_optional_str _) as [ce|] eqn:E6;
    [|discriminate].
  intros H. injection H as <-. cbn [Schemas.severity Schemas.title
    Schemas.description Schemas.affected_logs_count Schemas.suggested_fix
    Schemas.code_example].
  repeat split.
  - unfold Pydantic.validate_literal in E1.
    destruct (get_default d (lit "severity") (PStr (lit "info")));
      try discriminate.
    destruct (existsb (str_eqb s) Schemas.severity_values) eqn:Ex;
      [|discriminate].
    injection E1 as <-. apply existsb_exists in Ex as (x & Hx & Ex).
    apply str_eqb_eq in Ex. now subst.
  - intros Hg. rewrite get_default_absent in E1 by exact Hg.
    now injection E1 as <-.
  - intros Hg. rewrite get_default_absent in E2 by exact Hg.
    now injection E2 as <-.
  - intros Hg. rewrite get_default_absent in E3 by exact Hg.
    now injection E3 as <-.
  - intros Hg. rewrite get_default_absent in E4 by exact Hg.
    now injection E4 as <-.
  - intros Hg. rewrite get_default_absent in E5 by exact Hg.
    now injection E5 as <-.
  - intros Hg. rewrite get_default_absent in E6 by exact Hg.
    now injection E6 as <-.
Qed.

Lemma C10_witness :
  let f := {| Schemas.severity := lit "low";
              Schemas.title := lit "Unknown issue";
              Schemas.description := [];
              Schemas.affected_logs_count := 0;
              Schemas.suggested_fix := [];
              Schemas.code_example := None |} in
  AnalysisService.convert_finding Pydantic.plain
    (PDict [(lit "severity", PStr (lit "low"))]) = Ok f
  /\ In (Schemas.severity f) Schemas.severity_values
  /\ Schemas.title f = lit "Unknown issue"
  /\ Schemas.affected_logs_count f = 0%Z.
Proof.
  intros f.
  pose proof (@C10_absent_fields_get_defaults Pydantic.plain
                [(lit "severity", PStr (lit "low"))] f eq_refl)
    as (H1 & _ & H2 & _ & H3 & _).
  split; [reflexivity|]. split; [exact H1|].
  split; [apply H2 | apply H3]; reflexivity.
Defined.

(** ** Statistics *)

Lemma key_eqb_eq (a b : option str) :
  AnalysisService.key_eqb a b = true <-> a = b.
Proof.
  destruct a as [x|], b as [y|]; simpl; try (split; congruence).
  rewrite str_eqb_eq. split; congruence.
Qed.

Lemma key_eqb_refl (a : option str) : AnalysisService.key_eqb a a = true.
Proof. now apply key_eqb_eq. Qed.

Lemma key_eqb_sym (a b : option str) :
  AnalysisService.key_eqb a b = AnalysisService.key_eqb b a.
Proof.
  destruct (AnalysisService.key_eqb a b) eqn:E1,
           (AnalysisService.key_eqb b a) eqn:E2; try reflexivity.
  - apply key_eqb_eq in E1. subst. now rewrite key_eqb_refl in E2.
  - apply key_eqb_eq in E2. subst. now rewrite key_eqb_refl in E1.
Qed.

Lemma dict_set_sum (d : list (option str * Z)) (k : option str) (v : Z) :
  sum_values (dict_set AnalysisService.key_eqb d k v)
  = (sum_values d - dict_get_default AnalysisService.key_eqb d k 0 + v)%Z.
Proof.
  unfold sum_values, dict_get_default.
  induction d as [|[k0 v0] d IH]; simpl; [lia|].
  destruct (AnalysisService.key_eqb k0 k); simpl; lia.
Qed.

Lemma dict_mem_existsb (d : list (option str * Z)) (k : option str) :
  dict_mem AnalysisService.key_eqb d k
  = existsb (AnalysisService.key_eqb k) (map fst d).
Proof.
  induction d as [|[k0 v0] d IH]; simpl; [reflexivity|].
  now rewrite IH, key_eqb_sym.
Qed.

Lemma dict_set_keys (d : list (option str * Z)) (k : option str) (v : Z) :
  map fst (dict_set AnalysisService.key_eqb d k v)
  = if dict_mem AnalysisService.key_eqb d k
    then map fst d else map fst d ++ [k].
Proof.
  induction d as [|[k0 v0] d IH]; simpl; [reflexivity|].
  destruct (AnalysisService.key_eqb k0 k); simpl; [reflexivity|].
  rewrite IH. now destruct (dict_mem AnalysisService.key_eqb d k).
Qed.

Lemma dict_set_get (d : list (option str * Z)) (k k' : option str) (v : Z) :
  dict_get_default AnalysisService.key_eqb
    (dict_set AnalysisService.key_eqb d k v) k' 0%Z
  = if AnalysisService.key_eqb k k' then v
    else dict_get_default AnalysisService.key_eqb d k' 0%Z.
Proof.
  unfold dict_get_default.
  induction d as [|[k0 v0] d IH]; simpl.
  - now destruct (AnalysisService.key_eqb k k').
  - destruct (AnalysisService.key_eqb k0 k) eqn:E0; simpl.
    + apply key_eqb_eq in E0. subst k0.
      now destruct (AnalysisService.key_eqb k k').
    + destruct (AnalysisService.key_eqb k0 k') eqn:E1; [|exact IH].
      apply key_eqb_eq in E1. subst k0. now rewrite key_eqb_sym, E0.
Qed.

Lemma filter_absorb {A} (f g : A -> bool) (l : list A) :
  (forall y, f y = true -> g y = true) ->
  filter f (filter g l) = filter f l.
Proof.
  intros H. induction l as [|x l IH]; simpl; [reflexivity|].
  destruct (g x) eqn:G; simpl; rewrite IH; [reflexivity|].
  destruct (f x) eqn:F; [|reflexivity].
  apply H in F. congruence.
Qed.

Lemma filter_both {A} (f g h : A -> bool) (l : list A) :
  (forall y, h y = g y && f y) ->
  filter h l = filter f (filter g l).
Proof.
  intros H. induction l as [|x l IH]; simpl; [reflexivity|].
  rewrite H. destruct (g x); simpl; [|exact IH].
  destruct (f x); now rewrite IH.
Qed.

Lemma filter_all {A} (l : list A) : filter (fun _ => true) l = l.
Proof. induction l; simpl; congruence. Qed.

Lemma tally_step (log : log_entry) (rest : list log_entry)
  (d : list (option str * Z)) :
  hashable_severity log ->
  AnalysisService.tally (log :: rest) d
  = AnalysisService.tally rest
      (AnalysisService.count_one d (severity_key log)).
Proof.
  unfold hashable_severity, severity_key. simpl.
  now destruct (AnalysisService.severity_of log).
Qed.

Lemma occurrences_cons (k x : option str) (l : list (option str)) :
  occurrences k (x :: l)
  = ((if AnalysisService.key_eqb x k then 1 else 0) + occurrences k l)%Z.
Proof.
  unfold occurrences. cbn [filter]. rewrite (key_eqb_sym k x).
  destruct (AnalysisService.key_eqb x k); cbn [List.length]; lia.
Qed.

(** The tally extends the dictionary it is given: every count grows by
    the number of occurrences, and the keys not yet present are appended
    in the order of their first occurrence. *)
Lemma tally_spec (logs : list log_entry) :
  forall d, Forall hashable_severity logs ->
    exists d',
      AnalysisService.tally logs d = Ok d'
      /\ sum_values d' = (sum_values d + Z.of_nat (List.length logs))%Z
      /\ map fst d'
         = map fst d
           ++ filter (fun k => negb (existsb (AnalysisService.key_eqb k)
                                       (map fst d)))
                (first_occurrences (map severity_key logs))
      /\ forall k,
           dict_get_default AnalysisService.key_eqb d' k 0%Z
           = (dict_get_default AnalysisService.key_eqb d k 0
              + occurrences k (map severity_key logs))%Z.
Proof.
  induction logs as [|log rest IH]; intros d H.
  - exists d. simpl. rewrite app_nil_r.
    repeat split; try reflexivity; try lia.
    intros k. unfold occurrences. simpl. lia.
  - inversion H as [|? ? Hlog Hrest]; subst.
    rewrite tally_step by exact Hlog.
    set (key := severity_key log).
    destruct (IH (AnalysisService.count_one d key) Hrest)
      as (d' & Et & Es & Ek & Ec).
    exists d'. split; [exact Et|]. split; [|split].
    + rewrite Es. unfold AnalysisService.count_one.
      rewrite dict_set_sum. cbn [List.length]. lia.
    + rewrite Ek. unfold AnalysisService.count_one.
      rewrite dict_set_keys, dict_mem_existsb.
      cbn [map first_occurrences filter]. fold key.
      destruct (existsb (AnalysisService.key_eqb key) (map fst d)) eqn:Ex;
        cbn [negb].
      * f_equal. symmetry. apply filter_absorb.
        intros y Hy. apply negb_true_iff. apply negb_true_iff in Hy.
        destruct (AnalysisService.key_eqb key y) eqn:Ey; [|reflexivity].
        apply key_eqb_eq in Ey. subst y. congruence.
      * rewrite <- app_assoc. cbn [app]. do 2 f_equal.
        apply filter_both. intros y.
        rewrite existsb_app. cbn [existsb].
        rewrite orb_false_r, negb_orb, (key_eqb_sym y key).
        apply andb_comm.
    + intros k. rewrite Ec. unfold AnalysisService.count_one.
      rewrite dict_set_get. cbn [map]. fold key.
      rewrite occurrences_cons.
      destruct (AnalysisService.key_eqb key k) eqn:Ey; [|lia].
      apply key_eqb_eq in Ey. subst k. lia.
Qed.

(** C7. For every list of entries whose severities are strings (or
    absent, or None) and every [hours_back], the statistics have
    [total_count] equal to the length of the list and [time_range_hours]
    equal to [hours_back]; the keys of [by_severity] are the severities
    exactly as observed, compared exactly, in the order of their first
    occurrence; each value is the number of entries of that severity, and
    the values sum to the total. *)
Theorem C7_statistics_tally (logs : list log_entry) (hours_back : Z) :
  Forall hashable_severity logs ->
  exists d,
    AnalysisService._calculate_statistics logs hours_back
    = Ok {| Stats.total_count := Z.of_nat (List.length logs);
            Stats.by_severity := d;
            Stats.time_range_hours := hours_back |}
    /\ sum_values d = Z.of_nat (List.length logs)
    /\ map fst d = first_occurrences (map severity_key logs)
    /\ forall k,
         dict_get_default AnalysisService.key_eqb d k 0%Z
         = occurrences k (map severity_key logs).
Proof.
  intros H. destruct (@tally_spec logs [] H) as (d & Et & Es & Ek & Ec).
  exists d. unfold AnalysisService._calculate_statistics.
  rewrite Et. simpl in *. split; [reflexivity|]. split; [exact Es|].
  split.
  - rewrite Ek. apply filter_all.
  - intros k. now rewrite Ec.
Qed.

Lemma C7_witness :
  exists d,
    AnalysisService._calculate_statistics mixed_case_logs 24
    = Ok {| Stats.total_count := 3;
            Stats.by_severity := d;
            Stats.time_range_hours := 24 |}
    /\ sum_values d = 3%Z
    /\ map fst d = [Some (lit "ERROR"); Some (lit "error")]
    /\ forall k,
         dict_get_default AnalysisService.key_eqb d k 0%Z
         = occurrences k (map severity_key mixed_case_logs).
Proof.
  apply (C7_statistics_tally (logs := mixed_case_logs) 24).
  repeat constructor.
Defined.

(** The example of the specification: severities ERROR, error, ERROR give
    two keys, ERROR with 2 and error with 1. *)
Example statistics_mixed_case :
  AnalysisService._calculate_statistics mixed_case_logs 24
  = Ok {| Stats.total_count := 3;
          Stats.by_severity :=
            [(Some (lit "ERROR"), 2%Z); (Some (lit "error"), 1%Z)];
          Stats.time_range_hours := 24 |}.
Proof. reflexivity. Qed.

(** C8 (the code at the failing input). An entry whose raw severity is
    absent is normalised with the key [severity] present and its value
    [None]; the default of [log.get("severity", "UNKNOWN")] does not
    apply, the entry is counted under the key [None], and [LogStatistics]
    rejects that key. *)
Theorem C8_absent_severity_counted_under_None :
  let log := GCPLoggingClient.to_log_entry entry_without_severity in
  get_default [] (lit "severity") PNone = PNone
  /\ dict_lookup str_eqb log (lit "severity") = Some LNone
  /\ AnalysisService.severity_of log = LNone
  /\ AnalysisService._calculate_statistics [log] 24
     = Ok {| Stats.total_count := 1;
             Stats.by_severity := [(None, 1%Z)];
             Stats.time_range_hours := 24 |}
  /\ Schemas.new_LogStatistics 1 [(None, 1%Z)] 24 (PList [])
     = Raise (Pydantic.validation_error "LogStatistics")
  /\ AnalysisService._calculate_statistics [[]] 24
     = Ok {| Stats.total_count := 1;
             Stats.by_severity := [(Some (lit "UNKNOWN"), 1%Z)];
             Stats.time_range_hours := 24 |}.
Proof. repeat split. Qed.

(** ** Query filter *)

Lemma full_filter_effective (settings : Settings)
  (timestamp_filter : str) (filter_query : option str) :
  effective_filter settings filter_query timestamp_filter
    (GCPLoggingClient.full_filter settings timestamp_filter filter_query).
Proof.
  unfold effective_filter, GCPLoggingClient.full_filter.
  repeat split.
  - intros q -> Hq. destruct q; [congruence | reflexivity].
  - intros [-> | ->] Hf; destruct (gcp_log_filter settings);
      congruence.
  - intros [-> | ->] Hf; now rewrite Hf.
Qed.

(** What [fetch_logs] does once the client exists and the start time is
    formatted: one query, with the combined filter and the page size. *)
Lemma fetch_logs_run (env : Env) (settings : Settings)
  (self : GCPLoggingClient.t) (filter_query : option str)
  (hours_back : Z) (max_results : option Z) (start_time : str)
  (t : list event) :
  GCPLoggingClient.client self = Some tt ->
  start_time_text env hours_back = Ok start_time ->
  let query :=
    GCPLoggingClient.full_filter settings
      (lit "timestamp >= " ++ [quote] ++ start_time ++ [quote])
      filter_query in
  let page_size := or_int max_results (gcp_log_limit settings) in
  GCPLoggingClient.fetch_logs env settings self filter_query hours_back
    max_results t
  = (match list_entries env query page_size with
     | Ok entries => Ok (map GCPLoggingClient.to_log_entry entries)
     | Raise e =>
         Raise (Exn GCPIntegrationError
                  (lit "Failed to fetch logs: " ++ str_of_exn e)
                  (Some (lit "GCP_LOG_FETCH_ERROR"))
                  [(lit "error", str_of_exn e)] (Some e))
     end,
     t ++ [ListEntries query page_size]).
Proof.
  intros Hc Hs query page_size.
  unfold GCPLoggingClient.fetch_logs. rewrite Hc.
  unfold mtry, mbind, lift, call, ret,
    GCPLoggingClient._build_timestamp_filter.
  rewrite Hs. cbn [bind]. fold query. fold page_size.
  now destruct (list_entries env query page_size).
Qed.

(** C5. On every fetch call the query filter is the timestamp lower
    bound ANDed with the request filter when one is supplied; otherwise
    the bound ANDed with the configured default filter when one is
    configured; otherwise the bound alone. When both filters are present
    the request filter is used and the default is left out. *)
Theorem C5_effective_filter (env : Env) (settings : Settings)
  (self : GCPLoggingClient.t) (filter_query : option str)
  (hours_back : Z) (max_results : option Z) (start_time : str)
  (t : list event) :
  GCPLoggingClient.client self = Some tt ->
  start_time_text env hours_back = Ok start_time ->
  exists query,
    snd (GCPLoggingClient.fetch_logs env settings self filter_query
           hours_back max_results t)
    = t ++ [ListEntries query (or_int max_results (gcp_log_limit settings))]
    /\ effective_filter settings filter_query
         (lit "timestamp >= " ++ [quote] ++ start_time ++ [quote]) query.
Proof.
  intros Hc Hs. eexists. split.
  - rewrite (fetch_logs_run _ settings _ filter_query _ max_results t Hc Hs).
    reflexivity.
  - apply full_filter_effective.
Qed.

Lemma C5_witness :
  exists query,
    snd (GCPLoggingClient.fetch_logs quiet_env sample_settings ready_client
           (Some (lit "severity=ERROR")) 24 None [])
    = [] ++ [ListEntries query (or_int None (gcp_log_limit sample_settings))]
    /\ effective_filter sample_settings (Some (lit "severity=ERROR"))
         (lit "timestamp >= " ++ [quote] ++ lit "2024-01-14T10:30:00Z"
          ++ [quote]) query.
Proof.
  apply (@C5_effective_filter quiet_env sample_settings ready_client
           (Some (lit "severity=ERROR")) 24 None
           (lit "2024-01-14T10:30:00Z") []); reflexivity.
Defined.

(** With both filters present the request filter wins. *)
Example request_filter_wins :
  snd (GCPLoggingClient.fetch_logs quiet_env sample_settings ready_client
         (Some (lit "severity=ERROR")) 24 None [])
  = [ ListEntries
        (lit "timestamp >= " ++ [quote] ++ lit "2024-01-14T10:30:00Z"
         ++ [quote] ++ lit " AND severity=ERROR") 100 ].
Proof. reflexivity. Qed.

(** C9. On every call of [fetch_error_logs] the query filter is the
    timestamp lower bound ANDed with [severity >= "WARNING"], whatever
    default filter is configured. *)
Theorem C9_error_logs_filter (env : Env) (settings : Settings)
  (self : GCPLoggingClient.t) (hours_back : Z) (max_results : option Z)
  (start_time : str) (t : list event) :
  GCPLoggingClient.client self = Some tt ->
  start_time_text env hours_back = Ok start_time ->
  snd (GCPLoggingClient.fetch_error_logs env settings self hours_back
         max_results t)
  = t ++ [ ListEntries
             (lit "timestamp >= " ++ [quote] ++ start_time ++ [quote]
              ++ lit " AND severity >= " ++ [quote] ++ lit "WARNING"
              ++ [quote])
             (or_int max_results (gcp_log_limit settings)) ].
Proof.
  intros Hc Hs. unfold GCPLoggingClient.fetch_error_logs.
  rewrite (fetch_logs_run _ settings _ (Some GCPLoggingClient.error_filter)
             _ max_results t Hc Hs).
  cbn [snd]. do 3 f_equal.
  unfold GCPLoggingClient.full_filter, GCPLoggingClient.error_filter.
  cbn. rewrite <- !app_assoc. reflexivity.
Qed.

Lemma C9_witness :
  snd (GCPLoggingClient.fetch_error_logs quiet_env sample_settings
         ready_client 24 None [])
  = [] ++ [ ListEntries
              (lit "timestamp >= " ++ [quote] ++ lit "2024-01-14T10:30:00Z"
               ++ [quote] ++ lit " AND severity >= " ++ [quote]
               ++ lit "WARNING" ++ [quote])
              (or_int None (gcp_log_limit sample_settings)) ].
Proof.
  apply (@C9_error_logs_filter quiet_env sample_settings ready_client 24
           None (lit "2024-01-14T10:30:00Z") []); reflexivity.
Defined.

(** ** The orchestrator *)

(** The fetch step reaches outside only to query the log. *)
Lemma fetch_logs_trace (env : Env) (settings : Settings)
  (self : GCPLoggingClient.t) (filter_query : option str)
  (hours_back : Z) (max_results : option Z) (t : list event) :
  exists calls,
    snd (GCPLoggingClient.fetch_logs env settings self filter_query
           hours_back max_results t) = t ++ calls
    /\ Forall is_list_entries calls.
Proof.
  unfold GCPLoggingClient.fetch_logs.
  destruct (GCPLoggingClient.client self).
  - unfold mtry, mbind, lift, call, ret.
    destruct (GCPLoggingClient._build_timestamp_filter env hours_back)
      as [ts|e].
    + match goal with
      | |- context [list_entries env ?q ?p] =>
          exists [ListEntries q p]; destruct (list_entries env q p)
      end; simpl; (split; [reflexivity | repeat constructor]).
    + exists []. simpl. rewrite app_nil_r. now split.
  - exists []. unfold raise. simpl. rewrite app_nil_r. now split.
Qed.

Lemma _fetch_logs_trace (env : Env) (settings : Settings)
  (self : AnalysisService.t) (request : Schemas.LogAnalysisRequest)
  (t : list event) :
  exists calls,
    snd (AnalysisService._fetch_logs env settings self request t)
    = t ++ calls
    /\ Forall is_list_entries calls.
Proof.
  unfold AnalysisService._fetch_logs, GCPLoggingClient.fetch_error_logs.
  destruct (Schemas.focus_on_errors request); apply fetch_logs_trace.
Qed.

(** C6. When the fetch step yields no entry, the orchestrator returns the
    fixed empty result: total_logs 0, empty by_severity, no finding, no
    document path, the summary "No logs found in the specified time
    range." and the one recommendation to check the configuration and
    filters. Nothing is called after the fetch: the calls made are log
    queries only, so neither the model nor the report renderer runs. *)
Theorem C6_empty_fetch_short_circuits (env : Env) (settings : Settings)
  (lax : Pydantic.Lax) (self : AnalysisService.t)
  (request : Schemas.LogAnalysisRequest) (t t' : list event) :
  AnalysisService._fetch_logs env settings self request t = (Ok [], t') ->
  AnalysisService.analyze_logs env settings lax self request t
  = (Ok (empty_response env request), t')
  /\ exists calls, t' = t ++ calls /\ Forall is_list_entries calls.
Proof.
  intros H. split.
  - unfold AnalysisService.analyze_logs,
      AnalysisService.analyze_logs_steps, mtry, mbind.
    rewrite H. reflexivity.
  - destruct (_fetch_logs_trace env settings self request t)
      as (calls & E & F).
    rewrite H in E. simpl in E. now exists calls.
Qed.

Lemma C6_witness :
  AnalysisService.analyze_logs quiet_env sample_settings Pydantic.plain
    ready_service sample_request []
  = (Ok (empty_response quiet_env sample_request),
     [ ListEntries
         (lit "timestamp >= " ++ [quote] ++ lit "2024-01-14T10:30:00Z"
          ++ [quote] ++ lit " AND severity=ERROR") 100 ])
  /\ exists calls,
       [ ListEntries
           (lit "timestamp >= " ++ [quote] ++ lit "2024-01-14T10:30:00Z"
            ++ [quote] ++ lit " AND severity=ERROR") 100 ]
       = [] ++ calls
       /\ Forall is_list_entries calls.
Proof.
  apply (@C6_empty_fetch_short_circuits quiet_env sample_settings
           Pydantic.plain ready_service sample_request []).
  reflexivity.
Defined.

(** C3 (as amended). Whatever is raised while [analyze_logs] runs (by the
    fetch, the statistics, the model analysis, the conversion of the
    findings, the rendering or the construction of the response) reaches
    the caller of [analyze_logs] as one error type, LogAnalysisError with
    code ANALYSIS_ERROR, whose context holds the analysis identifier and
    whose cause is the exception raised; a result is returned as it
    is. *)
Theorem C3_analyze_logs_wraps_every_error (env : Env) (settings : Settings)
  (lax : Pydantic.Lax) (self : AnalysisService.t)
  (request : Schemas.LogAnalysisRequest) (t : list event) :
  (match fst (AnalysisService.analyze_logs env settings lax self request t)
   with
   | Ok _ => True
   | Raise e =>
       exn_cls e = LogAnalysisError
       /\ exn_code e = Some (lit "ANALYSIS_ERROR")
       /\ exists cause,
            exn_cause e = Some cause
            /\ exn_context e = [ (lit "analysis_id", uuid4 env);
                                 (lit "error", str_of_exn cause) ]
            /\ str_of_exn e = lit "Log analysis failed: " ++ str_of_exn cause
   end)
  /\ (forall cause t',
        AnalysisService.analyze_logs_steps env settings lax self request
          (uuid4 env) (utcnow env) t = (Raise cause, t') ->
        AnalysisService.analyze_logs env settings lax self request t
        = (Raise (Exn LogAnalysisError
                    (lit "Log analysis failed: " ++ str_of_exn cause)
                    (Some (lit "ANALYSIS_ERROR"))
                    [ (lit "analysis_id", uuid4 env);
                      (lit "error", str_of_exn cause) ]
                    (Some cause)), t'))
  /\ (forall response t',
        AnalysisService.analyze_logs_steps env settings lax self request
          (uuid4 env) (utcnow env) t = (Ok response, t') ->
        AnalysisService.analyze_logs env settings lax self request t
        = (Ok response, t')).
Proof.
  unfold AnalysisService.analyze_logs, mtry. cbv zeta.
  destruct (AnalysisService.analyze_logs_steps env settings lax self
              request (uuid4 env) (utcnow env) t) as [[r|e] t0].
  - split; [exact I|]. split; intros ? ? H; [discriminate | exact H].
  - split.
    + simpl. repeat split. exists e. repeat split.
    + split; intros ? ? H; [|discriminate].
      injection H as <- <-. reflexivity.
Qed.

(** A query that fails reaches the caller of [analyze_logs] wrapped
    twice: the analysis error carries the fetch error, which carries the
    error of the client. *)
Example failing_query_is_wrapped :
  exists e fetch_error,
    fst (AnalysisService.analyze_logs failing_query_env sample_settings
           Pydantic.plain ready_service sample_request []) = Raise e
    /\ exn_cls e = LogAnalysisError
    /\ exn_cause e = Some fetch_error
    /\ exn_cls fetch_error = GCPIntegrationError
    /\ exn_code fetch_error = Some (lit "GCP_LOG_FETCH_ERROR").
Proof. do 2 eexists. repeat split. Qed.

(** C3 as stated fails: with no project configured, constructing the
    orchestrator raises the error of the log client, a
    GCPIntegrationError with code GCP_CLIENT_INIT_ERROR, and the caller
    (the route, which answers 502) sees it unwrapped. *)
Lemma C3_counterexample :
  exists e,
    fst (Routes.run_analysis quiet_env settings_without_project
           Pydantic.plain sample_request []) = Raise e
    /\ exn_cls e = GCPIntegrationError
    /\ exn_code e = Some (lit "GCP_CLIENT_INIT_ERROR")
    /\ exn_cls e <> LogAnalysisError
    /\ exn_cls (Routes.http_error e) = HTTPException 502.
Proof.
  eexists. split; [reflexivity|]. repeat split. discriminate.
Qed.

(** ** The model at work *)

Example loads_object :
  Json.loads cpython_limits
    (dq "{'summary': 'ok', 'n': [1, -2, 3.5e2, true, null]}")
  = Json.Value
      (PDict [ (lit "summary", PStr (lit "ok"));
               (lit "n", PList [ PInt 1; PInt (-2); PFloat (lit "3.5e2");
                                 PBool true; PNone ]) ]).
Proof. reflexivity. Qed.

Example loads_duplicate_key :
  Json.loads cpython_limits (dq "{'a': 1, 'b': 2, 'a': 3}")
  = Json.Value (PDict [(lit "a", PInt 3); (lit "b", PInt 2)]).
Proof. reflexivity. Qed.

Example loads_escapes :
  Json.loads cpython_limits (dq "'a\nA\ud83d\ude00'")
  = Json.Value (PStr [97; 10; 65; 128512]%N).
Proof. reflexivity. Qed.

Example loads_rejects :
  Json.loads cpython_limits (dq "[1,]") = Json.DecodeError
  /\ Json.loads cpython_limits (dq "{'a': 1} x") = Json.DecodeError
  /\ Json.loads cpython_limits (dq "01") = Json.DecodeError
  /\ Json.loads cpython_limits (dq "{'a' 1}") = Json.DecodeError
  /\ Json.loads cpython_limits (dq "'line
break'") = Json.DecodeError
  /\ Json.loads cpython_limits [] = Json.DecodeError
  /\ Json.loads cpython_limits (lit "[[[[[") = Json.DecodeError.
Proof. repeat split. Qed.

(** The limits: 900 arrays one inside the other are decoded and the
    901st is refused, closed or not; an integer of 4300 digits is
    decoded, with or without a sign, and one of 4301 digits is refused;
    a number with a fraction is not an integer. *)
Example loads_limits :
  (exists v,
     Json.loads cpython_limits (repeat 91%N 900 ++ repeat 93%N 900)
     = Json.Value v)
  /\ Json.loads cpython_limits (repeat 91%N 901 ++ repeat 93%N 901)
     = Json.OtherError (Json.recursion_error "array")
  /\ Json.loads cpython_limits (repeat 91%N 901)
     = Json.OtherError (Json.recursion_error "array")
  /\ (exists z, Json.loads cpython_limits (lit "-" ++ repeat 49%N 4300)
                = Json.Value (PInt z))
  /\ Json.loads cpython_limits (lit "-" ++ repeat 49%N 4301)
     = Json.OtherError (Json.int_conversion_error 4300 4301)
  /\ str_of_exn (Json.int_conversion_error 4300 4301)
     = lit "Exceeds the limit (4300 digits) for integer string conversion: value has 4301 digits; use sys.set_int_max_str_digits() to increase the limit"
  /\ (exists x, Json.loads cpython_limits (repeat 49%N 4301 ++ lit ".5")
                = Json.Value (PFloat x))
  /\ (exists z, Json.loads no_limits (repeat 49%N 4301)
                = Json.Value (PInt z)).
Proof.
  split; [eexists; vm_compute; reflexivity|].
  split; [vm_compute; reflexivity|].
  split; [vm_compute; reflexivity|].
  split; [eexists; vm_compute; reflexivity|].
  split; [vm_compute; reflexivity|].
  split; [vm_compute; reflexivity|].
  split; [eexists; vm_compute; reflexivity|].
  eexists; vm_compute; reflexivity.
Qed.

(** A parsed object keeps its keys and gets the missing ones. *)
Example parse_backfills :
  LLMService._parse_llm_response cpython_limits (dq "```json
{'findings': [], 'summary': 'ok'}
```")
  = Ok (PDict [ (lit "findings", PList []);
                (lit "summary", PStr (lit "ok"));
                (lit "recommendations", PList []);
                (lit "most_common_errors", PList []) ]).
Proof. reflexivity. Qed.

(** Valid JSON that is not an object is not a decoding error: the
    backfill raises, and the caller sees a TypeError. *)
Example parse_list_raises :
  exists e,
    LLMService._parse_llm_response cpython_limits (lit "[1]") = Raise e
    /\ exn_cls e = TypeError.
Proof. eexists. split; reflexivity. Qed.

(** The severity of a fetched entry is the raw severity, [None]
    included: the key is always present. *)
Lemma fetched_severity (entry : raw_entry) :
  AnalysisService.severity_of (GCPLoggingClient.to_log_entry entry)
  = of_option_str (entry_severity entry).
Proof. reflexivity. Qed.

(** A finding that carries a severity only is materialised with the
    defaults. *)
Lemma severity_alone_is_materialised (lax : Pydantic.Lax) (sev : str) :
  In sev Schemas.severity_values ->
  AnalysisService.convert_finding lax (PDict [(lit "severity", PStr sev)])
  = Ok {| Schemas.severity := sev;
          Schemas.title := lit "Unknown issue";
          Schemas.description := [];
          Schemas.affected_logs_count := 0;
          Schemas.suggested_fix := [];
          Schemas.code_example := None |}.
Proof.
  intros H. simpl in H.
  repeat (destruct H as [<- | H]; [reflexivity|]). contradiction.
Qed.

(** A run in which the model answers with one finding: the report is
    rendered and the three outside calls happen in order. When the entry
    fetched has no severity the same run fails after the rendering, on
    the [None] key of the statistics. *)
Example full_run :
  exists response,
    AnalysisService.analyze_logs (answering_env entry_error)
      sample_settings Pydantic.plain ready_service sample_request []
    = (Ok response,
       [ ListEntries
           (lit "timestamp >= " ++ [quote] ++ lit "2024-01-14T10:30:00Z"
            ++ [quote] ++ lit " AND severity=ERROR") 100;
         InvokeModel [GCPLoggingClient.to_log_entry entry_error]
           {| Stats.total_count := 1;
              Stats.by_severity := [(Some (lit "ERROR"), 1%Z)];
              Stats.time_range_hours := 24 |};
         GenerateDocument (uuid4 quiet_env) ])
    /\ map Schemas.severity (Schemas.findings response) = [lit "low"]
    /\ Schemas.summary response = lit "s"
    /\ Schemas.document_path response
       = Some (lit "analysis_reports/report.md").
Proof. eexists. repeat split. Qed.

Example absent_severity_fails_the_analysis :
  exists e t,
    AnalysisService.analyze_logs (answering_env entry_without_severity)
      sample_settings Pydantic.plain ready_service sample_request []
    = (Raise e, t)
    /\ exn_cls e = LogAnalysisError
    /\ exn_cause e = Some (Pydantic.validation_error "LogStatistics")
    /\ List.length t = 3.
Proof. do 2 eexists. repeat split. Qed.

(* ===================================================================== *)
(** * Further properties of the code *)
(* ===================================================================== *)

(** ** Parsing a response that is valid JSON *)

Lemma get_app (a b : pydict) (k : str) :
  get (a ++ b) k = match get a k with
                   | Some v => Some v
                   | None => get b k
                   end.
Proof.
  unfold get. induction a as [|[k0 v0] a IH]; simpl; [reflexivity|].
  now destruct (str_eqb k0 k).
Qed.

Lemma dict_mem_get (d : pydict) (k : str) :
  dict_mem str_eqb d k = match get d k with
                         | Some _ => true
                         | None => false
                         end.
Proof.
  unfold get. induction d as [|[k0 v0] d IH]; simpl; [reflexivity|].
  now destruct (str_eqb k0 k).
Qed.

Lemma dict_set_absent (d : pydict) (k : str) (v : pyval) :
  dict_mem str_eqb d k = false -> dict_set str_eqb d k v = d ++ [(k, v)].
Proof.
  induction d as [|[k0 v0] d IH]; simpl; [reflexivity|].
  destruct (str_eqb k0 k); simpl; [discriminate|].
  intros H. now rewrite IH.
Qed.

Lemma backfill_dict (key : string) (default : pyval) (d : pydict) :
  LLMService.backfill key default (PDict d)
  = Ok (PDict (d ++ missing d key default)).
Proof.
  unfold LLMService.backfill, missing. cbn [py_contains bind].
  destruct (dict_mem str_eqb d (lit key)) eqn:E.
  - now rewrite app_nil_r.
  - cbn [py_setitem]. now rewrite dict_set_absent.
Qed.

Lemma missing_app (d a : pydict) (key : string) (default : pyval) :
  dict_mem str_eqb a (lit key) = false ->
  missing (d ++ a) key default = missing d key default.
Proof.
  unfold missing. intros H. rewrite !dict_mem_get, get_app.
  rewrite dict_mem_get in H.
  destruct (get d (lit key)); [reflexivity|].
  now destruct (get a (lit key)).
Qed.

Lemma missing_cases (d : pydict) (key : string) (default : pyval) :
  (exists v, get d (lit key) = Some v /\ missing d key default = [])
  \/ (get d (lit key) = None
      /\ missing d key default = [(lit key, default)]).
Proof.
  unfold missing. rewrite dict_mem_get.
  destruct (get d (lit key)) as [v|]; [left; now exists v | now right].
Qed.

(** The result of parsing an object: the object followed by its
    completion. *)
Lemma parse_object_result (limits : Limits) (response : str) (d : pydict) :
  Json.loads limits (LLMService.strip_fences response)
  = Json.Value (PDict d) ->
  LLMService._parse_llm_response limits response
  = Ok (PDict (d ++ completion d)).
Proof.
  intros H. unfold LLMService._parse_llm_response. cbv zeta. rewrite H.
  rewrite backfill_dict. cbn [bind].
  rewrite backfill_dict. cbn [bind].
  rewrite backfill_dict. cbn [bind].
  rewrite backfill_dict. cbn [bind].
  unfold completion. rewrite <- !app_assoc.
  destruct (missing_cases d "summary" (PStr (lit "Analysis completed")))
    as [(v1 & _ & E1) | (_ & E1)];
  destruct (missing_cases d "findings" (PList []))
    as [(v2 & _ & E2) | (_ & E2)];
  destruct (missing_cases d "recommendations" (PList []))
    as [(v3 & _ & E3) | (_ & E3)];
  rewrite E1; cbn [app];
    rewrite ?app_nil_r, ?missing_app by reflexivity;
    rewrite E2; cbn [app];
    rewrite ?app_nil_r;
    try (rewrite (app_assoc d)); rewrite ?missing_app by reflexivity;
    rewrite E3; cbn [app]; rewrite ?app_nil_r;
    repeat (rewrite ?app_assoc; rewrite ?missing_app by reflexivity);
    rewrite <- ?app_assoc; reflexivity.
Qed.

Ltac split_missing d :=
  unfold completion, missing; rewrite !dict_mem_get;
  unfold get_default, dict_get_default, get;
  destruct (dict_lookup str_eqb d (lit "summary")) eqn:?E1;
  destruct (dict_lookup str_eqb d (lit "findings")) eqn:?E2;
  destruct (dict_lookup str_eqb d (lit "recommendations")) eqn:?E3;
  destruct (dict_lookup str_eqb d (lit "most_common_errors")) eqn:?E4.

(** X1. When [json.loads] decodes the cleaned response to an object, the
    parser returns that object with every entry it had, in place,
    followed by the default of each of the four required keys that it
    lacked: summary "Analysis completed", the three others the empty
    list. A key that is present is never overwritten, whatever its
    value. *)
Theorem X1_parse_object_keeps_and_completes (limits : Limits)
  (response : str) (d : pydict) :
  Json.loads limits (LLMService.strip_fences response)
  = Json.Value (PDict d) ->
  LLMService._parse_llm_response limits response
  = Ok (PDict (d ++ completion d))
  /\ (forall k v, get d k = Some v -> get (d ++ completion d) k = Some v)
  /\ get (d ++ completion d) (lit "summary")
     = Some (get_default d (lit "summary") (PStr (lit "Analysis completed")))
  /\ get (d ++ completion d) (lit "findings")
     = Some (get_default d (lit "findings") (PList []))
  /\ get (d ++ completion d) (lit "recommendations")
     = Some (get_default d (lit "recommendations") (PList []))
  /\ get (d ++ completion d) (lit "most_common_errors")
     = Some (get_default d (lit "most_common_errors") (PList []))
  /\ (forall k, In k (map fst (completion d)) ->
        In k required_keys /\ get d k = None).
Proof.
  intros H. split; [now apply parse_object_result|].
  split; [intros k v Hk; now rewrite get_app, Hk|].
  split; [|split; [|split; [|split]]].
  - rewrite get_app. split_missing d; reflexivity.
  - rewrite get_app. split_missing d; reflexivity.
  - rewrite get_app. split_missing d; reflexivity.
  - rewrite get_app. split_missing d; reflexivity.
  - intros k. split_missing d; cbn [app map fst In required_keys];
      intros Hk;
      repeat (destruct Hk as [<- | Hk]; [split; [tauto | assumption]|]);
      contradiction.
Qed.

Lemma X1_witness :
  LLMService._parse_llm_response cpython_limits (dq "{'findings': 7}")
  = Ok (PDict ([(lit "findings", PInt 7)]
               ++ completion [(lit "findings", PInt 7)]))
  /\ get ([(lit "findings", PInt 7)] ++ completion [(lit "findings", PInt 7)])
       (lit "findings") = Some (PInt 7)
  /\ get ([(lit "findings", PInt 7)] ++ completion [(lit "findings", PInt 7)])
       (lit "summary") = Some (PStr (lit "Analysis completed")).
Proof.
  pose proof (@X1_parse_object_keeps_and_completes cpython_limits
                (dq "{'findings': 7}") [(lit "findings", PInt 7)] eq_refl)
    as (H1 & H2 & H3 & _).
  split; [exact H1|]. split; [apply H2; reflexivity | exact H3].
Defined.

(** ** Parsing valid JSON that is not an object *)

(** X2. When [json.loads] decodes the cleaned response to a value that
    is not an object, the parser never produces a dictionary and never
    falls back: it raises a TypeError, or hands back the value itself,
    which happens only for a list or a string that already contains the
    four key names. Null, a boolean or a number always raises. *)
Theorem X2_parse_non_object (limits : Limits) (response : str)
  (v : pyval) :
  Json.loads limits (LLMService.strip_fences response) = Json.Value v ->
  (forall d, v <> PDict d) ->
  (LLMService._parse_llm_response limits response = Ok v
   /\ is_scalar v = false
   /\ py_contains v (lit "summary") = Ok true
   /\ py_contains v (lit "findings") = Ok true
   /\ py_contains v (lit "recommendations") = Ok true
   /\ py_contains v (lit "most_common_errors") = Ok true)
  \/ (exists e,
        LLMService._parse_llm_response limits response = Raise e
        /\ exn_cls e = TypeError).
Proof.
  intros H Hv. unfold LLMService._parse_llm_response. cbv zeta. rewrite H.
  unfold LLMService.backfill.
  destruct v; cbn [py_contains bind];
    try (right; eexists; split; reflexivity).
  - repeat match goal with
    | |- context [contains s ?k] =>
        destruct (contains s k) eqn:?; cbn [py_setitem bind py_contains];
        [|right; eexists; split; reflexivity]
    end.
    left. repeat split.
  - repeat match goal with
    | |- context [existsb ?f l] =>
        destruct (existsb f l) eqn:?; cbn [py_setitem bind py_contains];
        [|right; eexists; split; reflexivity]
    end.
    left. repeat split.
  - now destruct (Hv d).
Qed.

Lemma X2_witness :
  (LLMService._parse_llm_response cpython_limits (lit "42") = Ok (PInt 42)
   /\ is_scalar (PInt 42) = false
   /\ py_contains (PInt 42) (lit "summary") = Ok true
   /\ py_contains (PInt 42) (lit "findings") = Ok true
   /\ py_contains (PInt 42) (lit "recommendations") = Ok true
   /\ py_contains (PInt 42) (lit "most_common_errors") = Ok true)
  \/ (exists e,
        LLMService._parse_llm_response cpython_limits (lit "42") = Raise e
        /\ exn_cls e = TypeError).
Proof.
  apply (@X2_parse_non_object cpython_limits (lit "42") (PInt 42)).
  - reflexivity.
  - intros d; discriminate.
Defined.

(** ** The model service *)

(** X3. Whatever [LLMService.analyze_logs] raises is an LLMError with
    code LLM_ANALYSIS_ERROR, whose cause is the exception of the model
    call or of the parsing of the answer. An answer that [json.loads]
    rejects with a [JSONDecodeError] is no error: the fallback result is
    returned. An answer on which [json.loads] raises another exception,
    a [RecursionError] or a [ValueError], is an error: the LLMError has
    that exception as cause. *)
Theorem X3_llm_analyze_logs_outcome (env : Env) (logs : list log_entry)
  (statistics : stats_dict) (t : list event) :
  match fst (LLMService.analyze_logs env logs statistics t) with
  | Ok r =>
      exists content,
        invoke_model env logs statistics = Ok content
        /\ LLMService._parse_llm_response (py_limits env) content = Ok r
  | Raise e =>
      exn_cls e = LLMError
      /\ exn_code e = Some (lit "LLM_ANALYSIS_ERROR")
      /\ exists cause,
           exn_cause e = Some cause
           /\ (invoke_model env logs statistics = Raise cause
               \/ exists content,
                    invoke_model env logs statistics = Ok content
                    /\ LLMService._parse_llm_response (py_limits env)
                         content = Raise cause)
  end
  /\ (forall content,
        invoke_model env logs statistics = Ok content ->
        Json.loads (py_limits env) (LLMService.strip_fences content)
        = Json.DecodeError ->
        fst (LLMService.analyze_logs env logs statistics t)
        = Ok (LLMService.fallback (LLMService.strip_fences content)))
  /\ (forall content cause,
        invoke_model env logs statistics = Ok content ->
        Json.loads (py_limits env) (LLMService.strip_fences content)
        = Json.OtherError cause ->
        (exn_cls cause = RecursionError \/ exn_cls cause = ValueError)
        /\ exists e,
             fst (LLMService.analyze_logs env logs statistics t) = Raise e
             /\ exn_cls e = LLMError
             /\ exn_code e = Some (lit "LLM_ANALYSIS_ERROR")
             /\ exn_cause e = Some cause).
Proof.
  unfold LLMService.analyze_logs, mtry, mbind, call, lift, ret.
  destruct (invoke_model env logs statistics) as [content|c] eqn:Ei.
  - split; [|split].
    + destruct (LLMService._parse_llm_response (py_limits env) content)
        as [r|c] eqn:Ep; cbn [fst].
      * now exists content.
      * repeat split. exists c. split; [reflexivity|].
        right. now exists content.
    + intros content' Hc Hl. injection Hc as <-.
      unfold LLMService._parse_llm_response. cbv zeta. now rewrite Hl.
    + intros content' cause Hc Hl. injection Hc as <-. split.
      * apply loads_limit in Hl as [[C _] | (C & _)];
          [now left | now right].
      * unfold LLMService._parse_llm_response. cbv zeta. rewrite Hl.
        eexists. cbn [fst]. split; [reflexivity|]. now repeat split.
  - split; [|split].
    + cbn. repeat split. exists c. split; [reflexivity | now left].
    + intros content Hc. discriminate.
    + intros content cause Hc. discriminate.
Qed.

(** ** The log client *)

(** What a call of [fetch_logs] did, by its outcome. *)
Lemma fetch_logs_inv (env : Env) (settings : Settings)
  (self : GCPLoggingClient.t) (filter_query : option str)
  (hours_back : Z) (max_results : option Z) (t : list event) :
  match GCPLoggingClient.fetch_logs env settings self filter_query
          hours_back max_results t with
  | (Ok logs, t') =>
      exists entries query page_size,
        t' = t ++ [ListEntries query page_size]
        /\ list_entries env query page_size = Ok entries
        /\ logs = map GCPLoggingClient.to_log_entry entries
  | (Raise e, t') =>
      exn_cls e = GCPIntegrationError
      /\ ((exn_code e = Some (lit "GCP_CLIENT_NOT_INITIALIZED")
           /\ GCPLoggingClient.client self = None
           /\ exn_cause e = None /\ t' = t)
          \/ (exn_code e = Some (lit "GCP_LOG_FETCH_ERROR")
              /\ exists cause,
                   exn_cause e = Some cause
                   /\ ((start_time_text env hours_back = Raise cause
                        /\ t' = t)
                       \/ exists query page_size,
                            list_entries env query page_size = Raise cause
                            /\ t' = t ++ [ListEntries query page_size])))
  end.
Proof.
  unfold GCPLoggingClient.fetch_logs.
  destruct (GCPLoggingClient.client self) as [u|].
  - unfold mtry, mbind, lift, call, ret,
      GCPLoggingClient._build_timestamp_filter.
    destruct (start_time_text env hours_back) as [st|c]; cbn [bind].
    + match goal with
      | |- context [list_entries env ?q ?p] =>
          destruct (list_entries env q p) as [entries|c] eqn:El
      end.
      * do 3 eexists. repeat split. exact El.
      * split; [reflexivity|]. right. split; [reflexivity|].
        exists c. split; [reflexivity|]. right.
        do 2 eexists. split; [exact El | reflexivity].
    + split; [reflexivity|]. right. split; [reflexivity|].
      exists c. split; [reflexivity|]. left. now split.
  - unfold raise. split; [reflexivity|]. left. repeat split.
Qed.

(** X4. [fetch_logs] raises nothing but GCPIntegrationError. Without a
    client the code is GCP_CLIENT_NOT_INITIALIZED and no query is made;
    otherwise the code is GCP_LOG_FETCH_ERROR and the cause is what the
    clock or the query raised (no query is made when the start time
    cannot be formatted). On success exactly one query was made and the
    result holds one dictionary per entry, in the order of the
    entries. *)
Theorem X4_fetch_logs_outcomes (env : Env) (settings : Settings)
  (self : GCPLoggingClient.t) (filter_query : option str)
  (hours_back : Z) (max_results : option Z) (t : list event) :
  match GCPLoggingClient.fetch_logs env settings self filter_query
          hours_back max_results t with
  | (Ok logs, t') =>
      exists entries query page_size,
        t' = t ++ [ListEntries query page_size]
        /\ list_entries env query page_size = Ok entries
        /\ logs = map GCPLoggingClient.to_log_entry entries
        /\ List.length logs = List.length entries
  | (Raise e, t') =>
      exn_cls e = GCPIntegrationError
      /\ ((exn_code e = Some (lit "GCP_CLIENT_NOT_INITIALIZED")
           /\ GCPLoggingClient.client self = None
           /\ exn_cause e = None /\ t' = t)
          \/ (exn_code e = Some (lit "GCP_LOG_FETCH_ERROR")
              /\ exists cause,
                   exn_cause e = Some cause
                   /\ ((start_time_text env hours_back = Raise cause
                        /\ t' = t)
                       \/ exists query page_size,
                            list_entries env query page_size = Raise cause
                            /\ t' = t ++ [ListEntries query page_size])))
  end.
Proof.
  pose proof (fetch_logs_inv env settings self filter_query hours_back
                max_results t) as H.
  destruct (GCPLoggingClient.fetch_logs env settings self filter_query
              hours_back max_results t) as [[logs|e] t']; [|exact H].
  destruct H as (entries & q & p & H1 & H2 & H3).
  exists entries, q, p. repeat split; try assumption.
  subst logs. apply length_map.
Qed.

Lemma to_log_entry_normalised (entry : raw_entry) :
  normalised (GCPLoggingClient.to_log_entry entry).
Proof.
  unfold normalised. split; [reflexivity|]. split; [|split].
  - destruct entry as [ts sev name res payload labels id].
    destruct payload; (now left) || (now right).
  - eexists. reflexivity.
  - destruct entry as [ts [s|] name res payload labels id];
      [right; now exists s | now left].
Qed.

(** X5. Every entry that [fetch_logs] returns has the eight keys
    timestamp, severity, log_name, resource, text_payload, json_payload,
    labels, insert_id, in this order; its text payload and its JSON
    payload are never both set; its resource is a dictionary (empty when
    the raw entry has none); its severity is a string or None. *)
Theorem X5_fetched_entries_are_normalised (env : Env)
  (settings : Settings) (self : GCPLoggingClient.t)
  (filter_query : option str) (hours_back : Z) (max_results : option Z)
  (t t' : list event) (logs : list log_entry) :
  GCPLoggingClient.fetch_logs env settings self filter_query hours_back
    max_results t = (Ok logs, t') ->
  Forall normalised logs.
Proof.
  intros H.
  pose proof (fetch_logs_inv env settings self filter_query hours_back
                max_results t) as I.
  rewrite H in I. destruct I as (entries & q & p & _ & _ & ->).
  apply Forall_forall. intros log Hin.
  apply in_map_iff in Hin as (entry & <- & _).
  apply to_log_entry_normalised.
Qed.

Lemma X5_witness :
  Forall normalised [GCPLoggingClient.to_log_entry entry_error].
Proof.
  apply (@X5_fetched_entries_are_normalised (answering_env entry_error)
           sample_settings ready_client None 24 None []
           [ ListEntries
               (lit "timestamp >= " ++ [quote] ++ lit "2024-01-14T10:30:00Z"
                ++ [quote] ++ lit " AND resource.type=gce_instance") 100 ]
           [GCPLoggingClient.to_log_entry entry_error]).
  reflexivity.
Defined.

(** X6. With [focus_on_errors] set, which is the default of a request,
    the request's own [filter_query] plays no part: the analysis returns
    the same result and makes the same calls whatever filter the request
    carries. *)
Theorem X6_focus_on_errors_ignores_filter (env : Env) (settings : Settings)
  (lax : Pydantic.Lax) (self : AnalysisService.t)
  (request : Schemas.LogAnalysisRequest) (filter_query : option str)
  (t : list event) :
  Schemas.focus_on_errors request = true ->
  AnalysisService.analyze_logs env settings lax self
    (with_filter_query request filter_query) t
  = AnalysisService.analyze_logs env settings lax self request t.
Proof.
  intros H. unfold AnalysisService.analyze_logs,
    AnalysisService.analyze_logs_steps, AnalysisService._fetch_logs,
    AnalysisService._create_empty_response, with_filter_query.
  cbn [Schemas.hours_back Schemas.filter_query Schemas.max_logs
       Schemas.focus_on_errors Schemas.output_format].
  now rewrite H.
Qed.

Lemma X6_witness :
  AnalysisService.analyze_logs (answering_env entry_error) sample_settings
    Pydantic.plain ready_service
    (with_filter_query default_request (Some (lit "severity=DEBUG"))) []
  = AnalysisService.analyze_logs (answering_env entry_error)
      sample_settings Pydantic.plain ready_service default_request [].
Proof.
  apply (@X6_focus_on_errors_ignores_filter (answering_env entry_error)
           sample_settings Pydantic.plain ready_service default_request
           (Some (lit "severity=DEBUG")) []).
  reflexivity.
Defined.

Lemma severity_key_fetched (entry : raw_entry) :
  severity_key (GCPLoggingClient.to_log_entry entry) = entry_severity entry.
Proof.
  unfold severity_key. rewrite fetched_severity.
  now destruct (entry_severity entry).
Qed.

Lemma fetched_hashable (entries : list raw_entry) :
  Forall hashable_severity (map GCPLoggingClient.to_log_entry entries).
Proof.
  apply Forall_forall. intros log Hin.
  apply in_map_iff in Hin as (entry & <- & _).
  unfold hashable_severity. rewrite fetched_severity.
  now destruct (entry_severity entry).
Qed.

(** X7. [get_log_statistics] makes one query, with the timestamp bound
    and the configured default filter (never a request filter) and the
    configured page size. When the query succeeds the statistics are
    always returned: the total is the number of entries, the keys are
    the raw severities (None included) in the order of their first
    occurrence, and the counts sum to the total. When the query fails the
    error is a GCPIntegrationError with code GCP_STATS_ERROR whose cause
    is the GCP_LOG_FETCH_ERROR that wraps the error of the query. *)
Theorem X7_get_log_statistics (env : Env) (settings : Settings)
  (self : GCPLoggingClient.t) (hours_back : Z) (start_time : str)
  (t : list event) :
  GCPLoggingClient.client self = Some tt ->
  start_time_text env hours_back = Ok start_time ->
  let query :=
    GCPLoggingClient.full_filter settings
      (lit "timestamp >= " ++ [quote] ++ start_time ++ [quote]) None in
  snd (GCPStatistics.get_log_statistics env settings self hours_back t)
  = t ++ [ListEntries query (gcp_log_limit settings)]
  /\ match list_entries env query (gcp_log_limit settings) with
     | Ok entries =>
         exists d,
           fst (GCPStatistics.get_log_statistics env settings self
                  hours_back t)
           = Ok {| Stats.total_count := Z.of_nat (List.length entries);
                   Stats.by_severity := d;
                   Stats.time_range_hours := hours_back |}
           /\ sum_values d = Z.of_nat (List.length entries)
           /\ map fst d = first_occurrences (map entry_severity entries)
     | Raise c =>
         exists e fetch_error,
           fst (GCPStatistics.get_log_statistics env settings self
                  hours_back t) = Raise e
           /\ exn_cls e = GCPIntegrationError
           /\ exn_code e = Some (lit "GCP_STATS_ERROR")
           /\ exn_cause e = Some fetch_error
           /\ exn_cls fetch_error = GCPIntegrationError
           /\ exn_code fetch_error = Some (lit "GCP_LOG_FETCH_ERROR")
           /\ exn_cause fetch_error = Some c
     end.
Proof.
  intros Hc Hs query.
  unfold GCPStatistics.get_log_statistics, mtry, mbind.
  rewrite (fetch_logs_run _ settings _ None _ None t Hc Hs).
  fold query. cbn [or_int].
  destruct (list_entries env query (gcp_log_limit settings))
    as [entries|c].
  - destruct (@tally_spec (map GCPLoggingClient.to_log_entry entries) []
                (fetched_hashable entries)) as (d & Et & Es & Ek & _).
    unfold lift, ret. rewrite Et. split; [reflexivity|].
    exists d. rewrite length_map in *. split; [reflexivity|].
    split; [exact Es|].
    rewrite Ek. cbn [map app]. rewrite filter_all, map_map.
    f_equal. apply map_ext. apply severity_key_fetched.
  - split; [reflexivity|]. do 2 eexists. repeat split.
Qed.

Lemma X7_witness :
  snd (GCPStatistics.get_log_statistics (answering_env entry_error)
         sample_settings ready_client 24 [])
  = [] ++ [ ListEntries
              (GCPLoggingClient.full_filter sample_settings
                 (lit "timestamp >= " ++ [quote]
                  ++ lit "2024-01-14T10:30:00Z" ++ [quote]) None)
              (gcp_log_limit sample_settings) ]
  /\ match list_entries (answering_env entry_error)
             (GCPLoggingClient.full_filter sample_settings
                (lit "timestamp >= " ++ [quote]
                 ++ lit "2024-01-14T10:30:00Z" ++ [quote]) None)
             (gcp_log_limit sample_settings) with
     | Ok entries =>
         exists d,
           fst (GCPStatistics.get_log_statistics (answering_env entry_error)
                  sample_settings ready_client 24 [])
           = Ok {| Stats.total_count := Z.of_nat (List.length entries);
                   Stats.by_severity := d;
                   Stats.time_range_hours := 24 |}
           /\ sum_values d = Z.of_nat (List.length entries)
           /\ map fst d = first_occurrences (map entry_severity entries)
     | Raise c =>
         exists e fetch_error,
           fst (GCPStatistics.get_log_statistics (answering_env entry_error)
                  sample_settings ready_client 24 []) = Raise e
           /\ exn_cls e = GCPIntegrationError
           /\ exn_code e = Some (lit "GCP_STATS_ERROR")
           /\ exn_cause e = Some fetch_error
           /\ exn_cls fetch_error = GCPIntegrationError
           /\ exn_code fetch_error = Some (lit "GCP_LOG_FETCH_ERROR")
           /\ exn_cause fetch_error = Some c
     end.
Proof.
  apply (@X7_get_log_statistics (answering_env entry_error) sample_settings
           ready_client 24 (lit "2024-01-14T10:30:00Z") []); reflexivity.
Defined.

(** ** Construction of the clients *)

(** X8. The constructor of the log client either yields an initialised
    client, which requires a non-empty project id, or raises a
    GCPIntegrationError whose code is always GCP_CLIENT_INIT_ERROR. When
    the project id is missing or empty it fails in every environment,
    and the code GCP_PROJECT_ID_MISSING is the code of the cause, not of
    the error the caller catches. *)
Theorem X8_logging_client_construction (env : Env) (settings : Settings) :
  match GCPLoggingClient.__init__ env settings with
  | Ok self =>
      GCPLoggingClient.client self = Some tt
      /\ truthy_str (gcp_project_id settings) = true
  | Raise e =>
      exn_cls e = GCPIntegrationError
      /\ exn_code e = Some (lit "GCP_CLIENT_INIT_ERROR")
      /\ exists cause,
           exn_cause e = Some cause
           /\ str_of_exn e
              = lit "Failed to initialize GCP Logging client: "
                ++ str_of_exn cause
  end
  /\ (truthy_str (gcp_project_id settings) = false ->
      exists e cause,
        GCPLoggingClient.__init__ env settings = Raise e
        /\ exn_cause e = Some cause
        /\ exn_code cause = Some (lit "GCP_PROJECT_ID_MISSING")
        /\ exn_code e <> Some (lit "GCP_PROJECT_ID_MISSING")).
Proof.
  unfold GCPLoggingClient.__init__, GCPLoggingClient._initialize_client,
    try_except.
  destruct (truthy_str (gcp_project_id settings)) eqn:Ep; cbn [negb].
  - split; [|discriminate].
    match goal with
    | |- context [new_logging_client env ?p ?c] =>
        destruct (new_logging_client env p c) as [u|c0]
    end; cbn [bind].
    + now split.
    + repeat split. now exists c0.
  - split.
    + repeat split. eexists. split; reflexivity.
    + intros _. do 2 eexists. repeat split. discriminate.
Qed.

(** X9. The constructor of the model service selects the provider by
    name: "anthropic" needs the Anthropic key and any other name, known
    or not, needs the OpenAI key; the other key plays no part. It either
    succeeds, which requires the selected key to be non-empty, or raises
    an LLMError whose code is always LLM_INIT_ERROR; when the selected
    key is missing or empty it fails in every environment and the cause
    carries ANTHROPIC_API_KEY_MISSING or OPENAI_API_KEY_MISSING. *)
Theorem X9_model_service_construction (env : Env) (settings : Settings) :
  match LLMService.__init__ env settings with
  | Ok _ => truthy_str (selected_api_key settings) = true
  | Raise e =>
      exn_cls e = LLMError
      /\ exn_code e = Some (lit "LLM_INIT_ERROR")
      /\ exists cause,
           exn_cause e = Some cause
           /\ str_of_exn e = lit "Failed to initialize LLM: "
                             ++ str_of_exn cause
  end
  /\ (truthy_str (selected_api_key settings) = false ->
      exists e cause,
        LLMService.__init__ env settings = Raise e
        /\ exn_cause e = Some cause
        /\ exn_cls cause = LLMError
        /\ exn_code cause = Some (missing_key_code settings)).
Proof.
  unfold LLMService.__init__, LLMService._initialize_llm, try_except,
    selected_api_key, missing_key_code.
  destruct (str_eqb (llm_provider settings) (lit "anthropic")).
  - destruct (anthropic_api_key settings) as [[|c k]|]; cbn [truthy_str].
    + split; [|intros _; do 2 eexists; repeat split].
      repeat split. eexists. split; reflexivity.
    + split; [|discriminate].
      destruct (new_chat_model env (lit "anthropic") (c :: k)) as [u|c0];
        [reflexivity|].
      repeat split. now exists c0.
    + split; [|intros _; do 2 eexists; repeat split].
      repeat split. eexists. split; reflexivity.
  - destruct (openai_api_key settings) as [[|c k]|]; cbn [truthy_str].
    + split; [|intros _; do 2 eexists; repeat split].
      repeat split. eexists. split; reflexivity.
    + split; [|discriminate].
      destruct (new_chat_model env (lit "openai") (c :: k)) as [u|c0];
        [reflexivity|].
      repeat split. now exists c0.
    + split; [|intros _; do 2 eexists; repeat split].
      repeat split. eexists. split; reflexivity.
Qed.

(** ** The pipeline *)

Lemma llm_analyze_logs_trace (env : Env) (logs : list log_entry)
  (statistics : stats_dict) (t : list event) :
  snd (LLMService.analyze_logs env logs statistics t)
  = t ++ [InvokeModel logs statistics].
Proof.
  unfold LLMService.analyze_logs, mtry, mbind, call, lift, ret.
  destruct (invoke_model env logs statistics) as [content|c];
    [|reflexivity].
  now destruct (LLMService._parse_llm_response (py_limits env) content).
Qed.

Lemma _fetch_logs_ok (env : Env) (settings : Settings)
  (self : AnalysisService.t) (request : Schemas.LogAnalysisRequest)
  (t t1 : list event) (logs : list log_entry) :
  AnalysisService._fetch_logs env settings self request t = (Ok logs, t1) ->
  exists entries query page_size,
    t1 = t ++ [ListEntries query page_size]
    /\ logs = map GCPLoggingClient.to_log_entry entries.
Proof.
  unfold AnalysisService._fetch_logs, GCPLoggingClient.fetch_error_logs.
  intros H.
  destruct (Schemas.focus_on_errors request);
    match type of H with
    | GCPLoggingClient.fetch_logs ?e ?s ?c ?f ?h ?m ?t = _ =>
        pose proof (fetch_logs_inv e s c f h m t) as I
    end;
    rewrite H in I; destruct I as (entries & q & p & I1 & _ & I2);
    now exists entries, q, p.
Qed.

(** The steps that a successful run of the pipeline went through. *)
Lemma analyze_logs_steps_inv (env : Env) (settings : Settings)
  (lax : Pydantic.Lax) (self : AnalysisService.t)
  (request : Schemas.LogAnalysisRequest) (id : str) (ts : Z)
  (t t' : list event) (resp : Schemas.LogAnalysisResponse) :
  AnalysisService.analyze_logs_steps env settings lax self request id ts t
  = (Ok resp, t') ->
  exists logs t1,
    AnalysisService._fetch_logs env settings self request t = (Ok logs, t1)
    /\ ((logs = [] /\ t' = t1
         /\ AnalysisService._create_empty_response id ts request = Ok resp)
        \/ (logs <> []
            /\ exists st llm raw findings summary recs path mc ls,
                 AnalysisService._calculate_statistics logs
                   (Schemas.hours_back request) = Ok st
                 /\ fst (LLMService.analyze_logs env logs st t1) = Ok llm
                 /\ py_get llm (lit "findings") (PList []) = Ok raw
                 /\ AnalysisService._convert_findings lax raw = Ok findings
                 /\ py_get llm (lit "summary") (PStr []) = Ok summary
                 /\ py_get llm (lit "recommendations") (PList []) = Ok recs
                 /\ generate_document env id ts st findings summary recs
                      (Schemas.output_format request) = Ok path
                 /\ py_get llm (lit "most_common_errors") (PList [])
                    = Ok mc
                 /\ Schemas.new_LogStatistics (Stats.total_count st)
                      (Stats.by_severity st) (Stats.time_range_hours st) mc
                    = Ok ls
                 /\ Schemas.new_LogAnalysisResponse id ts ls findings
                      summary (Some path) recs = Ok resp
                 /\ t' = t1 ++ [InvokeModel logs st; GenerateDocument id])).
Proof.
  intros H. unfold AnalysisService.analyze_logs_steps, mbind in H.
  destruct (AnalysisService._fetch_logs env settings self request t)
    as [[logs|e] t1] eqn:Ef; [|discriminate H].
  exists logs, t1. split; [reflexivity|].
  destruct logs as [|log logs].
  - left. unfold lift in H. injection H as H1 H2. subst t' resp.
    repeat split.
  - right. split; [discriminate|].
    unfold lift, call, ret in H.
    destruct (AnalysisService._calculate_statistics (log :: logs)
                (Schemas.hours_back request)) as [st|e] eqn:Es;
      [|discriminate H].
    pose proof (llm_analyze_logs_trace env (log :: logs) st t1) as Tr.
    destruct (LLMService.analyze_logs env (log :: logs) st t1)
      as [[llm|e] t2] eqn:El; [|discriminate H].
    cbn [snd] in Tr. subst t2.
    destruct (py_get llm (lit "findings") (PList [])) as [raw|e] eqn:E1;
      [|discriminate H].
    destruct (AnalysisService._convert_findings lax raw)
      as [findings|e] eqn:E2; [|discriminate H].
    destruct (py_get llm (lit "summary") (PStr [])) as [summary|e] eqn:E3;
      [|discriminate H].
    destruct (py_get llm (lit "recommendations") (PList []))
      as [recs|e] eqn:E4; [|discriminate H].
    destruct (generate_document env id ts st findings summary recs
                (Schemas.output_format request)) as [path|e] eqn:E5;
      [|discriminate H].
    destruct (py_get llm (lit "most_common_errors") (PList []))
      as [mc|e] eqn:E6; [|discriminate H].
    destruct (Schemas.new_LogStatistics (Stats.total_count st)
                (Stats.by_severity st) (Stats.time_range_hours st) mc)
      as [ls|e] eqn:E7; [|discriminate H].
    destruct (Schemas.new_LogAnalysisResponse id ts ls findings summary
                (Some path) recs) as [r|e] eqn:E8; [|discriminate H].
    injection H as H1 H2. subst r t'.
    exists st, llm, raw, findings, summary, recs, path, mc, ls.
    repeat split; try assumption.
    + now rewrite El.
    + now rewrite <- app_assoc.
Qed.

Lemma tally_ok_hashable (logs : list log_entry) :
  forall d d', AnalysisService.tally logs d = Ok d' ->
    Forall hashable_severity logs.
Proof.
  induction logs as [|log rest IH]; intros d d' H; [constructor|].
  assert (Hl : hashable_severity log).
  { unfold hashable_severity. simpl in H.
    now destruct (AnalysisService.severity_of log). }
  constructor; [exact Hl|].
  rewrite tally_step in H by exact Hl. eapply IH; eauto.
Qed.

Lemma calculate_statistics_ok (logs : list log_entry) (hours_back : Z)
  (st : stats_dict) :
  AnalysisService._calculate_statistics logs hours_back = Ok st ->
  Stats.total_count st = Z.of_nat (List.length logs)
  /\ Stats.time_range_hours st = hours_back
  /\ sum_values (Stats.by_severity st) = Z.of_nat (List.length logs)
  /\ map fst (Stats.by_severity st)
     = first_occurrences (map severity_key logs).
Proof.
  unfold AnalysisService._calculate_statistics.
  destruct (AnalysisService.tally logs []) as [d|e] eqn:Et;
    [|discriminate].
  cbn [bind]. intros H. injection H as <-. cbn.
  destruct (@tally_spec logs [] (tally_ok_hashable _ _ Et))
    as (d' & Et' & Es & Ek & _).
  rewrite Et in Et'. injection Et' as <-.
  repeat split; [exact Es|]. rewrite Ek. apply filter_all.
Qed.

Lemma validate_by_severity_ok (d : list (option str * Z))
  (r : list (str * Z)) :
  Schemas.validate_by_severity d = Some r ->
  map snd r = map snd d /\ ~ In None (map fst d).
Proof.
  revert r. induction d as [|[[k|] n] d IH]; intros r H; simpl in H.
  - injection H as <-. split; [reflexivity | intros []].
  - destruct (Schemas.validate_by_severity d) as [r'|]; [|discriminate].
    injection H as <-. destruct (IH r' eq_refl) as [E N].
    split; [simpl; now f_equal|].
    simpl. intros [F|F]; [discriminate | contradiction].
  - discriminate.
Qed.

Lemma new_LogStatistics_ok (total : Z) (by_sev : list (option str * Z))
  (hours : Z) (mc : pyval) (ls : Schemas.LogStatistics) :
  Schemas.new_LogStatistics total by_sev hours mc = Ok ls ->
  Schemas.total_logs ls = total
  /\ Schemas.time_range_hours ls = hours
  /\ map snd (Schemas.by_severity ls) = map snd by_sev
  /\ ~ In None (map fst by_sev).
Proof.
  unfold Schemas.new_LogStatistics.
  destruct (Schemas.validate_by_severity by_sev) as [r|] eqn:Ev;
    [|discriminate].
  destruct (Pydantic.validate_list_str mc); [|discriminate].
  intros H. injection H as <-. cbn.
  apply validate_by_severity_ok in Ev as [E N]. now repeat split.
Qed.

Lemma new_LogAnalysisResponse_ok (id : str) (ts : Z)
  (ls : Schemas.LogStatistics) (findings : list Schemas.AnalysisFinding)
  (summary : pyval) (path : option str) (recs : pyval)
  (resp : Schemas.LogAnalysisResponse) :
  Schemas.new_LogAnalysisResponse id ts ls findings summary path recs
  = Ok resp ->
  Schemas.analysis_id resp = id
  /\ Schemas.timestamp resp = ts
  /\ Schemas.statistics resp = ls
  /\ Schemas.findings resp = findings
  /\ Schemas.document_path resp = path
  /\ summary = PStr (Schemas.summary resp).
Proof.
  unfold Schemas.new_LogAnalysisResponse.
  destruct summary; try discriminate. cbn [Pydantic.validate_str].
  destruct (Pydantic.validate_list_str recs); [|discriminate].
  intros H. injection H as <-. now repeat split.
Qed.

Lemma first_occurrences_in (x : option str) (l : list (option str)) :
  In x l -> In x (first_occurrences l).
Proof.
  induction l as [|y l IH]; [intros []|].
  intros H. simpl.
  destruct (AnalysisService.key_eqb y x) eqn:E.
  - left. now apply key_eqb_eq.
  - right. apply filter_In. split; [|now rewrite E].
    destruct H as [->|H]; [|now apply IH].
    now rewrite key_eqb_refl in E.
Qed.

Lemma analyze_logs_ok (env : Env) (settings : Settings)
  (lax : Pydantic.Lax) (self : AnalysisService.t)
  (request : Schemas.LogAnalysisRequest) (t t' : list event)
  (resp : Schemas.LogAnalysisResponse) :
  AnalysisService.analyze_logs env settings lax self request t
  = (Ok resp, t') ->
  AnalysisService.analyze_logs_steps env settings lax self request
    (uuid4 env) (utcnow env) t = (Ok resp, t').
Proof.
  unfold AnalysisService.analyze_logs, mtry. cbv zeta.
  destruct (AnalysisService.analyze_logs_steps env settings lax self
              request (uuid4 env) (utcnow env) t) as [[r|e] t0];
    [|discriminate].
  intros H. now injection H as <- <-.
Qed.

Lemma analyze_logs_raises (env : Env) (settings : Settings)
  (lax : Pydantic.Lax) (self : AnalysisService.t)
  (request : Schemas.LogAnalysisRequest) (t : list event) (e : exn) :
  fst (AnalysisService.analyze_logs env settings lax self request t)
  = Raise e ->
  exn_cls e = LogAnalysisError.
Proof.
  unfold AnalysisService.analyze_logs, mtry. cbv zeta.
  destruct (AnalysisService.analyze_logs_steps env settings lax self
              request (uuid4 env) (utcnow env) t) as [[r|c] t0];
    [discriminate|].
  cbn [fst]. intros H. now injection H as <-.
Qed.

(** X10. A response that [analyze_logs] returns always carries the
    identifier and the time of the run, the request's [hours_back] as
    time range, and severity counts that sum to [total_logs]. It has no
    document path exactly when no log was fetched, and then one log
    query was the only call made; otherwise it has a document path,
    [total_logs] is the (positive) number of fetched entries, and the
    calls made were one log query, one model call and one rendering, in
    this order. *)
Theorem X10_successful_analysis (env : Env) (settings : Settings)
  (lax : Pydantic.Lax) (self : AnalysisService.t)
  (request : Schemas.LogAnalysisRequest) (t t' : list event)
  (resp : Schemas.LogAnalysisResponse) :
  AnalysisService.analyze_logs env settings lax self request t
  = (Ok resp, t') ->
  Schemas.analysis_id resp = uuid4 env
  /\ Schemas.timestamp resp = utcnow env
  /\ Schemas.time_range_hours (Schemas.statistics resp)
     = Schemas.hours_back request
  /\ fold_right Z.add 0%Z
       (map snd (Schemas.by_severity (Schemas.statistics resp)))
     = Schemas.total_logs (Schemas.statistics resp)
  /\ exists query page_size,
       (Schemas.document_path resp = None
        /\ Schemas.total_logs (Schemas.statistics resp) = 0%Z
        /\ Schemas.findings resp = []
        /\ t' = t ++ [ListEntries query page_size])
       \/ (exists path logs st,
             Schemas.document_path resp = Some path
             /\ Schemas.total_logs (Schemas.statistics resp)
                = Z.of_nat (List.length logs)
             /\ (0 < Schemas.total_logs (Schemas.statistics resp))%Z
             /\ t' = t ++ [ ListEntries query page_size;
                            InvokeModel logs st;
                            GenerateDocument (uuid4 env) ]).
Proof.
  intros H. apply analyze_logs_ok in H.
  apply analyze_logs_steps_inv in H
    as (logs & t1 & Ef & [(-> & -> & Ec) | (Hne & R)]).
  - apply _fetch_logs_ok in Ef as (entries & q & p & -> & _).
    unfold AnalysisService._create_empty_response in Ec. cbn in Ec.
    injection Ec as <-. cbn. repeat split.
    exists q, p. left. now repeat split.
  - destruct R as (st & llm & raw & findings & summary & recs & path & mc
                   & ls & Es & El & E1 & E2 & E3 & E4 & E5 & E6 & E7 & E8
                   & ->).
    apply _fetch_logs_ok in Ef as (entries & q & p & -> & _).
    apply new_LogAnalysisResponse_ok in E8 as (R1 & R2 & R3 & R4 & R5 & _).
    apply new_LogStatistics_ok in E7 as (S1 & S2 & S3 & _).
    apply calculate_statistics_ok in Es as (C1 & C2 & C3 & _).
    rewrite R3, S1, S2, S3, C1, C2.
    split; [exact R1|]. split; [exact R2|]. split; [reflexivity|].
    split; [exact C3|].
    exists q, p. right. exists path, logs, st.
    split; [exact R5|]. split; [reflexivity|]. split.
    + destruct logs; [congruence | cbn [List.length]; lia].
    + now rewrite <- app_assoc.
Qed.

Lemma X10_witness :
  exists resp t',
    AnalysisService.analyze_logs (answering_env entry_error)
      sample_settings Pydantic.plain ready_service sample_request []
    = (Ok resp, t')
    /\ Schemas.analysis_id resp = uuid4 (answering_env entry_error)
    /\ Schemas.time_range_hours (Schemas.statistics resp) = 24%Z
    /\ fold_right Z.add 0%Z
         (map snd (Schemas.by_severity (Schemas.statistics resp)))
       = Schemas.total_logs (Schemas.statistics resp).
Proof.
  do 2 eexists.
  assert (E : AnalysisService.analyze_logs (answering_env entry_error)
                sample_settings Pydantic.plain ready_service sample_request
                []
              = (Ok _, _)) by reflexivity.
  split; [exact E|].
  destruct (X10_successful_analysis _ _ _ _ _ _ E) as (A & _ & B & C & _).
  split; [exact A|]. split; [exact B | exact C].
Defined.

(** X11. When a fetched entry has no severity, the analysis cannot
    succeed: whatever the model and the renderer do, [analyze_logs]
    raises a LogAnalysisError, because the statistics then hold the key
    None, which the response schema rejects. *)
Theorem X11_absent_severity_fails_the_analysis (env : Env)
  (settings : Settings) (lax : Pydantic.Lax) (self : AnalysisService.t)
  (request : Schemas.LogAnalysisRequest) (t t1 : list event)
  (logs : list log_entry) :
  AnalysisService._fetch_logs env settings self request t = (Ok logs, t1) ->
  Exists (fun log => AnalysisService.severity_of log = LNone) logs ->
  exists e,
    fst (AnalysisService.analyze_logs env settings lax self request t)
    = Raise e
    /\ exn_cls e = LogAnalysisError.
Proof.
  intros Hf Hex.
  destruct (AnalysisService.analyze_logs env settings lax self request t)
    as [[resp|e] t'] eqn:Ea.
  - exfalso. apply analyze_logs_ok in Ea.
    apply analyze_logs_steps_inv in Ea
      as (logs' & t1' & Ef & [(-> & _) | (_ & R)]);
      rewrite Hf in Ef; injection Ef as -> ->.
    + inversion Hex.
    + destruct R as (st & llm & raw & findings & summary & recs & path & mc
                     & ls & Es & _ & _ & _ & _ & _ & _ & _ & E7 & _).
      apply new_LogStatistics_ok in E7 as (_ & _ & _ & N).
      apply calculate_statistics_ok in Es as (_ & _ & _ & K).
      apply N. rewrite K. apply first_occurrences_in.
      apply Exists_exists in Hex as (log & Hin & Hs).
      apply in_map_iff. exists log. split; [|exact Hin].
      unfold severity_key. now rewrite Hs.
  - exists e. split; [reflexivity|].
    apply (analyze_logs_raises env settings lax self request t).
    now rewrite Ea.
Qed.

Lemma X11_witness :
  exists e,
    fst (AnalysisService.analyze_logs (answering_env entry_without_severity)
           sample_settings Pydantic.plain ready_service sample_request [])
    = Raise e
    /\ exn_cls e = LogAnalysisError.
Proof.
  eapply X11_absent_severity_fails_the_analysis.
  - reflexivity.
  - constructor. reflexivity.
Defined.

(** ** The analysis route *)

(** X12. The analysis route raises nothing but an HTTPException, with
    status 500 or 502. Once the service has been constructed every
    failure is answered 500 "Analysis failed": the handlers for
    GCPIntegrationError and LLMError (502) can only be reached by a
    failure of the construction. A result of the analysis is returned
    unchanged. *)
Theorem X12_route_status_codes (env : Env) (settings : Settings)
  (lax : Pydantic.Lax) (request : Schemas.LogAnalysisRequest)
  (t : list event) :
  match fst (Routes.analyze_logs env settings lax request t) with
  | Ok resp =>
      exists service,
        AnalysisService.__init__ env settings = Ok service
        /\ fst (AnalysisService.analyze_logs env settings lax service
                  request t) = Ok resp
  | Raise e =>
      exists status_code,
        exn_cls e = HTTPException status_code
        /\ (status_code = 500%Z \/ status_code = 502%Z)
        /\ (forall service,
              AnalysisService.__init__ env settings = Ok service ->
              status_code = 500%Z /\ str_of_exn e = lit "Analysis failed")
  end.
Proof.
  unfold Routes.analyze_logs, Routes.run_analysis, mtry, mbind, lift.
  destruct (AnalysisService.__init__ env settings) as [service|c].
  - destruct (AnalysisService.analyze_logs env settings lax service
                request t) as [[resp|e] t'] eqn:Ea.
    + exists service. now rewrite Ea.
    + assert (Hc : exn_cls e = LogAnalysisError).
      { apply (analyze_logs_raises env settings lax service request t).
        now rewrite Ea. }
      cbn [fst]. unfold Routes.http_error. rewrite Hc.
      exists 500%Z. split; [reflexivity|]. split; [now left|].
      intros _ _. now split.
  - cbn [fst]. unfold Routes.http_error.
    destruct (exn_cls c);
      (exists 500%Z + exists 502%Z);
      (split; [reflexivity|]); (split; [tauto|]); discriminate.
Qed.

(** ** Findings that are not a list of objects *)

Lemma kept_non_dict (lax : Pydantic.Lax) (x : pyval) :
  (forall d, x <> PDict d) -> kept lax x = [].
Proof.
  intros H. unfold kept, AnalysisService.convert_finding.
  destruct x; try reflexivity. now destruct (H d).
Qed.

Lemma convert_all_skipped (lax : Pydantic.Lax) (l : list pyval) :
  (forall x, In x l -> forall d, x <> PDict d) ->
  AnalysisService.convert_loop lax l [] = [].
Proof.
  intros H. rewrite convert_loop_spec. cbn [app].
  induction l as [|x l IH]; [reflexivity|].
  cbn [flat_map]. rewrite kept_non_dict by (apply H; now left).
  apply IH. intros y Hy. apply H. now right.
Qed.

(** X13. What [_convert_findings] does with a value that is not a list
    of objects. The elements of a list that are not objects are skipped
    without error. A string or an object in place of the list is iterated
    (its characters, its keys), every element is skipped, and the result
    is the empty list. Null, a boolean or a number in place of the list
    is not iterable: the conversion raises a TypeError, outside the
    per-finding handler. *)
Theorem X13_findings_not_a_list_of_objects (lax : Pydantic.Lax) :
  (forall l,
     (forall x, In x l -> forall d, x <> PDict d) ->
     AnalysisService._convert_findings lax (PList l) = Ok [])
  /\ (forall s, AnalysisService._convert_findings lax (PStr s) = Ok [])
  /\ (forall d, AnalysisService._convert_findings lax (PDict d) = Ok [])
  /\ (forall v, is_scalar v = true ->
        exists e,
          AnalysisService._convert_findings lax v = Raise e
          /\ exn_cls e = TypeError).
Proof.
  unfold AnalysisService._convert_findings.
  split; [|split; [|split]].
  - intros l H. cbn [py_iter bind]. now rewrite convert_all_skipped.
  - intros s. cbn [py_iter bind]. rewrite convert_all_skipped;
      [reflexivity|].
    intros x Hx d. apply in_map_iff in Hx as (c & <- & _). discriminate.
  - intros d. cbn [py_iter bind]. rewrite convert_all_skipped;
      [reflexivity|].
    intros x Hx d'. apply in_map_iff in Hx as (kv & <- & _). discriminate.
  - intros v Hv. destruct v; try discriminate;
      eexists; split; reflexivity.
Qed.

(** ** Statistics of fetched entries *)

(** X14. [_calculate_statistics] cannot fail on the entries that
    [_fetch_logs] returns: the severity that [fetch_logs] writes is the
    severity of the client's entry, a string or None, and both can be
    keys. The statistics hold the number of entries as total, the time
    range given, and as keys the raw severities, None included, in the
    order of their first occurrence, with counts that sum to the
    total. *)
Theorem X14_statistics_of_fetched_entries (env : Env) (settings : Settings)
  (self : AnalysisService.t) (request : Schemas.LogAnalysisRequest)
  (t t1 : list event) (logs : list log_entry) (hours_back : Z) :
  AnalysisService._fetch_logs env settings self request t = (Ok logs, t1) ->
  exists st entries,
    AnalysisService._calculate_statistics logs hours_back = Ok st
    /\ logs = map GCPLoggingClient.to_log_entry entries
    /\ Stats.total_count st = Z.of_nat (List.length entries)
    /\ Stats.time_range_hours st = hours_back
    /\ sum_values (Stats.by_severity st) = Stats.total_count st
    /\ map fst (Stats.by_severity st)
       = first_occurrences (map entry_severity entries).
Proof.
  intros H. apply _fetch_logs_ok in H as (entries & q & p & _ & ->).
  destruct (@tally_spec (map GCPLoggingClient.to_log_entry entries) []
              (fetched_hashable entries)) as (d & Et & _).
  assert (E : AnalysisService._calculate_statistics
                (map GCPLoggingClient.to_log_entry entries) hours_back
              = Ok {| Stats.total_count :=
                        Z.of_nat (List.length
                                    (map GCPLoggingClient.to_log_entry
                                       entries));
                      Stats.by_severity := d;
                      Stats.time_range_hours := hours_back |}).
  { unfold AnalysisService._calculate_statistics. now rewrite Et. }
  destruct (calculate_statistics_ok _ _ E) as (E1 & E2 & E3 & E4).
  eexists. exists entries. split; [exact E|]. split; [reflexivity|].
  cbn [Stats.total_count Stats.by_severity Stats.time_range_hours] in *.
  rewrite length_map in *.
  split; [reflexivity|]. split; [reflexivity|]. split; [exact E3|].
  rewrite E4, map_map. apply f_equal.
  apply map_ext. intros entry. apply severity_key_fetched.
Qed.

Lemma X14_witness :
  exists st entries,
    AnalysisService._calculate_statistics
      [GCPLoggingClient.to_log_entry entry_without_severity] 24 = Ok st
    /\ [GCPLoggingClient.to_log_entry entry_without_severity]
       = map GCPLoggingClient.to_log_entry entries
    /\ Stats.total_count st = Z.of_nat (List.length entries)
    /\ Stats.time_range_hours st = 24%Z
    /\ sum_values (Stats.by_severity st) = Stats.total_count st
    /\ map fst (Stats.by_severity st)
       = first_occurrences (map entry_severity entries).
Proof.
  apply (@X14_statistics_of_fetched_entries
           (answering_env entry_without_severity) sample_settings
           ready_service sample_request []
           [ListEntries
              (lit "timestamp >= " ++ [quote] ++ lit "2024-01-14T10:30:00Z"
               ++ [quote] ++ lit " AND severity=ERROR") 100]).
  reflexivity.
Defined.

(** ** The other routes and the readiness probe *)

Lemma logging_client_init_raises (env : Env) (settings : Settings)
  (e : exn) :
  GCPLoggingClient.__init__ env settings = Raise e ->
  exn_cls e = GCPIntegrationError.
Proof.
  unfold GCPLoggingClient.__init__, GCPLoggingClient._initialize_client,
    try_except.
  match goal with
  | |- match ?b with _ => _ end = _ -> _ => destruct b
  end; [discriminate|].
  intros H. now injection H as <-.
Qed.

Lemma get_log_statistics_cases (env : Env) (settings : Settings)
  (self : GCPLoggingClient.t) (hours_back : Z) (t : list event) :
  match fst (GCPStatistics.get_log_statistics env settings self hours_back
               t) with
  | Ok st =>
      Stats.time_range_hours st = hours_back
      /\ sum_values (Stats.by_severity st) = Stats.total_count st
  | Raise e =>
      exn_cls e = GCPIntegrationError
      /\ exn_code e = Some (lit "GCP_STATS_ERROR")
  end.
Proof.
  unfold GCPStatistics.get_log_statistics, mtry, mbind, lift, ret.
  destruct (GCPLoggingClient.fetch_logs env settings self None hours_back
              None t) as [[logs|e] t1]; [|now split].
  destruct (AnalysisService.tally logs []) as [d|e] eqn:Et; [|now split].
  cbn. split; [reflexivity|].
  destruct (@tally_spec logs [] (tally_ok_hashable _ _ Et))
    as (d' & Et' & Es & _).
  rewrite Et in Et'. injection Et' as <-. exact Es.
Qed.

(** X15. The quick-statistics route fails in one way only: whatever goes
    wrong (a client that cannot be constructed, a failing query), the
    error is an HTTPException with status 502, "Failed to fetch
    statistics"; the handler for other exceptions (500) is never
    reached. A successful answer has [success] true, the requested time
    range, and severity counts that sum to the total. *)
Theorem X15_quick_stats_outcomes (env : Env) (settings : Settings)
  (hours_back : Z) (t : list event) :
  match fst (Routes.get_quick_stats env settings hours_back t) with
  | Ok answer =>
      Routes.success answer = true
      /\ Stats.time_range_hours (Routes.data answer) = hours_back
      /\ sum_values (Stats.by_severity (Routes.data answer))
         = Stats.total_count (Routes.data answer)
  | Raise e =>
      exn_cls e = HTTPException 502
      /\ str_of_exn e = lit "Failed to fetch statistics"
  end.
Proof.
  unfold Routes.get_quick_stats, mtry, mbind, lift, ret.
  destruct (GCPLoggingClient.__init__ env settings) as [client|c] eqn:Ei.
  - pose proof (get_log_statistics_cases env settings client hours_back t)
      as H.
    destruct (GCPStatistics.get_log_statistics env settings client
                hours_back t) as [[st|e] t1]; cbn [fst] in *.
    + destruct H as [H1 H2]. now repeat split.
    + destruct H as [H1 _]. unfold Routes.quick_stats_error.
      rewrite H1. now split.
  - apply logging_client_init_raises in Ei. cbn [fst].
    unfold Routes.quick_stats_error. rewrite Ei. now split.
Qed.

(** X16. The status route answers the same for every identifier, issued
    or not: status "completed", message "Analysis completed", progress
    100, with the identifier echoed. It fails only when the analysis
    service cannot be constructed, and then with status 404 "Analysis
    not found", whatever the cause. *)
Theorem X16_status_route (env : Env) (settings : Settings)
  (lax : Pydantic.Lax) (analysis_id : str) :
  match Routes.get_analysis_status env settings lax analysis_id with
  | Ok answer =>
      answer = {| StatusSchema.status := lit "completed";
                  StatusSchema.analysis_id := analysis_id;
                  StatusSchema.message := Some (lit "Analysis completed");
                  StatusSchema.progress_percentage := Some 100%Z |}
      /\ exists service, AnalysisService.__init__ env settings = Ok service
  | Raise e =>
      exn_cls e = HTTPException 404
      /\ exists cause,
           AnalysisService.__init__ env settings = Raise cause
           /\ exn_context e = [ (lit "error", lit "Analysis not found");
                                (lit "message", str_of_exn cause) ]
  end.
Proof.
  unfold Routes.get_analysis_status, try_except.
  destruct (AnalysisService.__init__ env settings) as [service|c];
    cbn [bind].
  - cbn. split; [reflexivity | now exists service].
  - split; [reflexivity|]. now exists c.
Qed.

(** X17. The readiness probe always answers "ready", and its checks
    only look at whether values are set: gcp is "configured" exactly
    when the project id is non-empty, llm when either key is non-empty.
    The llm check does not look at the selected provider: whenever the
    selected provider's key is missing while the other key is set, the
    probe reports llm "configured" and the model service fails to
    initialise. *)
Theorem X17_readiness_probe (env : Env) (settings : Settings) :
  Main.status (Main.readiness_check settings) = lit "ready"
  /\ map fst (Main.checks (Main.readiness_check settings))
     = [lit "api"; lit "gcp"; lit "llm"]
  /\ dict_lookup str_eqb (Main.checks (Main.readiness_check settings))
       (lit "gcp")
     = Some (if truthy_str (gcp_project_id settings)
             then lit "configured" else lit "not_configured")
  /\ dict_lookup str_eqb (Main.checks (Main.readiness_check settings))
       (lit "llm")
     = Some (if truthy_str (openai_api_key settings)
                || truthy_str (anthropic_api_key settings)
             then lit "configured" else lit "not_configured")
  /\ (truthy_str (selected_api_key settings) = false ->
      truthy_str (openai_api_key settings)
      || truthy_str (anthropic_api_key settings) = true ->
      dict_lookup str_eqb (Main.checks (Main.readiness_check settings))
        (lit "llm") = Some (lit "configured")
      /\ exists e, LLMService.__init__ env settings = Raise e).
Proof.
  assert (L : dict_lookup str_eqb (Main.checks (Main.readiness_check settings))
                (lit "llm")
              = Some (if truthy_str (openai_api_key settings)
                         || truthy_str (anthropic_api_key settings)
                      then lit "configured" else lit "not_configured"))
    by reflexivity.
  split; [reflexivity|]. split; [reflexivity|]. split; [reflexivity|].
  split; [exact L|].
  intros Hs Hk. rewrite L, Hk. split; [reflexivity|].
  unfold LLMService.__init__, LLMService._initialize_llm, try_except.
  unfold selected_api_key in Hs.
  destruct (str_eqb (llm_provider settings) (lit "anthropic")).
  - destruct (anthropic_api_key settings) as [[|c k]|];
      try discriminate; eexists; reflexivity.
  - destruct (openai_api_key settings) as [[|c k]|];
      try discriminate; eexists; reflexivity.
Qed.

Lemma X17_witness :
  dict_lookup str_eqb (Main.checks (Main.readiness_check settings_other_key))
    (lit "llm") = Some (lit "configured")
  /\ exists e, LLMService.__init__ quiet_env settings_other_key = Raise e.
Proof.
  destruct (X17_readiness_probe quiet_env settings_other_key)
    as (_ & _ & _ & _ & H).
  apply H; reflexivity.
Defined.

(** ** A blank response *)

Lemma strip_blank (s : str) : all_space s -> strip s = [].
Proof.
  intros H.
  pose proof (@strip_unique s [] [] H (Forall_nil _)) as E.
  rewrite !app_nil_r in E. apply E. now split.
Qed.

(** X18. A response that is empty or consists of white space only is
    not an error: the parser returns the fallback result, and the
    description of its finding is the empty string. *)
Theorem X18_blank_response_falls_back (limits : Limits)
  (response : str) :
  all_space response ->
  LLMService.strip_fences response = []
  /\ LLMService._parse_llm_response limits response
     = Ok (LLMService.fallback []).
Proof.
  intros H.
  assert (E : LLMService.strip_fences response = []).
  { unfold LLMService.strip_fences. cbv zeta.
    rewrite (strip_blank H). reflexivity. }
  split; [exact E|].
  unfold LLMService._parse_llm_response. cbv zeta. now rewrite E.
Qed.

Lemma X18_witness :
  LLMService.strip_fences [32; 10; 9]%N = []
  /\ LLMService._parse_llm_response cpython_limits [32; 10; 9]%N
     = Ok (LLMService.fallback []).
Proof.
  apply (@X18_blank_response_falls_back cpython_limits [32; 10; 9]%N).
  repeat constructor.
Defined.

(** ** Answers to a misconfigured service *)

(** X19. With no project id configured, the analysis route answers every
    request with status 502 "GCP integration failed" and the code
    GCP_CLIENT_INIT_ERROR, without any outside call, whatever the model
    configuration is. When the log client can be constructed and the key
    of the selected model provider is missing, it answers 502 "LLM
    analysis failed" with the code LLM_INIT_ERROR, again without any
    outside call. *)
Theorem X19_misconfiguration_answers (env : Env) (settings : Settings)
  (lax : Pydantic.Lax) (request : Schemas.LogAnalysisRequest)
  (t : list event) :
  (truthy_str (gcp_project_id settings) = false ->
   exists e,
     Routes.analyze_logs env settings lax request t = (Raise e, t)
     /\ exn_cls e = HTTPException 502
     /\ str_of_exn e = lit "GCP integration failed"
     /\ In (lit "code", lit "GCP_CLIENT_INIT_ERROR") (exn_context e))
  /\ (forall client,
        GCPLoggingClient.__init__ env settings = Ok client ->
        truthy_str (selected_api_key settings) = false ->
        exists e,
          Routes.analyze_logs env settings lax request t = (Raise e, t)
          /\ exn_cls e = HTTPException 502
          /\ str_of_exn e = lit "LLM analysis failed"
          /\ In (lit "code", lit "LLM_INIT_ERROR") (exn_context e)).
Proof.
  unfold Routes.analyze_logs, Routes.run_analysis, mtry, mbind, lift,
    AnalysisService.__init__.
  split.
  - intros Hp.
    unfold GCPLoggingClient.__init__, GCPLoggingClient._initialize_client,
      try_except.
    rewrite Hp. cbn [negb bind].
    eexists. split; [reflexivity|]. repeat split. cbn. tauto.
  - intros client Hc Hk. rewrite Hc. cbn [bind].
    unfold LLMService.__init__, LLMService._initialize_llm, try_except.
    unfold selected_api_key in Hk.
    destruct (str_eqb (llm_provider settings) (lit "anthropic")).
    + destruct (anthropic_api_key settings) as [[|c k]|];
        try discriminate; cbn [bind];
        (eexists; split; [reflexivity|]; repeat split; cbn; tauto).
    + destruct (openai_api_key settings) as [[|c k]|];
        try discriminate; cbn [bind];
        (eexists; split; [reflexivity|]; repeat split; cbn; tauto).
Qed.

Lemma X19_witness :
  exists e,
    Routes.analyze_logs quiet_env settings_without_project Pydantic.plain
      sample_request [] = (Raise e, [])
    /\ exn_cls e = HTTPException 502
    /\ str_of_exn e = lit "GCP integration failed"
    /\ In (lit "code", lit "GCP_CLIENT_INIT_ERROR") (exn_context e).
Proof.
  apply (proj1 (X19_misconfiguration_answers quiet_env
                  settings_without_project Pydantic.plain sample_request
                  [])).
  reflexivity.
Defined.

(** ** Fields that a raw finding carries *)

(** X20. In a finding that is materialised, every field that the raw
    object carries is copied unchanged: severity, title, description and
    suggested_fix are the strings given, an integer count is the count,
    code_example is the string given or None for null. Conversely a raw
    object is materialised only if each of title, description and
    suggested_fix that it carries is a string, and its code_example, if
    any, a string or null. *)
Theorem X20_present_fields_are_copied (lax : Pydantic.Lax) (d : pydict)
  (f : Schemas.AnalysisFinding) :
  AnalysisService.convert_finding lax (PDict d) = Ok f ->
  (forall v, get d (lit "severity") = Some v -> v = PStr (Schemas.severity f))
  /\ (forall v, get d (lit "title") = Some v -> v = PStr (Schemas.title f))
  /\ (forall v, get d (lit "description") = Some v ->
        v = PStr (Schemas.description f))
  /\ (forall v, get d (lit "suggested_fix") = Some v ->
        v = PStr (Schemas.suggested_fix f))
  /\ (forall n, get d (lit "affected_logs_count") = Some (PInt n) ->
        Schemas.affected_logs_count f = n)
  /\ (forall v, get d (lit "code_example") = Some v ->
        match Schemas.code_example f with
        | Some s => v = PStr s
        | None => v = PNone
        end).
Proof.
  unfold AnalysisService.convert_finding. cbn [py_get bind].
  unfold Schemas.new_AnalysisFinding.
  destruct (Pydantic.validate_literal _ _) as [sev|] eqn:E1;
    [|discriminate].
  destruct (Pydantic.validate_str (get_default d (lit "title") _))
    as [tt|] eqn:E2; [|discriminate].
  destruct (Pydantic.validate_str (get_default d (lit "description") _))
    as [ds|] eqn:E3; [|discriminate].
  destruct (Pydantic.validate_int lax _) as [n|] eqn:E4; [|discriminate].
  destruct (Pydantic.validate_str (get_default d (lit "suggested_fix") _))
    as [fx|] eqn:E5; [|discriminate].
  destruct (Pydantic.validate_optional_str _) as [ce|] eqn:E6;
    [|discriminate].
  intros H. injection H as <-. cbn [Schemas.severity Schemas.title
    Schemas.description Schemas.affected_logs_count Schemas.suggested_fix
    Schemas.code_example].
  repeat split.
  - intros v Hg. rewrite get_default_present with (v := v) in E1
      by exact Hg.
    unfold Pydantic.validate_literal in E1. destruct v; try discriminate.
    destruct (existsb (str_eqb s) Schemas.severity_values);
      [|discriminate].
    now injection E1 as <-.
  - intros v Hg. rewrite get_default_present with (v := v) in E2
      by exact Hg.
    destruct v; try discriminate. now injection E2 as <-.
  - intros v Hg. rewrite get_default_present with (v := v) in E3
      by exact Hg.
    destruct v; try discriminate. now injection E3 as <-.
  - intros v Hg. rewrite get_default_present with (v := v) in E5
      by exact Hg.
    destruct v; try discriminate. now injection E5 as <-.
  - intros m Hg. rewrite get_default_present with (v := PInt m) in E4
      by exact Hg.
    now injection E4 as <-.
  - intros v Hg. rewrite get_default_present with (v := v) in E6
      by exact Hg.
    destruct v; try discriminate; now injection E6 as <-.
Qed.

Lemma X20_witness :
  exists f,
    AnalysisService.convert_finding Pydantic.plain finding_high = Ok f
    /\ PStr (lit "Timeouts") = PStr (Schemas.title f)
    /\ PStr (lit "high") = PStr (Schemas.severity f).
Proof.
  eexists.
  assert (E : AnalysisService.convert_finding Pydantic.plain finding_high
              = Ok _) by reflexivity.
  split; [exact E|].
  destruct (X20_present_fields_are_copied _ _ E) as (H1 & H2 & _).
  split; [apply H2 | apply H1]; reflexivity.
Defined.
